(** * FF7 LGP Explorer: the binary asset codec layer

    A shallow embedding of the texture codec ([src/texfile.ts]), the resource
    descriptor and field skeleton parsers ([src/rsdfile.ts]) and the field
    animation parser ([src/animfile.ts]), with the properties the
    specification states about them, followed by further properties of the
    same code and of what the hex viewer computes from the bytes
    ([src/components/HexViewer.jsx]).

    Conventions.
    - A [Uint8Array] is a [list byte]; reading past its end gives [None]
      (JavaScript's [undefined]).
    - JavaScript numbers that the code only uses as integers are in [Z]; every
      product and sum the codec computes stays far below 2^53, so [Z]
      arithmetic is exact for them.
    - A thrown exception is the [Err] branch of [result]. *)

From Stdlib Require Import ZArith List Bool Lia String Ascii.
From Stdlib Require Import Strings.Byte.
From Stdlib Require Import Floats.
Import ListNotations.
Open Scope Z_scope.

(** ** Results and exceptions *)

Inductive result (E A : Type) : Type :=
| Ok (a : A)
| Err (e : E).
Arguments Ok {E A} a.
Arguments Err {E A} e.

Definition bindR {E A B} (r : result E A) (k : A -> result E B) : result E B :=
  match r with
  | Ok a => k a
  | Err e => Err e
  end.

Notation "x <~ r ;; k" := (bindR r (fun x => k))
  (at level 61, r at next level, right associativity).

(** ** Typed arrays and data views *)

Definition Uint8Array := list byte.

Definition byteLength (a : Uint8Array) : Z := Z.of_nat (List.length a).

Definition byte_to_Z (b : byte) : Z := Z.of_N (Byte.to_N b).

(** Storing a number in a [Uint8Array] keeps it modulo 256. *)
Definition ToUint8 (z : Z) : byte :=
  match Byte.of_N (Z.to_N (z mod 256)) with
  | Some b => b
  | None => x00
  end.

(** [a[i]] for an integer [i]. *)
Definition get (a : Uint8Array) (i : Z) : option byte :=
  if i <? 0 then None else nth_error a (Z.to_nat i).

(** [a[i] = b]: a write outside the array is ignored. *)
Fixpoint set_nth (a : Uint8Array) (n : nat) (b : byte) : Uint8Array :=
  match a, n with
  | [], _ => []
  | _ :: t, O => b :: t
  | h :: t, S n' => h :: set_nth t n' b
  end.

Definition put (a : Uint8Array) (i : Z) (b : byte) : Uint8Array :=
  if i <? 0 then a else set_nth a (Z.to_nat i) b.

Inductive JsError : Type :=
| RangeError
| TypeError.

(** [new Uint8Array(n)]: [n] zero bytes; a negative length throws. *)
Definition zeros (n : Z) : Uint8Array := repeat x00 (Z.to_nat n).

Definition Uint8Array_new (n : Z) : result JsError Uint8Array :=
  if n <? 0 then Err RangeError else Ok (zeros n).

(** [a.slice(s, e)] for [0 <= s <= e]; the result has a buffer of its own. *)
Definition slice (a : Uint8Array) (s e : Z) : Uint8Array :=
  firstn (Z.to_nat (e - s)) (skipn (Z.to_nat s) a).

(** The byte at [i] as a number, 0 outside the array (only used under a
    bounds check). *)
Definition u8_at (a : Uint8Array) (i : Z) : Z :=
  byte_to_Z (nth (Z.to_nat i) a x00).

Definition u16_at (a : Uint8Array) (i : Z) : Z :=
  u8_at a i + 256 * u8_at a (i + 1).

Definition u32_at (a : Uint8Array) (i : Z) : Z :=
  u8_at a i + 256 * u8_at a (i + 1) + 65536 * u8_at a (i + 2)
  + 16777216 * u8_at a (i + 3).

(** [new DataView(buffer, byteOffset, byteLength)] *)
Record DataView : Type := mkDataView {
  dv_buffer : Uint8Array;
  dv_byteOffset : Z;
  dv_byteLength : Z
}.

Definition DataView_new (buffer : Uint8Array) (byteOffset len : Z)
  : result JsError DataView :=
  if (byteOffset <? 0) || (len <? 0) || (byteLength buffer <? byteOffset + len)
  then Err RangeError
  else Ok (mkDataView buffer byteOffset len).

Definition DataView_of (buffer : Uint8Array) : DataView :=
  mkDataView buffer 0 (byteLength buffer).

(** Little-endian reads; a read that does not fit in the view throws. *)
Definition getUint8 (v : DataView) (off : Z) : result JsError Z :=
  if (off <? 0) || (dv_byteLength v <? off + 1) then Err RangeError
  else Ok (u8_at (dv_buffer v) (dv_byteOffset v + off)).

Definition getUint16 (v : DataView) (off : Z) : result JsError Z :=
  if (off <? 0) || (dv_byteLength v <? off + 2) then Err RangeError
  else Ok (u16_at (dv_buffer v) (dv_byteOffset v + off)).

Definition getUint32 (v : DataView) (off : Z) : result JsError Z :=
  if (off <? 0) || (dv_byteLength v <? off + 4) then Err RangeError
  else Ok (u32_at (dv_buffer v) (dv_byteOffset v + off)).

(** The four little-endian bytes of [ToUint32 v]. *)
Definition le32 (v : Z) : list byte :=
  let w := v mod 4294967296 in
  [ToUint8 w; ToUint8 (w / 256); ToUint8 (w / 65536); ToUint8 (w / 16777216)].

(** [target.set(source, offset)]: throws when the source does not fit. *)
Definition Uint8Array_set (target source : Uint8Array) (offset : Z)
  : result JsError Uint8Array :=
  if (offset <? 0) || (byteLength target <? offset + byteLength source)
  then Err RangeError
  else Ok (firstn (Z.to_nat offset) target ++ source
           ++ skipn (Z.to_nat offset + List.length source) target).

(** [view.setUint32(off, v, true)] on a view of the whole array; an
    [undefined] value is written as 0. *)
Definition setUint32 (out : Uint8Array) (off : Z) (v : Z)
  : result JsError Uint8Array :=
  if (off <? 0) || (byteLength out <? off + 4) then Err RangeError
  else Uint8Array_set out (le32 v) off.

(** ** 32-bit integer operators *)

Definition ToInt32 (x : Z) : Z := (x + 2147483648) mod 4294967296 - 2147483648.
Definition ToUint32 (x : Z) : Z := x mod 4294967296.

(** [a & b], [a >> n] and [a << n]: operands become signed 32-bit integers
    and the shift count is taken modulo 32. *)
Definition js_and (a b : Z) : Z := Z.land (ToInt32 a) (ToInt32 b).
Definition js_sar (a n : Z) : Z := Z.shiftr (ToInt32 a) (ToUint32 n mod 32).
Definition js_shl (a n : Z) : Z :=
  ToInt32 (Z.shiftl (ToInt32 a) (ToUint32 n mod 32)).

(** ** The [for (let i = 0; i < n; i++)] loop *)

Fixpoint for_from {E S : Type} (n : nat) (i : Z)
  (body : Z -> S -> result E S) (s : S) : result E S :=
  match n with
  | O => Ok s
  | Datatypes.S n' =>
      match body i s with
      | Ok s' => for_from n' (i + 1) body s'
      | Err e => Err e
      end
  end.

Definition for_loop {E S : Type} (n : Z) (body : Z -> S -> result E S) (s : S)
  : result E S :=
  for_from (Z.to_nat n) 0 body s.

(** ** binary-parser

    The header reader of [texfile.ts] is written with the [binary-parser]
    package.  A parser threads the read offset through the buffer;
    [uint32le] reads through a [DataView] and so throws when the four bytes
    are not all inside the buffer, while [skip], [seek] and [saveOffset]
    only move or report the offset. *)

Module Parser.

Definition t (A : Type) : Type := Uint8Array -> Z -> option (A * Z).

Definition ret {A} (a : A) : t A := fun _ off => Some (a, off).

Definition bind {A B} (p : t A) (k : A -> t B) : t B :=
  fun buf off =>
    match p buf off with
    | Some (a, off') => k a buf off'
    | None => None
    end.

Definition uint32le : t Z :=
  fun buf off =>
    match getUint32 (DataView_of buf) off with
    | Ok v => Some (v, off + 4)
    | Err _ => None
    end.

Definition seek (rel : Z) : t unit := fun _ off => Some (tt, off + rel).

Definition skip (n : Z) : t unit := seek n.

Definition saveOffset : t Z := fun _ off => Some (off, off).

(** [parser.parse(data)]: [None] when a read throws. *)
Definition parse {A} (p : t A) (data : Uint8Array) : option A :=
  match p data 0 with
  | Some (a, _) => Some a
  | None => None
  end.

End Parser.

Notation "x <- p ;; k" := (Parser.bind p (fun x => k))
  (at level 61, p at next level, right associativity).
Notation "p ;;; k" := (Parser.bind p (fun _ => k))
  (at level 61, right associativity).

(** ** texfile.ts *)

Module Tex.

Record PixelFormat : Type := mkPixelFormat {
  redBits : Z;
  greenBits : Z;
  blueBits : Z;
  alphaBits : Z;
  redMask : Z;
  greenMask : Z;
  blueMask : Z;
  alphaMask : Z;
  redShift : Z;
  greenShift : Z;
  blueShift : Z;
  alphaShift : Z;
  redLoss : Z;
  greenLoss : Z;
  blueLoss : Z;
  alphaLoss : Z;
  redMax : Z;
  greenMax : Z;
  blueMax : Z;
  alphaMax : Z
}.

(** [paletteIndex] is declared by the interface but no parser field sets
    it: it is [undefined] ([None]) on a freshly decoded texture.  [palette]
    and [colorKeyArray] are the optional members; [pixels] is assigned by
    the constructor. *)
Record TexData : Type := mkTexData {
  version : Z;
  colorKeyFlag : Z;
  minBitsPerColor : Z;
  maxBitsPerColor : Z;
  minAlphaBits : Z;
  maxAlphaBits : Z;
  minBitsPerPixel : Z;
  maxBitsPerPixel : Z;
  numPalettes : Z;
  colorsPerPalette : Z;
  bitDepth : Z;
  width : Z;
  height : Z;
  bytesPerRow : Z;
  paletteFlag : Z;
  bitsPerIndex : Z;
  indexedTo8bit : Z;
  paletteSize : Z;
  colorsPerPaletteAgain : Z;
  bitsPerPixel : Z;
  bytesPerPixel : Z;
  pixelFormat : PixelFormat;
  colorKeyArrayFlag : Z;
  referenceAlpha : Z;
  paletteIndex : option Z;
  palette : option Uint8Array;
  pixels : Uint8Array;
  colorKeyArray : option Uint8Array;
  _formatIndicator : Z;
  _headerSize : Z
}.

Import Parser.

Definition pixelFormatParser : Parser.t PixelFormat :=
  redBits <- uint32le ;;
  greenBits <- uint32le ;;
  blueBits <- uint32le ;;
  alphaBits <- uint32le ;;
  redMask <- uint32le ;;
  greenMask <- uint32le ;;
  blueMask <- uint32le ;;
  alphaMask <- uint32le ;;
  redShift <- uint32le ;;
  greenShift <- uint32le ;;
  blueShift <- uint32le ;;
  alphaShift <- uint32le ;;
  redLoss <- uint32le ;;
  greenLoss <- uint32le ;;
  blueLoss <- uint32le ;;
  alphaLoss <- uint32le ;;
  redMax <- uint32le ;;
  greenMax <- uint32le ;;
  blueMax <- uint32le ;;
  alphaMax <- uint32le ;;
  ret (mkPixelFormat redBits greenBits blueBits alphaBits
         redMask greenMask blueMask alphaMask
         redShift greenShift blueShift alphaShift
         redLoss greenLoss blueLoss alphaLoss
         redMax greenMax blueMax alphaMax).

(** The header parser for both layouts.  The field at 0x2C is read as
    [_formatIndicator]; the [seek] callback rewinds by 4 when it is not
    zero, so that the same bytes are read again as [numPalettes]. *)
Definition texHeaderParser : Parser.t TexData :=
  version <- uint32le ;;
  skip 4 ;;;
  colorKeyFlag <- uint32le ;;
  skip 8 ;;;
  minBitsPerColor <- uint32le ;;
  maxBitsPerColor <- uint32le ;;
  minAlphaBits <- uint32le ;;
  maxAlphaBits <- uint32le ;;
  minBitsPerPixel <- uint32le ;;
  maxBitsPerPixel <- uint32le ;;
  _formatIndicator <- uint32le ;;
  seek (if negb (_formatIndicator =? 0) then -4 else 0) ;;;
  numPalettes <- uint32le ;;
  colorsPerPalette <- uint32le ;;
  bitDepth <- uint32le ;;
  width <- uint32le ;;
  height <- uint32le ;;
  bytesPerRow <- uint32le ;;
  skip 4 ;;;
  paletteFlag <- uint32le ;;
  bitsPerIndex <- uint32le ;;
  indexedTo8bit <- uint32le ;;
  paletteSize <- uint32le ;;
  colorsPerPaletteAgain <- uint32le ;;
  skip 4 ;;;
  bitsPerPixel <- uint32le ;;
  bytesPerPixel <- uint32le ;;
  pixelFormat <- pixelFormatParser ;;
  colorKeyArrayFlag <- uint32le ;;
  skip 4 ;;;
  referenceAlpha <- uint32le ;;
  skip 36 ;;;
  _headerSize <- saveOffset ;;
  ret {| version := version;
         colorKeyFlag := colorKeyFlag;
         minBitsPerColor := minBitsPerColor;
         maxBitsPerColor := maxBitsPerColor;
         minAlphaBits := minAlphaBits;
         maxAlphaBits := maxAlphaBits;
         minBitsPerPixel := minBitsPerPixel;
         maxBitsPerPixel := maxBitsPerPixel;
         numPalettes := numPalettes;
         colorsPerPalette := colorsPerPalette;
         bitDepth := bitDepth;
         width := width;
         height := height;
         bytesPerRow := bytesPerRow;
         paletteFlag := paletteFlag;
         bitsPerIndex := bitsPerIndex;
         indexedTo8bit := indexedTo8bit;
         paletteSize := paletteSize;
         colorsPerPaletteAgain := colorsPerPaletteAgain;
         bitsPerPixel := bitsPerPixel;
         bytesPerPixel := bytesPerPixel;
         pixelFormat := pixelFormat;
         colorKeyArrayFlag := colorKeyArrayFlag;
         referenceAlpha := referenceAlpha;
         paletteIndex := None;
         palette := None;
         pixels := [];
         colorKeyArray := None;
         _formatIndicator := _formatIndicator;
         _headerSize := _headerSize |}.

Definition isValidTexData (data : TexData) : bool :=
  (0 <? width data) && (width data <=? 4096) &&
  (0 <? height data) && (height data <=? 4096) &&
  (0 <? bitDepth data) && (bitDepth data <=? 32) &&
  (0 <? bytesPerPixel data) && (bytesPerPixel data <=? 4).

(** The errors the constructor throws, by their message:
    - [HeaderParseFailed]: "Failed to parse TEX header: ..." (the parser
      threw, which it only does on a read outside the buffer);
    - [InvalidTexData w h bitDepth bytesPerPixel]: "Invalid TEX data:
      WxH, bitDepth=..., bytesPerPixel=...";
    - [TruncatedPalette offset fileSize]: "TEX file truncated: expected
      palette at offset ..., file size ...";
    - [TruncatedPixels size offset fileSize]: "TEX file truncated: expected
      ... bytes of pixel data at offset ..., file size ...". *)
Inductive TexError : Type :=
| HeaderParseFailed
| InvalidTexData (w h bitDepth bytesPerPixel : Z)
| TruncatedPalette (offset fileSize : Z)
| TruncatedPixels (pixelDataSize offset fileSize : Z).

Definition with_palette (d : TexData) (p : Uint8Array) : TexData :=
  {| version := version d; colorKeyFlag := colorKeyFlag d;
     minBitsPerColor := minBitsPerColor d; maxBitsPerColor := maxBitsPerColor d;
     minAlphaBits := minAlphaBits d; maxAlphaBits := maxAlphaBits d;
     minBitsPerPixel := minBitsPerPixel d; maxBitsPerPixel := maxBitsPerPixel d;
     numPalettes := numPalettes d; colorsPerPalette := colorsPerPalette d;
     bitDepth := bitDepth d; width := width d; height := height d;
     bytesPerRow := bytesPerRow d; paletteFlag := paletteFlag d;
     bitsPerIndex := bitsPerIndex d; indexedTo8bit := indexedTo8bit d;
     paletteSize := paletteSize d;
     colorsPerPaletteAgain := colorsPerPaletteAgain d;
     bitsPerPixel := bitsPerPixel d; bytesPerPixel := bytesPerPixel d;
     pixelFormat := pixelFormat d; colorKeyArrayFlag := colorKeyArrayFlag d;
     referenceAlpha := referenceAlpha d; paletteIndex := paletteIndex d;
     palette := Some p;
     pixels := pixels d; colorKeyArray := colorKeyArray d;
     _formatIndicator := _formatIndicator d; _headerSize := _headerSize d |}.

Definition with_pixels (d : TexData) (p : Uint8Array) : TexData :=
  {| version := version d; colorKeyFlag := colorKeyFlag d;
     minBitsPerColor := minBitsPerColor d; maxBitsPerColor := maxBitsPerColor d;
     minAlphaBits := minAlphaBits d; maxAlphaBits := maxAlphaBits d;
     minBitsPerPixel := minBitsPerPixel d; maxBitsPerPixel := maxBitsPerPixel d;
     numPalettes := numPalettes d; colorsPerPalette := colorsPerPalette d;
     bitDepth := bitDepth d; width := width d; height := height d;
     bytesPerRow := bytesPerRow d; paletteFlag := paletteFlag d;
     bitsPerIndex := bitsPerIndex d; indexedTo8bit := indexedTo8bit d;
     paletteSize := paletteSize d;
     colorsPerPaletteAgain := colorsPerPaletteAgain d;
     bitsPerPixel := bitsPerPixel d; bytesPerPixel := bytesPerPixel d;
     pixelFormat := pixelFormat d; colorKeyArrayFlag := colorKeyArrayFlag d;
     referenceAlpha := referenceAlpha d; paletteIndex := paletteIndex d;
     palette := palette d;
     pixels := p; colorKeyArray := colorKeyArray d;
     _formatIndicator := _formatIndicator d; _headerSize := _headerSize d |}.

Definition with_colorKeyArray (d : TexData) (p : Uint8Array) : TexData :=
  {| version := version d; colorKeyFlag := colorKeyFlag d;
     minBitsPerColor := minBitsPerColor d; maxBitsPerColor := maxBitsPerColor d;
     minAlphaBits := minAlphaBits d; maxAlphaBits := maxAlphaBits d;
     minBitsPerPixel := minBitsPerPixel d; maxBitsPerPixel := maxBitsPerPixel d;
     numPalettes := numPalettes d; colorsPerPalette := colorsPerPalette d;
     bitDepth := bitDepth d; width := width d; height := height d;
     bytesPerRow := bytesPerRow d; paletteFlag := paletteFlag d;
     bitsPerIndex := bitsPerIndex d; indexedTo8bit := indexedTo8bit d;
     paletteSize := paletteSize d;
     colorsPerPaletteAgain := colorsPerPaletteAgain d;
     bitsPerPixel := bitsPerPixel d; bytesPerPixel := bytesPerPixel d;
     pixelFormat := pixelFormat d; colorKeyArrayFlag := colorKeyArrayFlag d;
     referenceAlpha := referenceAlpha d; paletteIndex := paletteIndex d;
     palette := palette d;
     pixels := pixels d; colorKeyArray := Some p;
     _formatIndicator := _formatIndicator d; _headerSize := _headerSize d |}.

(** [new TexFile(data)]: the decoded [this.data], or the error thrown. *)
Definition TexFile_constructor (data : Uint8Array) : result TexError TexData :=
  match Parser.parse texHeaderParser data with
  | None => Err HeaderParseFailed
  | Some header =>
      if negb (isValidTexData header) then
        Err (InvalidTexData (width header) (height header)
               (bitDepth header) (bytesPerPixel header))
      else
        let this := header in
        let offset := _headerSize this in
        (* Read palette if present *)
        st <~ (if negb (paletteFlag this =? 0) then
                 let paletteSize := paletteSize this * 4 in
                 if byteLength data <? offset + paletteSize then
                   Err (TruncatedPalette offset (byteLength data))
                 else
                   Ok (with_palette this
                         (slice data offset (offset + paletteSize)),
                       offset + paletteSize)
               else Ok (this, offset)) ;;
        let '(this, offset) := st in
        (* Read pixel data *)
        let pixelDataSize := width this * height this * bytesPerPixel this in
        if byteLength data <? offset + pixelDataSize then
          Err (TruncatedPixels pixelDataSize offset (byteLength data))
        else
          let this := with_pixels this (slice data offset (offset + pixelDataSize)) in
          let offset := offset + pixelDataSize in
          (* Read color key array if present *)
          if negb (colorKeyArrayFlag this =? 0) then
            let colorKeyArraySize := numPalettes this in
            if offset + colorKeyArraySize <=? byteLength data then
              Ok (with_colorKeyArray this
                    (slice data offset (offset + colorKeyArraySize)))
            else Ok this
          else Ok this
  end.

(** [Math.floor(a / b)] for integers [0 <= a, b < 2^32]: [None] stands for
    the non-finite quotient ([Infinity] or [NaN]) of a division by zero.
    For [b > 0] the double quotient of two such integers has the same
    floor as the exact quotient. *)
Definition floor_div (a b : Z) : option Z :=
  if b =? 0 then None else Some (a / b).

Definition actualColorsPerPalette (d : TexData) : option Z :=
  if 0 <? numPalettes d
  then floor_div (paletteSize d) (numPalettes d)
  else Some (colorsPerPalette d).

(** An index into the palette is a number: [None] is a non-finite or
    missing one, at which every array reads [undefined]. *)
Definition index_read (a : Uint8Array) (i : option Z) : option byte :=
  match i with
  | Some k => get a k
  | None => None
  end.

(** What a [Uint8Array] keeps of a value that may be [undefined]: 0 for
    [undefined]. *)
Definition stored (v : option byte) : byte :=
  match v with
  | Some b => b
  | None => x00
  end.

(** [out[k] = v] where [v] was read from an array. *)
Definition store (out : Uint8Array) (k : Z) (v : option byte) : Uint8Array :=
  put out k (stored v).

Definition shift_index (i : option Z) (k : Z) : option Z :=
  option_map (fun n => n + k) i.

Definition palette_body (d : TexData) (pal : Uint8Array) (paletteOffset : option Z)
  (i : Z) (output : Uint8Array) : result JsError Uint8Array :=
  let colorIndex :=
    match get (pixels d) i, paletteOffset with
    | Some p, Some o => Some (byte_to_Z p * 4 + o)
    | _, _ => None
    end in
  let output := store output (i * 4) (index_read pal (shift_index colorIndex 2)) in
  let output := store output (i * 4 + 1) (index_read pal (shift_index colorIndex 1)) in
  let output := store output (i * 4 + 2) (index_read pal colorIndex) in
  let output := store output (i * 4 + 3) (index_read pal (shift_index colorIndex 3)) in
  Ok output.

(** One channel of a direct-color pixel. *)
Definition channel (value mask shift bits : Z) : Z :=
  js_shl (js_sar (js_and value mask) shift) (8 - bits).

(** One iteration of the direct-colour loop.  [this.data.pixels] is a
    [slice] of the input, so [pixels.buffer] holds its bytes and nothing
    else. *)
Definition direct_body (d : TexData) (i : Z) (output : Uint8Array)
  : result JsError Uint8Array :=
  let format := pixelFormat d in
  let bytesPerPixel := bytesPerPixel d in
  let pixelOffset := i * bytesPerPixel in
  pixel <~ DataView_new (pixels d) pixelOffset bytesPerPixel ;;
  value <~ (if bytesPerPixel =? 2 then getUint16 pixel 0 else getUint32 pixel 0) ;;
  let r := channel value (redMask format) (redShift format) (redBits format) in
  let g := channel value (greenMask format) (greenShift format) (greenBits format) in
  let b := channel value (blueMask format) (blueShift format) (blueBits format) in
  let a := if 0 <? alphaBits format
           then channel value (alphaMask format) (alphaShift format) (alphaBits format)
           else 255 in
  let output := put output (i * 4) (ToUint8 r) in
  let output := put output (i * 4 + 1) (ToUint8 g) in
  let output := put output (i * 4 + 2) (ToUint8 b) in
  let output := put output (i * 4 + 3) (ToUint8 a) in
  Ok output.

(** [getPixels(paletteIndex)], for an integer [paletteIndex] (0 when the
    argument is left out). *)
Definition getPixels (d : TexData) (paletteIndex : Z) : result JsError Uint8Array :=
  let numPixels := width d * height d in
  output <~ Uint8Array_new (numPixels * 4) ;;
  if negb (paletteFlag d =? 0) then
    let actualColorsPerPalette := actualColorsPerPalette d in
    let paletteOffset :=
      option_map (fun c => paletteIndex * c * 4) actualColorsPerPalette in
    match palette d with
    | None => if 0 <? numPixels then Err TypeError else Ok output
    | Some pal => for_loop numPixels (palette_body d pal paletteOffset) output
    end
  else
    for_loop numPixels (direct_body d) output.

(** [writeFile] keeps a cursor [offset] next to the output array. *)
Definition Writer : Type := Uint8Array * Z -> result JsError (Uint8Array * Z).

Definition andThen (w1 w2 : Writer) : Writer :=
  fun st => st' <~ w1 st ;; w2 st'.

(** [view.setUint32(offset, v, true)] *)
Definition view_setUint32 (v : Z) : Writer :=
  fun '(out, offset) => out' <~ setUint32 out offset v ;; Ok (out', offset).

(** [offset += n] *)
Definition offset_add (n : Z) : Writer :=
  fun '(out, offset) => Ok (out, offset + n).

(** [out.set(a, offset)] *)
Definition out_set (a : Uint8Array) : Writer :=
  fun '(out, offset) => out' <~ Uint8Array_set out a offset ;; Ok (out', offset).

Definition skip_write : Writer := fun st => Ok st.

Definition number_or_undefined (v : option Z) : Z :=
  match v with Some n => n | None => 0 end.

Local Infix ">>" := andThen (at level 62, left associativity).

Definition writeHeader (d : TexData) : Writer :=
  view_setUint32 (version d) >> offset_add 4 >>
  offset_add 4 >>  (* Skip unknown *)
  view_setUint32 (colorKeyFlag d) >> offset_add 4 >>
  offset_add 12 >>  (* Skip unknown *)
  view_setUint32 (minBitsPerColor d) >> offset_add 4 >>
  view_setUint32 (maxBitsPerColor d) >> offset_add 4 >>
  view_setUint32 (minAlphaBits d) >> offset_add 4 >>
  view_setUint32 (maxAlphaBits d) >> offset_add 4 >>
  view_setUint32 (minBitsPerPixel d) >> offset_add 4 >>
  view_setUint32 (maxBitsPerPixel d) >> offset_add 4 >>
  offset_add 4 >>  (* Skip unknown *)
  view_setUint32 (numPalettes d) >> offset_add 4 >>
  view_setUint32 (colorsPerPalette d) >> offset_add 4 >>
  view_setUint32 (bitDepth d) >> offset_add 4 >>
  view_setUint32 (width d) >> offset_add 4 >>
  view_setUint32 (height d) >> offset_add 4 >>
  view_setUint32 (bytesPerRow d) >> offset_add 4 >>
  offset_add 4 >>  (* Skip unknown *)
  view_setUint32 (paletteFlag d) >> offset_add 4 >>
  view_setUint32 (bitsPerIndex d) >> offset_add 4 >>
  view_setUint32 (indexedTo8bit d) >> offset_add 4 >>
  view_setUint32 (paletteSize d) >> offset_add 4 >>
  view_setUint32 (colorsPerPaletteAgain d) >> offset_add 4 >>
  offset_add 4 >>  (* Skip runtime data *)
  view_setUint32 (bitsPerPixel d) >> offset_add 4 >>
  view_setUint32 (bytesPerPixel d) >> offset_add 4.

Definition writePixelFormat (f : PixelFormat) : Writer :=
  view_setUint32 (redBits f) >> offset_add 4 >>
  view_setUint32 (greenBits f) >> offset_add 4 >>
  view_setUint32 (blueBits f) >> offset_add 4 >>
  view_setUint32 (alphaBits f) >> offset_add 4 >>
  view_setUint32 (redMask f) >> offset_add 4 >>
  view_setUint32 (greenMask f) >> offset_add 4 >>
  view_setUint32 (blueMask f) >> offset_add 4 >>
  view_setUint32 (alphaMask f) >> offset_add 4 >>
  view_setUint32 (redShift f) >> offset_add 4 >>
  view_setUint32 (greenShift f) >> offset_add 4 >>
  view_setUint32 (blueShift f) >> offset_add 4 >>
  view_setUint32 (alphaShift f) >> offset_add 4 >>
  view_setUint32 (redLoss f) >> offset_add 4 >>
  view_setUint32 (greenLoss f) >> offset_add 4 >>
  view_setUint32 (blueLoss f) >> offset_add 4 >>
  view_setUint32 (alphaLoss f) >> offset_add 4 >>
  view_setUint32 (redMax f) >> offset_add 4 >>
  view_setUint32 (greenMax f) >> offset_add 4 >>
  view_setUint32 (blueMax f) >> offset_add 4 >>
  view_setUint32 (alphaMax f) >> offset_add 4.

Definition writeTrailer (d : TexData) : Writer :=
  view_setUint32 (colorKeyArrayFlag d) >> offset_add 4 >>
  offset_add 4 >>  (* Skip runtime data *)
  view_setUint32 (referenceAlpha d) >> offset_add 4 >>
  offset_add 24 >>  (* Skip runtime data and unknown *)
  view_setUint32 (number_or_undefined (paletteIndex d)) >> offset_add 4 >>
  offset_add 20.  (* Skip unknown *)

Definition writePayload (d : TexData) : Writer :=
  (* Write palette data if present *)
  (match palette d with
   | Some pal =>
       if negb (paletteFlag d =? 0)
       then out_set pal >> offset_add (byteLength pal)
       else skip_write
   | None => skip_write
   end) >>
  (* Write pixel data *)
  out_set (pixels d) >> offset_add (byteLength (pixels d)) >>
  (* Write color key array if present *)
  (match colorKeyArray d with
   | Some cka =>
       if negb (colorKeyArrayFlag d =? 0) then out_set cka else skip_write
   | None => skip_write
   end).

Definition totalSize (d : TexData) : Z :=
  let paletteSize := if negb (paletteFlag d =? 0) then paletteSize d * 4 else 0 in
  let pixelDataSize := width d * height d * bytesPerPixel d in
  let colorKeyArraySize :=
    if negb (colorKeyArrayFlag d =? 0) then numPalettes d else 0 in
  236 + paletteSize + pixelDataSize + colorKeyArraySize.

Definition writeFile (d : TexData) : result JsError Uint8Array :=
  out <~ Uint8Array_new (totalSize d) ;;
  st <~ (writeHeader d >> writePixelFormat (pixelFormat d) >> writeTrailer d
         >> writePayload d) (out, 0) ;;
  Ok (fst st).

(** *** The two header layouts, as the specification describes them

    The field at the fixed offset 0x2C is probed.  In the standard layout
    it is padding and the header is 0xEC bytes long; the alternative layout
    is 4 bytes shorter, the probed bytes are its palette count and every
    later field sits 4 bytes earlier.  The last 36 bytes of a header are
    skipped, not read, so a header is readable as soon as the buffer holds
    what comes before them. *)
Inductive Layout : Type :=
| Standard
| Alternative.

Definition headerSize (l : Layout) : Z :=
  match l with
  | Standard => 236
  | Alternative => 232
  end.

Definition probe (buf : Uint8Array) : option Z :=
  if byteLength buf <? 48 then None else Some (u32_at buf 44).

Definition layout_of (formatIndicator : Z) : Layout :=
  if formatIndicator =? 0 then Standard else Alternative.

Definition read_pixelFormat (buf : Uint8Array) (base : Z) : PixelFormat :=
  {| redBits := u32_at buf base;
     greenBits := u32_at buf (base + 4);
     blueBits := u32_at buf (base + 8);
     alphaBits := u32_at buf (base + 12);
     redMask := u32_at buf (base + 16);
     greenMask := u32_at buf (base + 20);
     blueMask := u32_at buf (base + 24);
     alphaMask := u32_at buf (base + 28);
     redShift := u32_at buf (base + 32);
     greenShift := u32_at buf (base + 36);
     blueShift := u32_at buf (base + 40);
     alphaShift := u32_at buf (base + 44);
     redLoss := u32_at buf (base + 48);
     greenLoss := u32_at buf (base + 52);
     blueLoss := u32_at buf (base + 56);
     alphaLoss := u32_at buf (base + 60);
     redMax := u32_at buf (base + 64);
     greenMax := u32_at buf (base + 68);
     blueMax := u32_at buf (base + 72);
     alphaMax := u32_at buf (base + 76) |}.

Definition read_layout (l : Layout) (buf : Uint8Array) : option TexData :=
  let size := headerSize l in
  if byteLength buf <? size - 36 then None
  else
    Some {| version := u32_at buf 0;
            colorKeyFlag := u32_at buf 8;
            minBitsPerColor := u32_at buf 20;
            maxBitsPerColor := u32_at buf 24;
            minAlphaBits := u32_at buf 28;
            maxAlphaBits := u32_at buf 32;
            minBitsPerPixel := u32_at buf 36;
            maxBitsPerPixel := u32_at buf 40;
            numPalettes := u32_at buf (size - 188);
            colorsPerPalette := u32_at buf (size - 184);
            bitDepth := u32_at buf (size - 180);
            width := u32_at buf (size - 176);
            height := u32_at buf (size - 172);
            bytesPerRow := u32_at buf (size - 168);
            paletteFlag := u32_at buf (size - 160);
            bitsPerIndex := u32_at buf (size - 156);
            indexedTo8bit := u32_at buf (size - 152);
            paletteSize := u32_at buf (size - 148);
            colorsPerPaletteAgain := u32_at buf (size - 144);
            bitsPerPixel := u32_at buf (size - 136);
            bytesPerPixel := u32_at buf (size - 132);
            pixelFormat := read_pixelFormat buf (size - 128);
            colorKeyArrayFlag := u32_at buf (size - 48);
            referenceAlpha := u32_at buf (size - 40);
            paletteIndex := None;
            palette := None;
            pixels := [];
            colorKeyArray := None;
            _formatIndicator := u32_at buf 44;
            _headerSize := size |}.

Definition header_by_probe (buf : Uint8Array) : option TexData :=
  match probe buf with
  | None => None
  | Some v => read_layout (layout_of v) buf
  end.

(** *** The length a buffer needs for its mandatory sections *)

Definition paletteBytes (h : TexData) : Z :=
  if paletteFlag h =? 0 then 0 else paletteSize h * 4.

Definition pixelBytes (h : TexData) : Z :=
  width h * height h * bytesPerPixel h.

Definition requiredLength (h : TexData) : Z :=
  _headerSize h + paletteBytes h + pixelBytes h.

(** The errors for a buffer that is shorter than a mandatory section: the
    header-parse error, which is thrown only when the buffer ends inside the
    header, and the two "TEX file truncated" errors for the palette and the
    pixels. *)
Definition is_truncated (e : TexError) : bool :=
  match e with
  | HeaderParseFailed | TruncatedPalette _ _ | TruncatedPixels _ _ _ => true
  | InvalidTexData _ _ _ _ => false
  end.

(** The texture [t] that the constructor builds from the parsed header
    [h] of a buffer long enough: the header fields are kept as parsed and
    the payload sections are cut out of the buffer. *)
Definition decoded_from (buf : Uint8Array) (h t : TexData) : Prop :=
  width t = width h /\ height t = height h /\
  bitDepth t = bitDepth h /\
  bytesPerPixel t = bytesPerPixel h /\
  paletteFlag t = paletteFlag h /\
  paletteSize t = paletteSize h /\
  numPalettes t = numPalettes h /\
  colorsPerPalette t = colorsPerPalette h /\
  colorKeyArrayFlag t = colorKeyArrayFlag h /\
  pixelFormat t = pixelFormat h /\
  _formatIndicator t = _formatIndicator h /\
  _headerSize t = _headerSize h /\
  palette t
  = (if paletteFlag h =? 0 then None
     else Some (slice buf (_headerSize h) (_headerSize h + paletteBytes h))) /\
  pixels t
  = slice buf (_headerSize h + paletteBytes h) (requiredLength h) /\
  colorKeyArray t
  = (if negb (colorKeyArrayFlag h =? 0)
        && (requiredLength h + numPalettes h <=? byteLength buf)
     then Some (slice buf (requiredLength h)
                  (requiredLength h + numPalettes h))
     else None).

(** The unsigned little-endian integer of [n] bytes at [off]. *)
Fixpoint le_uint (a : Uint8Array) (off : Z) (n : nat) : Z :=
  match n with
  | O => 0
  | S n' => u8_at a off + 256 * le_uint a (off + 1) n'
  end.

(** A writer that keeps the length of the output and moves the cursor
    by [n], whenever it returns. *)
Definition advances (w : Writer) (n : Z) : Prop :=
  forall out off out' off',
    w (out, off) = Ok (out', off') ->
    byteLength out' = byteLength out /\ off' = off + n.

(** The output holds the quadruplet [r, g, b, a] for pixel [i]. *)
Definition quad_at (out : Uint8Array) (i : Z) (r g b a : byte) : Prop :=
  get out (4 * i) = Some r /\ get out (4 * i + 1) = Some g /\
  get out (4 * i + 2) = Some b /\ get out (4 * i + 3) = Some a.

End Tex.

(** ** Strings

    Both text parsers decode their buffer with [new TextDecoder('ascii')],
    the single-byte windows-1252 decoder: it never fails and maps each byte
    to one UTF-16 code unit, injectively.  A decoded string is therefore
    modelled as the [string] of its bytes, and the string operations of the
    code are given on those. *)

Module JsString.

Definition decode (buffer : Uint8Array) : string := string_of_list_byte buffer.

Definition code (c : ascii) : Z := Z.of_N (N_of_ascii c).

(** White space and line terminators among the decoded code units: TAB,
    LF, VT, FF, CR, SPACE and the no-break space (byte 0xA0). *)
Definition isWhiteSpace (c : ascii) : bool :=
  let n := code c in
  ((9 <=? n) && (n <=? 13)) || (n =? 32) || (n =? 160).

Definition isLineTerminator (c : ascii) : bool :=
  let n := code c in (n =? 10) || (n =? 13).

Definition isDigit (c : ascii) : bool :=
  let n := code c in (48 <=? n) && (n <=? 57).

Fixpoint trimStart (s : string) : string :=
  match s with
  | String c s' => if isWhiteSpace c then trimStart s' else s
  | EmptyString => EmptyString
  end.

(** The string without its trailing white space. *)
Fixpoint trimEnd (s : string) : string :=
  match s with
  | String c s' =>
      match trimEnd s' with
      | EmptyString => if isWhiteSpace c then EmptyString else String c EmptyString
      | t => String c t
      end
  | EmptyString => EmptyString
  end.

Definition trim (s : string) : string := trimEnd (trimStart s).

(** [s.split(/\r?\n/)]: [cur] is the piece being read, reversed. *)
Fixpoint rev_string (acc s : string) : string :=
  match s with
  | String c s' => rev_string (String c acc) s'
  | EmptyString => acc
  end.

Fixpoint split_from (cur s : string) : list string :=
  match s with
  | EmptyString => [rev_string EmptyString cur]
  | String c s' =>
      if (code c =? 10) then rev_string EmptyString cur :: split_from EmptyString s'
      else
        match s' with
        | String c' s'' =>
            if (code c =? 13) && (code c' =? 10)
            then rev_string EmptyString cur :: split_from EmptyString s''
            else split_from (String c cur) s'
        | EmptyString => split_from (String c cur) s'
        end
  end.

Definition split_lines (s : string) : list string := split_from EmptyString s.

Definition startsWith (s p : string) : bool := String.prefix p s.

(** [s.substring(n)] *)
Fixpoint substring_from (n : nat) (s : string) : string :=
  match n, s with
  | O, _ => s
  | S n', String _ s' => substring_from n' s'
  | S _, EmptyString => EmptyString
  end.

(** The decimal digits at the head of [s], as a number ([acc] holds the
    digits read so far), and how many were read. *)
Fixpoint digits (acc : Z) (n : nat) (s : string) : Z * nat :=
  match s with
  | String c s' =>
      if isDigit c then digits (10 * acc + (code c - 48)) (S n) s' else (acc, n)
  | EmptyString => (acc, n)
  end.

(** [parseInt(s, 10)]: leading white space is skipped, one sign is
    accepted, then the longest run of digits is read; [None] is [NaN] and
    [Some v] the integer read.  The number JavaScript returns is [v] itself
    when its magnitude is at most 2^53; beyond, it is the nearest double or
    an infinity, which is not modelled: what is stated of a value read is
    stated within that bound, or does not depend on the rounding. *)
Definition parseInt (s : string) : option Z :=
  let s := trimStart s in
  let '(sign, s) :=
    match s with
    | String c s' =>
        if code c =? 45 then (-1, s')
        else if code c =? 43 then (1, s')
        else (1, s)
    | EmptyString => (1, s)
    end in
  match digits 0 O s with
  | (_, O) => None
  | (v, _) => Some (sign * v)
  end.

(** [n || 0] for the result of [parseInt] *)
Definition or_zero (n : option Z) : Z :=
  match n with
  | Some v => v
  | None => 0
  end.

Definition lowerChar (c : ascii) : ascii :=
  let n := code c in
  if ((65 <=? n) && (n <=? 90))
     || ((192 <=? n) && (n <=? 222) && negb (n =? 215))
  then ascii_of_N (Z.to_N (n + 32))
  else if (n =? 138) || (n =? 140) || (n =? 142)
  then ascii_of_N (Z.to_N (n + 16))
  else if n =? 159 then ascii_of_N 255
  else c.

(** [s.toLowerCase()] on a decoded string: the ASCII and Latin-1 capitals
    and the four capitals windows-1252 has among the bytes 0x80-0x9F. *)
Fixpoint toLowerCase (s : string) : string :=
  match s with
  | String c s' => String (lowerChar c) (toLowerCase s')
  | EmptyString => EmptyString
  end.

End JsString.

(** ** rsdfile.ts: the resource descriptor *)

Module RSD.

Import JsString.
Open Scope string_scope.

Record RSDData : Type := mkRSDData {
  id : string;
  plyFile : string;
  matFile : string;
  grpFile : string;
  numTextures : Z;
  textures : list string
}.

Fixpoint takeWhile (f : ascii -> bool) (s : string) : string :=
  match s with
  | String c s' => if f c then String c (takeWhile f s') else EmptyString
  | EmptyString => EmptyString
  end.

Fixpoint dropWhile (f : ascii -> bool) (s : string) : string :=
  match s with
  | String c s' => if f c then dropWhile f s' else s
  | EmptyString => EmptyString
  end.

(** The pattern [TEX\[\d+\]=(.+)] matched at the head of [s]: the
    capture, when it matches.  The dot stops at a line terminator. *)
Definition match_tex_here (s : string) : option string :=
  if startsWith s "TEX[" then
    let r := substring_from 4 s in
    match takeWhile isDigit r with
    | EmptyString => None
    | _ =>
        let r := dropWhile isDigit r in
        if startsWith r "]=" then
          match takeWhile (fun c => negb (isLineTerminator c)) (substring_from 2 r) with
          | EmptyString => None
          | v => Some v
          end
        else None
    end
  else None.

(** [line.match(/TEX\[\d+\]=(.+)/)]: the first place where the pattern
    matches; the result is [match[1]]. *)
Fixpoint match_tex (s : string) : option string :=
  match match_tex_here s with
  | Some v => Some v
  | None =>
      match s with
      | String _ s' => match_tex s'
      | EmptyString => None
      end
  end.

Definition parse_line (data : RSDData) (line : string) : RSDData :=
  if startsWith line "@RSD" then
    mkRSDData line (plyFile data) (matFile data) (grpFile data)
      (numTextures data) (textures data)
  else if startsWith line "PLY=" then
    mkRSDData (id data) (substring_from 4 line) (matFile data) (grpFile data)
      (numTextures data) (textures data)
  else if startsWith line "MAT=" then
    mkRSDData (id data) (plyFile data) (substring_from 4 line) (grpFile data)
      (numTextures data) (textures data)
  else if startsWith line "GRP=" then
    mkRSDData (id data) (plyFile data) (matFile data) (substring_from 4 line)
      (numTextures data) (textures data)
  else if startsWith line "NTEX=" then
    mkRSDData (id data) (plyFile data) (matFile data) (grpFile data)
      (or_zero (parseInt (substring_from 5 line))) (textures data)
  else if startsWith line "TEX[" then
    match match_tex line with
    | Some m =>
        mkRSDData (id data) (plyFile data) (matFile data) (grpFile data)
          (numTextures data) (textures data ++ [m])
    | None => data
    end
  else data.

Definition nonEmpty (l : string) : bool := (0 <? String.length l)%nat.

Definition parse (text : string) : RSDData :=
  let lines := filter nonEmpty (map trim (split_lines text)) in
  let data := mkRSDData "" "" "" "" 0 [] in
  fold_left parse_line lines data.

(** [new RSDFile(buffer)] *)
Definition RSDFile_constructor (buffer : Uint8Array) : RSDData :=
  parse (decode buffer).

End RSD.

(** ** rsdfile.ts: the field skeleton *)

Module HRC.

Import JsString.
Open Scope string_scope.

(** The numeric members are JavaScript numbers ([parseInt] and
    [parseFloat] results, possibly [NaN]): binary64 floats. *)
Record HRCBone : Type := mkHRCBone {
  name : string;
  parentName : string;
  length : float;
  resourceCount : float;
  resources : list string
}.

Record HRCData : Type := mkHRCData {
  headerBlock : float;
  skeletonName : string;
  boneCount : float;
  bones : list HRCBone
}.

(** [a.findIndex(p)]: the first index whose element satisfies [p], or -1. *)
Fixpoint findIndex_from {A : Type} (p : A -> bool) (l : list A) (i : Z) : Z :=
  match l with
  | [] => -1
  | x :: l' => if p x then i else findIndex_from p l' (i + 1)
  end.

Definition findIndex {A : Type} (p : A -> bool) (l : list A) : Z :=
  findIndex_from p l 0.

(** [this.data.bones[boneIndex]] for an integer index *)
Definition bone_at (l : list HRCBone) (i : Z) : option HRCBone :=
  if (i <? 0)%Z then None else nth_error l (Z.to_nat i).

Definition getBoneParentIndex (data : HRCData) (boneIndex : Z) : Z :=
  match bone_at (bones data) boneIndex with
  | None => -1
  | Some bone =>
      (* "root" means no parent *)
      if String.eqb (toLowerCase (parentName bone)) "root" then -1
      else
        (* Find parent by name *)
        findIndex
          (fun b => String.eqb (toLowerCase (name b)) (toLowerCase (parentName bone)))
          (bones data)
  end.

End HRC.

(** ** animfile.ts: the field animation *)

Module Anim.

(** A 32-bit float of the stream is kept as the word that stores it; no
    property below looks at its numeric value. *)
Definition Float32 : Type := Z.

Definition getFloat32 (v : DataView) (off : Z) : result JsError Float32 :=
  getUint32 v off.

Definition getInt32 (v : DataView) (off : Z) : result JsError Z :=
  w <~ getUint32 v off ;; Ok (ToInt32 w).

Record FieldRotation : Type := mkFieldRotation {
  alpha : Float32;
  beta : Float32;
  gamma : Float32
}.

Record Translation : Type := mkTranslation {
  x : Float32;
  y : Float32;
  z : Float32
}.

Record FieldFrame : Type := mkFieldFrame {
  rootRotation : FieldRotation;
  rootTranslation : Translation;
  boneRotations : list FieldRotation
}.

Record FieldAnimationData : Type := mkFieldAnimationData {
  version : Z;
  nFrames : Z;
  nBones : Z;
  rotationOrder : Z * Z * Z;
  frames : list FieldFrame
}.

Definition readRotation (view : DataView) (offset : Z)
  : result JsError FieldRotation :=
  a <~ getFloat32 view offset ;;
  b <~ getFloat32 view (offset + 4) ;;
  c <~ getFloat32 view (offset + 8) ;;
  Ok (mkFieldRotation a b c).

Definition readTranslation (view : DataView) (offset : Z)
  : result JsError Translation :=
  a <~ getFloat32 view offset ;;
  b <~ getFloat32 view (offset + 4) ;;
  c <~ getFloat32 view (offset + 8) ;;
  Ok (mkTranslation a b c).

(** The inner loop: the state is the cursor and [boneRotations]. *)
Definition bone_body (view : DataView) (bi : Z) (st : Z * list FieldRotation)
  : result JsError (Z * list FieldRotation) :=
  let '(offset, boneRotations) := st in
  r <~ readRotation view offset ;;
  Ok (offset + 12, boneRotations ++ [r]).

(** The outer loop: the state is the cursor and [frames]. *)
Definition frame_body (view : DataView) (nBones : Z) (fi : Z)
  (st : Z * list FieldFrame) : result JsError (Z * list FieldFrame) :=
  let '(offset, frames) := st in
  (* Root rotation (alpha, beta, gamma) *)
  rootRotation <~ readRotation view offset ;;
  let offset := offset + 12 in
  (* Root translation (x, y, z) *)
  rootTranslation <~ readTranslation view offset ;;
  let offset := offset + 12 in
  (* Bone rotations *)
  let boneCount := if 0 <? nBones then nBones else 1 in
  st' <~ for_loop boneCount (bone_body view) (offset, []) ;;
  let '(offset, boneRotations) := st' in
  Ok (offset, frames ++ [mkFieldFrame rootRotation rootTranslation boneRotations]).

Definition parse (view : DataView) : result JsError FieldAnimationData :=
  let offset := 0 in
  (* Header *)
  version <~ getInt32 view offset ;;
  let offset := offset + 4 in
  nFrames <~ getInt32 view offset ;;
  let offset := offset + 4 in
  nBones <~ getInt32 view offset ;;
  let offset := offset + 4 in
  (* Rotation order (3 bytes) + unused (1 byte) *)
  r0 <~ getUint8 view offset ;;
  r1 <~ getUint8 view (offset + 1) ;;
  r2 <~ getUint8 view (offset + 2) ;;
  let rotationOrder := (r0, r1, r2) in
  let offset := offset + 4 in
  (* Runtime data (5 int32s) - skip *)
  let offset := offset + 20 in
  (* Parse frames *)
  st <~ for_loop nFrames (frame_body view nBones) (offset, []) ;;
  Ok (mkFieldAnimationData version nFrames nBones rotationOrder (snd st)).

(** [new FieldAnimation(buffer)] *)
Definition FieldAnimation_constructor (buffer : Uint8Array)
  : result JsError FieldAnimationData :=
  parse (DataView_of buffer).

End Anim.

(** ** Sample buffers *)

Module Samples.

(** The 59 words of a standard-layout header. *)
Definition header_words (numPalettes colorsPerPalette bitDepth width height
  paletteFlag paletteSize bytesPerPixel : Z) (pixelFormat : list Z)
  (colorKeyArrayFlag : Z) : list Z :=
  [1; 0; 0; 0; 0; 0; 0; 0; 0; 0; 0; 0;
   numPalettes; colorsPerPalette; bitDepth; width; height;
   width * bytesPerPixel; 0; paletteFlag; 0; 0; paletteSize; colorsPerPalette;
   0; 8 * bytesPerPixel; bytesPerPixel]
  ++ pixelFormat ++ [colorKeyArrayFlag; 0; 0] ++ repeat 0 9.

Definition standard_header (ws : list Z) : Uint8Array := flat_map le32 ws.

(** The alternative layout leaves out the word at 0x2C. *)
Definition alternative_header (ws : list Z) : Uint8Array :=
  flat_map le32 (firstn 11 ws ++ skipn 12 ws).

Definition no_format : list Z := repeat 0 20.

Definition rgb555 : list Z :=
  [5; 5; 5; 0; 0x7C00; 0x03E0; 0x001F; 0; 10; 5; 0; 0] ++ repeat 0 8.

Definition rgb888 : list Z :=
  [8; 8; 8; 0; 0xFF0000; 0x00FF00; 0x0000FF; 0; 16; 8; 0; 0] ++ repeat 0 8.

(** 1x1, one byte per pixel, no palette. *)
Definition gray_1x1 : Uint8Array :=
  standard_header (header_words 0 0 8 1 1 0 0 1 no_format 0) ++ [x07].

(** 2x1 with one palette of one colour, stored B=10, G=20, R=30, A=255;
    the header's colours-per-palette field says 256. *)
Definition palette_2x1 : Uint8Array :=
  standard_header (header_words 1 256 8 2 1 1 1 1 no_format 0)
  ++ [x0a; x14; x1e; xff] ++ [x00; x00].

(** 2x1 with two palettes of two colours each; the header's
    colours-per-palette field says 256. *)
Definition two_palettes_2x1 : Uint8Array :=
  standard_header (header_words 2 256 8 2 1 1 4 1 no_format 0)
  ++ [x01; x02; x03; x04; x05; x06; x07; x08;
      x0b; x0c; x0d; x0e; x15; x16; x17; x18]
  ++ [x00; x01].

(** 2x1 in palette mode whose palette count is 0. *)
Definition no_palette_count_2x1 : Uint8Array :=
  standard_header (header_words 0 1 8 2 1 1 2 1 no_format 0)
  ++ [x01; x02; x03; x04; x05; x06; x07; x08]
  ++ [x00; x00].

(** 1x1 direct colour, 16 bits, the pixel is 0x7C00. *)
Definition rgb555_1x1 : Uint8Array :=
  standard_header (header_words 0 0 16 1 1 0 0 2 rgb555 0) ++ [x00; x7c].

(** 1x1 direct colour, 3 bytes per pixel. *)
Definition rgb888_1x1 : Uint8Array :=
  standard_header (header_words 0 0 24 1 1 0 0 3 rgb888 0) ++ [x0a; x14; x1e].

(** A 1x1 header with bit depth 0 and no pixel byte behind it. *)
Definition zero_depth_no_pixel : Uint8Array :=
  standard_header (header_words 0 0 0 1 1 0 0 1 no_format 0).

(** A header declaring width 5000. *)
Definition too_wide : Uint8Array :=
  standard_header (header_words 0 0 8 5000 1 0 0 1 no_format 0) ++ [x00].

(** A valid 2x2 header followed by 3 of its 4 pixel bytes. *)
Definition short_pixels_2x2 : Uint8Array :=
  standard_header (header_words 0 0 8 2 2 0 0 1 no_format 0) ++ [x01; x02; x03].

(** 1x1 with the colour-key flag set and 16 palettes declared, without
    the colour-key bytes. *)
Definition missing_color_key : Uint8Array :=
  standard_header (header_words 16 1 8 1 1 0 0 1 no_format 1) ++ [x07].

(** The alternative layout of a 2x1 palette image. *)
Definition alternative_2x1 : Uint8Array :=
  alternative_header (header_words 1 1 8 2 1 1 1 1 no_format 0)
  ++ [x0a; x14; x1e; xff] ++ [x00; x00].

(** An animation header: version 1, the two counts, rotation order
    1, 0, 2 and its unused byte, 20 bytes of runtime data. *)
Definition animation_header (nFrames nBones : Z) : Uint8Array :=
  le32 1 ++ le32 nFrames ++ le32 nBones ++ [x01; x00; x02; x00]
  ++ repeat x00 20.

(** Two frames with no bones declared: 9 floats each. *)
Definition two_frames_no_bones : Uint8Array :=
  animation_header 2 0
  ++ flat_map le32 [1; 2; 3; 4; 5; 6; 7; 8; 9]
  ++ flat_map le32 [11; 12; 13; 14; 15; 16; 17; 18; 19].

(** Three bones; the second is itself named "root". *)
Definition three_bones : HRC.HRCData :=
  HRC.mkHRCData 1%float "aaaa"%string 3%float
    [HRC.mkHRCBone "hip"%string "ROOT"%string 1.5%float 1%float ["AAAB"%string];
     HRC.mkHRCBone "root"%string "Root"%string 2%float 0%float [];
     HRC.mkHRCBone "KNEE"%string "HIP"%string 2%float 0%float []].

End Samples.

(** ** texfile.ts: the two layouts side by side *)

(** A buffer with the four padding bytes of the standard layout inserted
    at 0x2C. *)
Definition pad_to_standard (buf : Uint8Array) : Uint8Array :=
  firstn 44 buf ++ [x00; x00; x00; x00] ++ skipn 44 buf.

(** [d] with the two fields that record the layout it was read in. *)
Definition with_layout (d : Tex.TexData) (formatIndicator headerSize : Z)
  : Tex.TexData :=
  {| Tex.version := Tex.version d; Tex.colorKeyFlag := Tex.colorKeyFlag d;
     Tex.minBitsPerColor := Tex.minBitsPerColor d;
     Tex.maxBitsPerColor := Tex.maxBitsPerColor d;
     Tex.minAlphaBits := Tex.minAlphaBits d;
     Tex.maxAlphaBits := Tex.maxAlphaBits d;
     Tex.minBitsPerPixel := Tex.minBitsPerPixel d;
     Tex.maxBitsPerPixel := Tex.maxBitsPerPixel d;
     Tex.numPalettes := Tex.numPalettes d;
     Tex.colorsPerPalette := Tex.colorsPerPalette d;
     Tex.bitDepth := Tex.bitDepth d; Tex.width := Tex.width d;
     Tex.height := Tex.height d; Tex.bytesPerRow := Tex.bytesPerRow d;
     Tex.paletteFlag := Tex.paletteFlag d;
     Tex.bitsPerIndex := Tex.bitsPerIndex d;
     Tex.indexedTo8bit := Tex.indexedTo8bit d;
     Tex.paletteSize := Tex.paletteSize d;
     Tex.colorsPerPaletteAgain := Tex.colorsPerPaletteAgain d;
     Tex.bitsPerPixel := Tex.bitsPerPixel d;
     Tex.bytesPerPixel := Tex.bytesPerPixel d;
     Tex.pixelFormat := Tex.pixelFormat d;
     Tex.colorKeyArrayFlag := Tex.colorKeyArrayFlag d;
     Tex.referenceAlpha := Tex.referenceAlpha d;
     Tex.paletteIndex := Tex.paletteIndex d;
     Tex.palette := Tex.palette d;
     Tex.pixels := Tex.pixels d; Tex.colorKeyArray := Tex.colorKeyArray d;
     Tex._formatIndicator := formatIndicator; Tex._headerSize := headerSize |}.

(** ** animfile.ts: frame lookup *)

(** [getFrame(index)] for an integer [index]; [None] is [null]. *)
Definition FieldAnimation_getFrame (data : Anim.FieldAnimationData) (index : Z)
  : option Anim.FieldFrame :=
  if (index <? 0) || (Z.of_nat (List.length (Anim.frames data)) <=? index)
  then None
  else nth_error (Anim.frames data) (Z.to_nat index).

Definition FieldAnimation_getFirstFrame (data : Anim.FieldAnimationData)
  : option Anim.FieldFrame :=
  FieldAnimation_getFrame data 0.

(** The stream as a layout: a 36-byte header, then frames of
    24 + 12 max(nBones, 1) bytes, each a root rotation, a root translation
    and the bone rotations. *)
Definition frameStride (nBones : Z) : Z := 24 + 12 * Z.max nBones 1.

Definition rotation_at (buf : Uint8Array) (off : Z) : Anim.FieldRotation :=
  Anim.mkFieldRotation (u32_at buf off) (u32_at buf (off + 4)) (u32_at buf (off + 8)).

Definition translation_at (buf : Uint8Array) (off : Z) : Anim.Translation :=
  Anim.mkTranslation (u32_at buf off) (u32_at buf (off + 4)) (u32_at buf (off + 8)).

Definition rotations_at (buf : Uint8Array) (off : Z) (n : nat)
  : list Anim.FieldRotation :=
  map (fun j => rotation_at buf (off + 12 * Z.of_nat j)) (seq 0 n).

Definition frame_from (buf : Uint8Array) (nBones off : Z) : Anim.FieldFrame :=
  Anim.mkFieldFrame (rotation_at buf off) (translation_at buf (off + 12))
    (rotations_at buf (off + 24) (Z.to_nat (Z.max nBones 1))).

Definition frame_at (buf : Uint8Array) (nBones i : Z) : Anim.FieldFrame :=
  frame_from buf nBones (36 + i * frameStride nBones).

Definition frames_at (buf : Uint8Array) (nBones : Z) (n : nat)
  : list Anim.FieldFrame :=
  map (fun i => frame_at buf nBones (Z.of_nat i)) (seq 0 n).

(** ** rsdfile.ts: the derived file names *)

(** [c] in upper case when it is one of a-z.  Under the [i] flag a pattern
    character that is an ASCII capital or a dot matches exactly the
    characters that canonicalise to it, and no character outside ASCII
    canonicalises to an ASCII one. *)
Definition upperAscii (c : ascii) : ascii :=
  let n := JsString.code c in
  if (97 <=? n) && (n <=? 122) then ascii_of_N (Z.to_N (n - 32)) else c.

(** The pattern [\.EXT$] under the [i] flag at the head of [s], for [ext]
    the dot and the capitals: the whole of [s] is the extension. *)
Fixpoint matches_to_end (ext s : string) : bool :=
  match ext, s with
  | EmptyString, EmptyString => true
  | String p ext', String c s' =>
      Ascii.eqb (upperAscii c) p && matches_to_end ext' s'
  | _, _ => false
  end.

(** [s.replace(/\.EXT$/i, repl)]: the pattern is tried at each index from
    the left and the first match is replaced. *)
Fixpoint replace_extension (ext repl s : string) : string :=
  if matches_to_end ext s then repl
  else
    match s with
    | String c s' => String c (replace_extension ext repl s')
    | EmptyString => EmptyString
    end.

Definition RSDFile_getPModelFilename (data : RSD.RSDData) : string :=
  if String.eqb (RSD.plyFile data) EmptyString then EmptyString
  else replace_extension ".PLY" ".P" (RSD.plyFile data).

Definition RSDFile_getTextureFilenames (data : RSD.RSDData) : list string :=
  map (fun tex => replace_extension ".TIM" ".TEX" tex) (RSD.textures data).

(** *** Descriptor texts, line by line

    A line of a text is a non-empty string without line terminator that
    neither starts nor ends with white space; a text is a sequence of lines,
    each ended by LF or by CR LF, and possibly a last line without
    terminator. *)
Fixpoint noLineTerminator (s : string) : bool :=
  match s with
  | String c s' => negb (JsString.isLineTerminator c) && noLineTerminator s'
  | EmptyString => true
  end.

Fixpoint lastChar (s : string) : option ascii :=
  match s with
  | EmptyString => None
  | String c EmptyString => Some c
  | String _ s' => lastChar s'
  end.

Definition isLine (l : string) : bool :=
  match l, lastChar l with
  | String a _, Some b =>
      negb (JsString.isWhiteSpace a) && negb (JsString.isWhiteSpace b)
      && noLineTerminator l
  | _, _ => false
  end.

Definition lineEnd (crlf : bool) : string :=
  if crlf then String "013" (String "010" EmptyString)
  else String "010" EmptyString.

Fixpoint document (ls : list (string * bool)) (last : string) : string :=
  match ls with
  | [] => last
  | (l, crlf) :: ls' => (l ++ lineEnd crlf ++ document ls' last)%string
  end.

Definition lines_of (ls : list (string * bool)) (last : string) : list string :=
  map fst ls ++ (if String.eqb last EmptyString then [] else [last]).

(** A texture line: the index between the brackets, then the reference. *)
Fixpoint allDigits (s : string) : bool :=
  match s with
  | String c s' => JsString.isDigit c && allDigits s'
  | EmptyString => true
  end.

Definition texture_line (index ref : string) : string :=
  ("TEX[" ++ index ++ "]=" ++ ref)%string.

Definition isReference (s : string) : bool :=
  negb (String.eqb s EmptyString) && noLineTerminator s.

Definition isIndex (s : string) : bool :=
  negb (String.eqb s EmptyString) && allDigits s.

(** A descriptor with two textures. *)
Definition usual_descriptor : string :=
  ("@RSD940102" ++ String "010" ("PLY=AAAC.PLY" ++ String "010"
     ("MAT=AAAC.MAT" ++ String "010" ("GRP=AAAC.GRP" ++ String "010"
        ("NTEX=2" ++ String "010" ("TEX[0]=AABB.TIM" ++ String "010"
           ("TEX[1]=AACC.tim" ++ String "010" EmptyString)))))))%string.

(** The lines of a descriptor in the usual order. *)
Definition descriptor_lines (id ply mat grp count : string)
  (entries : list (string * string)) : list string :=
  id :: ("PLY=" ++ ply)%string :: ("MAT=" ++ mat)%string
  :: ("GRP=" ++ grp)%string :: ("NTEX=" ++ count)%string
  :: map (fun e => texture_line (fst e) (snd e)) entries.

(** ** rsdfile.ts: reading the skeleton *)

(** [s.split(/\s+/)]: [cur] is the piece being read, reversed; [sep] tells
    that the character before was white space, so that a run of white space
    is one separator. *)
Fixpoint split_spaces_from (sep : bool) (cur s : string) : list string :=
  match s with
  | EmptyString => [JsString.rev_string EmptyString cur]
  | String c s' =>
      if JsString.isWhiteSpace c then
        if sep then split_spaces_from true EmptyString s'
        else JsString.rev_string EmptyString cur
             :: split_spaces_from true EmptyString s'
      else split_spaces_from false (String c cur) s'
  end.

Definition split_spaces (s : string) : list string :=
  split_spaces_from false EmptyString s.

(** The string a function that expects one makes of an array element that
    may be missing. *)
Definition argument (tok : option string) : string :=
  match tok with
  | Some t => t
  | None => "undefined"%string
  end.

(** [tok || ''] *)
Definition or_empty (tok : option string) : string :=
  match tok with
  | Some t => t
  | None => EmptyString
  end.

(** [x || 0] for a number: [NaN] and both zeros are falsy. *)
Definition or_zero_number (x : float) : float :=
  if PrimFloat.is_nan x || PrimFloat.is_zero x then 0%float else x.

(** What [parse] throws: [Error] with one of its three messages, and the
    [RangeError] ("Invalid array length") of [bones.push]. *)
Inductive HRCError : Type :=
| MissingHeaderBlock
| MissingSkeleton
| MissingBones
| InvalidArrayLength.

(** An array holds at most 2^32 - 1 elements. *)
Definition maxArrayLength : Z := 4294967295.

(** [a.push(x)]: the push that would bring the length to 2^32 throws. *)
Definition Array_push {A : Type} (a : list A) (x : A)
  : result HRCError (list A) :=
  if Z.of_nat (List.length a) <? maxArrayLength then Ok (a ++ [x])
  else Err InvalidArrayLength.

(** [nextLine()]: the closure reads [lines] from [lineIndex] on; the state
    is the list of the lines not read yet. *)
Fixpoint nextLine (lines : list string) : string * list string :=
  match lines with
  | [] => (EmptyString, [])
  | l :: rest =>
      let line := JsString.trim l in
      if (0 <? String.length line)%nat then (line, rest) else nextLine rest
  end.

(** How often [for (let i = 0; i < boneCount; i++)] would run for the count
    that [parseInt] reads from [tok]: not at all for [NaN].  The number
    that JavaScript makes of the count is the count itself up to 2^53; a
    larger count is rounded, or is [Infinity], and stays above 2^32, where
    [push] ends the loop in either case. *)
Definition iterations (tok : string) : nat :=
  match JsString.parseInt tok with
  | Some n => Z.to_nat n
  | None => O
  end.

(** *** Skeleton texts, word by word

    A word is a non-empty string without white space, a separator a
    non-empty string of white space; [words_with] writes words with the
    separators before them. *)
Fixpoint noWhiteSpace (s : string) : bool :=
  match s with
  | String c s' => negb (JsString.isWhiteSpace c) && noWhiteSpace s'
  | EmptyString => true
  end.

Fixpoint allWhiteSpace (s : string) : bool :=
  match s with
  | String c s' => JsString.isWhiteSpace c && allWhiteSpace s'
  | EmptyString => true
  end.

Definition isWord (s : string) : bool :=
  negb (String.eqb s EmptyString) && noWhiteSpace s.

Definition isSeparator (s : string) : bool :=
  negb (String.eqb s EmptyString) && allWhiteSpace s.

Fixpoint words_with (first : string) (rest : list (string * string)) : string :=
  match rest with
  | [] => first
  | (sep, w) :: rest' => (first ++ sep ++ words_with w rest')%string
  end.

(** The four lines of a bone: name, parent name, length, and the resource
    count followed by the resources. *)
Record BoneText : Type := mkBoneText {
  boneName : string;
  boneParent : string;
  boneLength : string;
  boneResourceCount : string;
  boneResources : list (string * string)
}.

Definition bone_lines (b : BoneText) : list string :=
  [boneName b; boneParent b; boneLength b;
   words_with (boneResourceCount b) (boneResources b)].

Definition wellFormedBone (b : BoneText) : bool :=
  isWord (boneResourceCount b)
  && forallb (fun p => isSeparator (fst p) && isWord (snd p)) (boneResources b).

Definition skeleton_lines (sep0 headerBlock sep1 name sep2 count : string)
  (bones : list BoneText) : list string :=
  (":HEADER_BLOCK" ++ sep0 ++ headerBlock)%string
  :: (":SKELETON" ++ sep1 ++ name)%string
  :: (":BONES" ++ sep2 ++ count)%string
  :: flat_map bone_lines bones.

(** The lines [nextLine] returns one after the other: those of the text
    that are not blank, trimmed. *)
Definition textLines (text : string) : list string :=
  filter RSD.nonEmpty (map JsString.trim (JsString.split_lines text)).

Definition lineAt (lines : list string) (k : nat) : string :=
  nth k lines EmptyString.

Section SkeletonParser.

(** The numbers [parseInt(s, 10)] and [parseFloat(s)] return.  The parser
    stores them and, for the bone count, runs a loop up to the integer
    read, which [JsString.parseInt] computes. *)
Variable parseInt10 : string -> float.
Variable parseFloat : string -> float.

Definition bone_of_lines (name parentName lengthLine resourceLine : string)
  : HRC.HRCBone :=
  let resourceParts := filter RSD.nonEmpty (split_spaces resourceLine) in
  HRC.mkHRCBone name parentName (parseFloat lengthLine)
    (or_zero_number (parseInt10 (argument (nth_error resourceParts 0))))
    (tl resourceParts).

(** The bone that the four lines of a bone text stand for. *)
Definition bone_of_text (b : BoneText) : HRC.HRCBone :=
  HRC.mkHRCBone (boneName b) (boneParent b) (parseFloat (boneLength b))
    (or_zero_number (parseInt10 (boneResourceCount b)))
    (map snd (boneResources b)).

Definition read_bone (lines : list string) : HRC.HRCBone * list string :=
  let '(name, lines) := nextLine lines in
  let '(parentName, lines) := nextLine lines in
  let '(lengthLine, lines) := nextLine lines in
  let '(resourceLine, lines) := nextLine lines in
  (bone_of_lines name parentName lengthLine resourceLine, lines).

(** The loop over the bones, [n] rounds to go. *)
Fixpoint read_bones (n : nat) (lines : list string) (bones : list HRC.HRCBone)
  : result HRCError (list HRC.HRCBone) :=
  match n with
  | O => Ok bones
  | S n' =>
      let '(bone, lines) := read_bone lines in
      bones <~ Array_push bones bone ;;
      read_bones n' lines bones
  end.

Definition HRCFile_parse (text : string) : result HRCError HRC.HRCData :=
  let lines := JsString.split_lines text in
  let '(headerLine, lines) := nextLine lines in
  if negb (JsString.startsWith headerLine ":HEADER_BLOCK")
  then Err MissingHeaderBlock
  else
    let headerBlock :=
      parseInt10 (argument (nth_error (split_spaces headerLine) 1)) in
    let '(skeletonLine, lines) := nextLine lines in
    if negb (JsString.startsWith skeletonLine ":SKELETON")
    then Err MissingSkeleton
    else
      let skeletonName := or_empty (nth_error (split_spaces skeletonLine) 1) in
      let '(bonesLine, lines) := nextLine lines in
      if negb (JsString.startsWith bonesLine ":BONES")
      then Err MissingBones
      else
        let boneCount := argument (nth_error (split_spaces bonesLine) 1) in
        (* Parse bones *)
        bones <~ read_bones (iterations boneCount) lines [] ;;
        Ok (HRC.mkHRCData headerBlock skeletonName (parseInt10 boneCount) bones).

(** [new HRCFile(buffer)] *)
Definition HRCFile_constructor (buffer : Uint8Array)
  : result HRCError HRC.HRCData :=
  HRCFile_parse (JsString.decode buffer).

End SkeletonParser.

(** [getRelatedFiles()]: name and type of each file. *)
Definition HRCFile_getRelatedFiles (data : HRC.HRCData) : list (string * string) :=
  flat_map
    (fun bone =>
       map (fun rsd => ((rsd ++ ".rsd")%string, "Resource Definition"%string))
         (HRC.resources bone))
    (HRC.bones data).

(** A skeleton text that declares 2^32 bones. *)
Definition too_many_bones : string :=
  (":HEADER_BLOCK 2" ++ String "010" (":SKELETON aaaa" ++ String "010"
     ":BONES 4294967296"))%string.

(** A skeleton text of one bone with two resources; the second line ends
    in CR LF and a tab separates the resources. *)
Definition one_bone_skeleton : string :=
  (":HEADER_BLOCK 2" ++ String "010" (":SKELETON  aaaa" ++ String "013" (String "010"
     (":BONES 1" ++ String "010" ("hip" ++ String "010" ("root" ++ String "010"
        ("1.5" ++ String "010" ("1 AAAB" ++ String "009" "AAAC"))))))))%string.

(** ** texfile.ts: when the writers return *)

(** A writer that returns whenever the cursor is not negative and the
    output has [room] bytes from the cursor on; it then keeps the length of
    the output and moves the cursor by [n]. *)
Definition writes_within (w : Tex.Writer) (n room : Z) : Prop :=
  forall out off,
    0 <= off -> off + room <= byteLength out ->
    exists out', w (out, off) = Ok (out', off + n) /\
                 byteLength out' = byteLength out.

(** ** components/HexViewer.jsx: what the viewer computes from the bytes *)

Module HexViewer.

(** Printable ASCII (32-126) *)
Definition isPrintable (byte : Z) : bool := (32 <=? byte) && (byte <? 127).

(** Printable ASCII, tab (9), LF (10), CR (13) *)
Definition isTextByte (byte : Z) : bool :=
  isPrintable byte || (byte =? 9) || (byte =? 10) || (byte =? 13).

(** The loop of [isLikelyText] from index [i] on, [n] bytes to go: [false]
    is the early [return false]. *)
Fixpoint scan_text (data : Uint8Array) (i : Z) (n : nat) : bool :=
  match n with
  | O => true
  | S n' =>
      if negb (isTextByte (u8_at data i)) then false
      else scan_text data (i + 1) n'
  end.

Definition isLikelyText (data : Uint8Array) : bool :=
  let checkLength := Z.min 100 (byteLength data) in
  if scan_text data 0 (Z.to_nat checkLength) then 0 <? checkLength else false.

Inductive ViewType : Type :=
| Hex
| Plaintext.

Definition lineFeed : ascii := "010"%char.

(** The loop of [plaintextContent] over the bytes not read yet; a CR LF
    pair takes two of them. *)
Fixpoint plaintext_chars (data : list byte) : string :=
  match data with
  | [] => EmptyString
  | b :: rest =>
      let byte := byte_to_Z b in
      if isPrintable byte then String (ascii_of_byte b) (plaintext_chars rest)
      else
        match rest with
        | b' :: rest' =>
            if (byte =? 13) && (byte_to_Z b' =? 10)
            then String lineFeed (plaintext_chars rest')
            else if (byte =? 10) || (byte =? 13)
            then String lineFeed (plaintext_chars rest)
            else String "."%char (plaintext_chars rest)
        | [] =>
            if (byte =? 10) || (byte =? 13)
            then String lineFeed EmptyString
            else String "."%char EmptyString
        end
  end.

(** A character the plain text view can hold: printable ASCII or LF. *)
Definition isShown (c : ascii) : bool :=
  isPrintable (JsString.code c) || Ascii.eqb c lineFeed.

Fixpoint allChars (f : ascii -> bool) (s : string) : bool :=
  match s with
  | String c s' => f c && allChars f s'
  | EmptyString => true
  end.

Definition plaintextContent (data : Uint8Array) (viewType : ViewType) : string :=
  match viewType with
  | Plaintext => if isLikelyText data then plaintext_chars data else EmptyString
  | Hex => EmptyString
  end.

(** [Math.ceil(data.length / columns)] for [columns > 0] *)
Definition rowCount (data : Uint8Array) (columns : Z) : Z :=
  (byteLength data + columns - 1) / columns.

(** [getRowData(index)] for [index >= 0]: the offset and the bytes of the
    row; [subarray] of a range that starts at or after its end is empty. *)
Definition getRowData (data : Uint8Array) (columns index : Z) : Z * Uint8Array :=
  let offset := index * columns in
  (offset, slice data offset (Z.min (offset + columns) (byteLength data))).

End HexViewer.

(** * Properties *)

(** ** Arrays *)

Lemma byteLength_nonneg (a : Uint8Array) : 0 <= byteLength a.
Proof. unfold byteLength. lia. Qed.

Lemma byte_to_Z_range (b : byte) : 0 <= byte_to_Z b <= 255.
Proof.
  unfold byte_to_Z. pose proof (Byte.to_N_bounded b). lia.
Qed.

Lemma u8_at_range (a : Uint8Array) (i : Z) : 0 <= u8_at a i <= 255.
Proof. apply byte_to_Z_range. Qed.

Lemma u32_at_range (a : Uint8Array) (i : Z) : 0 <= u32_at a i < 4294967296.
Proof.
  unfold u32_at.
  pose proof (u8_at_range a i). pose proof (u8_at_range a (i + 1)).
  pose proof (u8_at_range a (i + 2)). pose proof (u8_at_range a (i + 3)). lia.
Qed.

Lemma byteLength_set_nth (a : Uint8Array) (n : nat) (b : byte) :
  byteLength (set_nth a n b) = byteLength a.
Proof.
  unfold byteLength. f_equal. revert n.
  induction a as [|h t IH]; intros [|n]; simpl; auto.
Qed.

Lemma byteLength_put (a : Uint8Array) (i : Z) (b : byte) :
  byteLength (put a i b) = byteLength a.
Proof.
  unfold put. destruct (i <? 0); [reflexivity | apply byteLength_set_nth].
Qed.

Lemma nth_error_set_nth_eq (a : Uint8Array) (n : nat) (b : byte) :
  (n < List.length a)%nat -> nth_error (set_nth a n b) n = Some b.
Proof.
  revert n. induction a as [|h t IH]; intros [|n] Hn; simpl in *; try lia; auto.
  apply IH. lia.
Qed.

Lemma nth_error_set_nth_neq (a : Uint8Array) (n m : nat) (b : byte) :
  n <> m -> nth_error (set_nth a n b) m = nth_error a m.
Proof.
  revert n m. induction a as [|h t IH]; intros [|n] [|m] Hnm; simpl; auto.
  congruence.
Qed.

Lemma get_put_eq (a : Uint8Array) (i : Z) (b : byte) :
  0 <= i < byteLength a -> get (put a i b) i = Some b.
Proof.
  unfold get, put, byteLength. intros Hi.
  destruct (Z.ltb_spec i 0); [lia|].
  apply nth_error_set_nth_eq. lia.
Qed.

Lemma get_put_neq (a : Uint8Array) (i j : Z) (b : byte) :
  i <> j -> get (put a i b) j = get a j.
Proof.
  unfold get, put. intros Hij.
  destruct (Z.ltb_spec j 0); [reflexivity|].
  destruct (Z.ltb_spec i 0); [reflexivity|].
  apply nth_error_set_nth_neq. lia.
Qed.

Lemma get_Some_lt (a : Uint8Array) (i : Z) :
  0 <= i < byteLength a -> exists b, get a i = Some b.
Proof.
  unfold get, byteLength. intros Hi.
  destruct (Z.ltb_spec i 0); [lia|].
  destruct (nth_error a (Z.to_nat i)) eqn:E; [eauto|].
  apply nth_error_None in E. lia.
Qed.

Lemma byteLength_zeros (n : Z) : 0 <= n -> byteLength (zeros n) = n.
Proof. intros Hn. unfold byteLength, zeros. rewrite repeat_length. lia. Qed.

Lemma byteLength_slice (a : Uint8Array) (s e : Z) :
  0 <= s <= e -> e <= byteLength a -> byteLength (slice a s e) = e - s.
Proof.
  unfold byteLength, slice. intros Hs He.
  rewrite length_firstn, length_skipn. lia.
Qed.

(** ** Loops *)

Section Loops.
Context {E S : Type}.
Variable body : Z -> S -> result E S.
Variable Inv : Z -> S -> Prop.

(** An invariant kept by every iteration that returns holds of the final
    state, when the loop returns. *)
Lemma for_from_invariant (n : nat) :
  forall (i : Z) (s s' : S),
    (forall j st st', i <= j < i + Z.of_nat n ->
       Inv j st -> body j st = Ok st' -> Inv (j + 1) st') ->
    Inv i s ->
    for_from n i body s = Ok s' ->
    Inv (i + Z.of_nat n) s'.
Proof.
  induction n as [|n IH]; intros i s s' Hstep Hi Hrun; cbn [for_from] in Hrun.
  - injection Hrun as <-. replace (i + Z.of_nat 0) with i by lia. exact Hi.
  - destruct (body i s) as [s1|e] eqn:Hb; [|discriminate].
    replace (i + Z.of_nat (Datatypes.S n)) with (i + 1 + Z.of_nat n) by lia.
    apply (IH (i + 1) s1 s'); auto.
    + intros j st st' Hj. apply Hstep. lia.
    + apply (Hstep i s s1); auto. lia.
Qed.

(** When every iteration returns under the invariant, so does the loop. *)
Lemma for_from_returns (n : nat) :
  forall (i : Z) (s : S),
    (forall j st, i <= j < i + Z.of_nat n ->
       Inv j st -> exists st', body j st = Ok st' /\ Inv (j + 1) st') ->
    Inv i s ->
    exists s', for_from n i body s = Ok s' /\ Inv (i + Z.of_nat n) s'.
Proof.
  induction n as [|n IH]; intros i s Hstep Hi; cbn [for_from].
  - exists s. split; [reflexivity|]. replace (i + Z.of_nat 0) with i by lia. exact Hi.
  - destruct (Hstep i s) as (s1 & Hb & H1); [lia | exact Hi |].
    rewrite Hb.
    replace (i + Z.of_nat (Datatypes.S n)) with (i + 1 + Z.of_nat n) by lia.
    apply IH; auto.
    intros j st Hj. apply Hstep. lia.
Qed.

Lemma for_loop_invariant (n : Z) (s s' : S) :
  0 <= n ->
  (forall j st st', 0 <= j < n -> Inv j st -> body j st = Ok st' -> Inv (j + 1) st') ->
  Inv 0 s ->
  for_loop n body s = Ok s' ->
  Inv n s'.
Proof.
  intros Hn Hstep H0 Hrun. unfold for_loop in Hrun.
  replace n with (0 + Z.of_nat (Z.to_nat n)) by lia.
  apply (for_from_invariant (Z.to_nat n) 0 s s'); auto.
  intros j st st' Hj. apply Hstep. lia.
Qed.

Lemma for_loop_returns (n : Z) (s : S) :
  0 <= n ->
  (forall j st, 0 <= j < n ->
     Inv j st -> exists st', body j st = Ok st' /\ Inv (j + 1) st') ->
  Inv 0 s ->
  exists s', for_loop n body s = Ok s' /\ Inv n s'.
Proof.
  intros Hn Hstep H0. unfold for_loop.
  destruct (for_from_returns (Z.to_nat n) 0 s) as (s' & Hrun & Hs'); auto.
  - intros j st Hj. apply Hstep. lia.
  - exists s'. split; [exact Hrun|].
    replace n with (0 + Z.of_nat (Z.to_nat n)) by lia. exact Hs'.
Qed.

Lemma for_loop_nonpositive (n : Z) (s : S) :
  n <= 0 -> for_loop n body s = Ok s.
Proof.
  intros Hn. unfold for_loop. replace (Z.to_nat n) with O by lia. reflexivity.
Qed.
End Loops.

(** ** The header parser *)

Section ParserSteps.
Context {B : Type}.
Variable k : Z -> Parser.t B.
Variable buf : Uint8Array.

Lemma bind_uint32le_at (off off' : Z) :
  off' = off + 4 -> 0 <= off ->
  Parser.bind Parser.uint32le k buf off =
  if byteLength buf <? off' then None else k (u32_at buf off) buf off'.
Proof.
  intros -> Hoff.
  unfold Parser.bind, Parser.uint32le, getUint32, DataView_of. simpl.
  destruct (Z.ltb_spec off 0); [lia|]. simpl.
  destruct (byteLength buf <? off + 4); reflexivity.
Qed.
End ParserSteps.

Lemma bind_assoc_at {A B C} (p : Parser.t A) (f : A -> Parser.t B)
  (k : B -> Parser.t C) (buf : Uint8Array) (off : Z) :
  Parser.bind (Parser.bind p f) k buf off
  = Parser.bind p (fun a => Parser.bind (f a) k) buf off.
Proof. unfold Parser.bind. destruct (p buf off) as [[a o]|]; reflexivity. Qed.

(** One step of the parser at a known offset. *)
Ltac parser_step :=
  match goal with
  | |- context [Parser.bind Parser.uint32le ?k ?b ?o] =>
      let o' := eval compute in (o + 4) in
      rewrite (bind_uint32le_at k b o o' eq_refl) by lia; cbv beta
  | |- context [Parser.bind (Parser.skip ?n) ?k ?b ?o] =>
      let o' := eval compute in (o + n) in
      change (Parser.bind (Parser.skip n) k b o) with (k tt b o'); cbv beta
  | |- context [Parser.bind (Parser.seek ?n) ?k ?b ?o] =>
      let o' := eval compute in (o + n) in
      change (Parser.bind (Parser.seek n) k b o) with (k tt b o'); cbv beta
  | |- context [Parser.bind Parser.saveOffset ?k ?b ?o] =>
      change (Parser.bind Parser.saveOffset k b o) with (k o b o); cbv beta
  | |- context [Parser.bind (Parser.bind ?p ?f) ?k ?b ?o] =>
      rewrite (bind_assoc_at p f k b o)
  | |- context [Parser.bind (Parser.ret ?a) ?k ?b ?o] =>
      change (Parser.bind (Parser.ret a) k b o) with (k a b o); cbv beta
  | |- context [Parser.ret ?a ?b ?o] =>
      change (Parser.ret a b o) with (Some (a, o))
  end.

Ltac split_length :=
  repeat match goal with
         | |- context [byteLength ?b <? ?c] =>
             destruct (Z.ltb_spec (byteLength b) c); try lia; try reflexivity
         end.

(** The sequential parser with its conditional rewind reads exactly what
    the probe of the field at 0x2C followed by the reader of the chosen
    layout reads. *)
Lemma texHeaderParser_layout (buf : Uint8Array) :
  Parser.parse Tex.texHeaderParser buf = Tex.header_by_probe buf.
Proof.
  unfold Parser.parse, Tex.texHeaderParser, Tex.pixelFormatParser,
    Tex.header_by_probe, Tex.probe, Tex.layout_of.
  do 11 parser_step.
  destruct (Z.ltb_spec (byteLength buf) 48) as [Hshort | Hlong].
  - split_length.
  - destruct (u32_at buf 44 =? 0) eqn:Hprobe; cbn [negb];
      repeat parser_step; unfold Tex.read_layout, Tex.read_pixelFormat, Tex.headerSize;
      split_length.
Qed.

(** C2: decoding reads the 4-byte field at the fixed offset 0x2C.  If it is
    zero the buffer is read in the standard layout: the field is padding,
    reading goes on at 0x30 and the header is 0xEC bytes long.  If it is not
    zero the parser rewinds 4 bytes and reads the same bytes again as the
    palette count: every later field sits 4 bytes earlier and the header is
    0xE8 bytes long.  The first part says so for every buffer, as an equation
    between the parser and the reader by layout; the second part spells the
    consequences out on the fields. *)
Theorem texHeaderParser_probes_0x2C :
  (forall buf : Uint8Array,
     Parser.parse Tex.texHeaderParser buf = Tex.header_by_probe buf) /\
  (forall (buf : Uint8Array) (h : Tex.TexData),
     Parser.parse Tex.texHeaderParser buf = Some h ->
     0x2C + 4 <= byteLength buf /\
     Tex._formatIndicator h = u32_at buf 0x2C /\
     (u32_at buf 0x2C = 0 ->
        Tex._headerSize h = 0xEC /\
        Tex.numPalettes h = u32_at buf 0x30 /\
        Tex.colorsPerPalette h = u32_at buf 0x34 /\
        Tex.width h = u32_at buf 0x3C /\
        Tex.height h = u32_at buf 0x40 /\
        Tex.bytesPerPixel h = u32_at buf 0x68 /\
        Tex.referenceAlpha h = u32_at buf 0xC4) /\
     (u32_at buf 0x2C <> 0 ->
        Tex._headerSize h = 0xE8 /\
        Tex.numPalettes h = u32_at buf 0x2C /\
        Tex.colorsPerPalette h = u32_at buf 0x30 /\
        Tex.width h = u32_at buf 0x38 /\
        Tex.height h = u32_at buf 0x3C /\
        Tex.bytesPerPixel h = u32_at buf 0x64 /\
        Tex.referenceAlpha h = u32_at buf 0xC0)).
Proof.
  split; [exact texHeaderParser_layout|].
  intros buf h Hparse. rewrite texHeaderParser_layout in Hparse.
  unfold Tex.header_by_probe, Tex.probe in Hparse.
  destruct (Z.ltb_spec (byteLength buf) 48) as [|Hlen]; [discriminate|].
  unfold Tex.layout_of, Tex.read_layout in Hparse.
  destruct (Z.eqb_spec (u32_at buf 44) 0) as [Hz|Hnz];
    cbn [Tex.headerSize] in Hparse;
    destruct (byteLength buf <? _); try discriminate;
    injection Hparse as <-; cbn.
  - split; [lia|]. split; [reflexivity|]. split; [|intros; contradiction].
    intros _. repeat split.
  - split; [lia|]. split; [reflexivity|]. split; [intros; contradiction|].
    intros _. repeat split.
Qed.

Lemma texHeaderParser_probes_0x2C_witness :
  exists h : Tex.TexData,
    Parser.parse Tex.texHeaderParser Samples.alternative_2x1 = Some h /\
    u32_at Samples.alternative_2x1 0x2C <> 0 /\
    Tex._headerSize h = 0xE8 /\
    Tex.numPalettes h = u32_at Samples.alternative_2x1 0x2C.
Proof.
  destruct (Parser.parse Tex.texHeaderParser Samples.alternative_2x1) as [h|] eqn:Hparse;
    [|vm_compute in Hparse; discriminate].
  assert (Hnz : u32_at Samples.alternative_2x1 0x2C <> 0) by (vm_compute; discriminate).
  exists h. split; [reflexivity|]. split; [exact Hnz|].
  destruct (proj2 texHeaderParser_probes_0x2C _ _ Hparse) as (_ & _ & _ & Halt).
  destruct (Halt Hnz) as (Hsize & Hnum & _). split; assumption.
Defined.

(** ** The constructor *)

Lemma constructor_unreadable_header (buf : Uint8Array) :
  Parser.parse Tex.texHeaderParser buf = None ->
  Tex.TexFile_constructor buf = Err Tex.HeaderParseFailed.
Proof. intros H. unfold Tex.TexFile_constructor. rewrite H. reflexivity. Qed.

Lemma constructor_invalid_header (buf : Uint8Array) (h : Tex.TexData) :
  Parser.parse Tex.texHeaderParser buf = Some h ->
  Tex.isValidTexData h = false ->
  Tex.TexFile_constructor buf
  = Err (Tex.InvalidTexData (Tex.width h) (Tex.height h) (Tex.bitDepth h)
           (Tex.bytesPerPixel h)).
Proof.
  intros Hp Hv. unfold Tex.TexFile_constructor. rewrite Hp, Hv. reflexivity.
Qed.

Lemma isValidTexData_true (h : Tex.TexData) :
  Tex.isValidTexData h = true <->
  (0 < Tex.width h <= 4096) /\ (0 < Tex.height h <= 4096) /\
  (0 < Tex.bitDepth h <= 32) /\ (1 <= Tex.bytesPerPixel h <= 4).
Proof.
  unfold Tex.isValidTexData. rewrite !andb_true_iff, !Z.ltb_lt, !Z.leb_le. lia.
Qed.

(** A header the parser returns holds unsigned 32-bit fields, no payload
    yet, and one of the two header sizes. *)
Lemma parsed_header_shape (buf : Uint8Array) (h : Tex.TexData) :
  Parser.parse Tex.texHeaderParser buf = Some h ->
  (Tex._headerSize h = 236 \/ Tex._headerSize h = 232) /\
  0 <= Tex.numPalettes h /\ 0 <= Tex.paletteSize h /\
  0 <= Tex.colorsPerPalette h /\
  0 <= Tex.alphaBits (Tex.pixelFormat h) /\
  Tex.palette h = None /\ Tex.colorKeyArray h = None.
Proof.
  intros Hparse. rewrite texHeaderParser_layout in Hparse.
  unfold Tex.header_by_probe in Hparse.
  destruct (Tex.probe buf) as [v|]; [|discriminate].
  unfold Tex.read_layout in Hparse.
  destruct (byteLength buf <? _); [discriminate|].
  injection Hparse as <-. cbn.
  repeat split; try apply u32_at_range.
  destruct (Tex.layout_of v); cbn; auto.
Qed.

(** What the constructor returns for a readable, valid header. *)
Lemma constructor_valid_header (buf : Uint8Array) (h : Tex.TexData) :
  Parser.parse Tex.texHeaderParser buf = Some h ->
  Tex.isValidTexData h = true ->
  let hs := Tex._headerSize h in
  let len := byteLength buf in
  (Tex.paletteFlag h <> 0 -> len < hs + Tex.paletteBytes h ->
   Tex.TexFile_constructor buf = Err (Tex.TruncatedPalette hs len)) /\
  (hs + Tex.paletteBytes h <= len -> len < Tex.requiredLength h ->
   Tex.TexFile_constructor buf
   = Err (Tex.TruncatedPixels (Tex.pixelBytes h) (hs + Tex.paletteBytes h) len)) /\
  (Tex.paletteFlag h = 0 -> len < Tex.requiredLength h ->
   Tex.TexFile_constructor buf
   = Err (Tex.TruncatedPixels (Tex.pixelBytes h) hs len)) /\
  (Tex.requiredLength h <= len ->
   exists t : Tex.TexData,
     Tex.TexFile_constructor buf = Ok t /\ Tex.decoded_from buf h t).
Proof.
  intros Hp Hv hs len.
  destruct (parsed_header_shape buf h Hp) as (_ & _ & _ & _ & _ & Hpal & Hcka).
  unfold Tex.TexFile_constructor. rewrite Hp, Hv.
  unfold Tex.decoded_from, Tex.requiredLength, Tex.paletteBytes, Tex.pixelBytes.
  fold hs. fold len. cbn [negb bindR].
  destruct (Z.eqb_spec (Tex.paletteFlag h) 0) as [Hflag|Hflag]; cbn [negb bindR].
  - repeat split; try (intros; contradiction).
    + intros H1 H2. destruct (Z.ltb_spec len (hs + Tex.width h * Tex.height h * Tex.bytesPerPixel h)); [|lia].
      f_equal. f_equal. lia.
    + intros _ H2. destruct (Z.ltb_spec len (hs + Tex.width h * Tex.height h * Tex.bytesPerPixel h)); [|lia].
      reflexivity.
    + intros H1. destruct (Z.ltb_spec len (hs + Tex.width h * Tex.height h * Tex.bytesPerPixel h)); [lia|].
      cbn. destruct (Z.eqb_spec (Tex.colorKeyArrayFlag h) 0) as [Hck|Hck]; cbn [negb andb].
      * eexists. split; [reflexivity|]. cbn. rewrite Hcka.
        repeat split; auto; f_equal; lia.
      * replace (hs + 0 + Tex.width h * Tex.height h * Tex.bytesPerPixel h)
          with (hs + Tex.width h * Tex.height h * Tex.bytesPerPixel h) by lia.
        destruct (_ <=? len); eexists; (split; [reflexivity|]); cbn;
          repeat split; auto; f_equal; lia.
  - repeat split; try (intros; contradiction).
    + intros _ H2. destruct (Z.ltb_spec len (hs + Tex.paletteSize h * 4)); [|lia].
      reflexivity.
    + intros H1 H2. destruct (Z.ltb_spec len (hs + Tex.paletteSize h * 4)); [lia|].
      cbn. destruct (Z.ltb_spec len (hs + Tex.paletteSize h * 4 + Tex.width h * Tex.height h * Tex.bytesPerPixel h)); [|lia].
      reflexivity.
    + intros H1.
      assert (Hps : 0 <= Tex.width h * Tex.height h * Tex.bytesPerPixel h).
      { apply isValidTexData_true in Hv. nia. }
      destruct (Z.ltb_spec len (hs + Tex.paletteSize h * 4)); [lia|].
      cbn. destruct (Z.ltb_spec len (hs + Tex.paletteSize h * 4 + Tex.width h * Tex.height h * Tex.bytesPerPixel h)); [lia|].
      destruct (Z.eqb_spec (Tex.colorKeyArrayFlag h) 0) as [Hck|Hck]; cbn [negb andb].
      * eexists. split; [reflexivity|]. cbn. rewrite Hcka.
        repeat split; auto.
      * destruct (_ <=? len); eexists; (split; [reflexivity|]); cbn;
          repeat split; auto.
Qed.

Lemma constructor_Ok_inv (buf : Uint8Array) (t : Tex.TexData) :
  Tex.TexFile_constructor buf = Ok t ->
  exists h : Tex.TexData,
    Parser.parse Tex.texHeaderParser buf = Some h /\
    Tex.isValidTexData h = true /\
    Tex.requiredLength h <= byteLength buf /\
    Tex.decoded_from buf h t.
Proof.
  intros Hok.
  destruct (Parser.parse Tex.texHeaderParser buf) as [h|] eqn:Hp;
    [|rewrite (constructor_unreadable_header buf Hp) in Hok; discriminate].
  destruct (Tex.isValidTexData h) eqn:Hv;
    [|rewrite (constructor_invalid_header buf h Hp Hv) in Hok; discriminate].
  destruct (constructor_valid_header buf h Hp Hv) as (Hpal & Hpix & Hpix0 & Hdone).
  assert (Hpb : 0 <= Tex.paletteBytes h).
  { destruct (parsed_header_shape buf h Hp) as (_ & _ & Hps & _).
    unfold Tex.paletteBytes. destruct (_ =? 0); lia. }
  assert (Hlen : Tex.requiredLength h <= byteLength buf).
  { destruct (Z.le_gt_cases (Tex.requiredLength h) (byteLength buf)) as [|Hshort]; [assumption|].
    exfalso.
    destruct (Z.le_gt_cases (Tex._headerSize h + Tex.paletteBytes h) (byteLength buf)).
    - rewrite Hpix in Hok by lia. discriminate.
    - destruct (Z.eq_dec (Tex.paletteFlag h) 0) as [Hf|Hf].
      + rewrite Hpix0 in Hok by lia. discriminate.
      + rewrite Hpal in Hok by lia. discriminate. }
  destruct (Hdone Hlen) as (t' & Hok' & Hdec).
  rewrite Hok in Hok'. injection Hok' as <-.
  exists h. auto.
Qed.

(** The header cannot be read exactly when the buffer ends before the last
    field that is read, 36 bytes before the end of the header. *)
Lemma header_unreadable_iff (buf : Uint8Array) :
  Parser.parse Tex.texHeaderParser buf = None <->
  (byteLength buf < 48 \/
   byteLength buf < Tex.headerSize (Tex.layout_of (u32_at buf 44)) - 36).
Proof.
  rewrite texHeaderParser_layout.
  unfold Tex.header_by_probe, Tex.probe, Tex.read_layout.
  destruct (Z.ltb_spec (byteLength buf) 48) as [Hs|Hl].
  - split; auto.
  - cbv zeta.
    destruct (Z.ltb_spec (byteLength buf)
                (Tex.headerSize (Tex.layout_of (u32_at buf 44)) - 36)).
    + split; auto.
    + split; [discriminate | lia].
Qed.

(** C3: a buffer whose parsed header has its width or height outside
    (0, 4096], its bit depth outside (0, 32] or its bytes per pixel outside
    [1, 4] is rejected with the "Invalid TEX data" error, which carries the
    four parsed values as they are; and a texture that is constructed holds
    exactly the parsed values, which are in range: nothing is coerced. *)
Theorem constructor_rejects_out_of_range_header :
  (forall (buf : Uint8Array) (h : Tex.TexData),
     Parser.parse Tex.texHeaderParser buf = Some h ->
     (~ (0 < Tex.width h <= 4096) \/ ~ (0 < Tex.height h <= 4096) \/
      ~ (0 < Tex.bitDepth h <= 32) \/ ~ (1 <= Tex.bytesPerPixel h <= 4)) ->
     Tex.TexFile_constructor buf
     = Err (Tex.InvalidTexData (Tex.width h) (Tex.height h) (Tex.bitDepth h)
              (Tex.bytesPerPixel h))) /\
  (forall (buf : Uint8Array) (t : Tex.TexData),
     Tex.TexFile_constructor buf = Ok t ->
     exists h : Tex.TexData,
       Parser.parse Tex.texHeaderParser buf = Some h /\
       Tex.width t = Tex.width h /\ Tex.height t = Tex.height h /\
       Tex.bitDepth t = Tex.bitDepth h /\
       Tex.bytesPerPixel t = Tex.bytesPerPixel h /\
       (0 < Tex.width h <= 4096) /\ (0 < Tex.height h <= 4096) /\
       (0 < Tex.bitDepth h <= 32) /\ (1 <= Tex.bytesPerPixel h <= 4)).
Proof.
  split.
  - intros buf h Hp Hout. apply constructor_invalid_header; [exact Hp|].
    destruct (Tex.isValidTexData h) eqn:Hv; [|reflexivity].
    apply isValidTexData_true in Hv. tauto.
  - intros buf t Hok.
    destruct (constructor_Ok_inv buf t Hok) as (h & Hp & Hv & _ & Hdec).
    apply isValidTexData_true in Hv.
    destruct Hdec as (Hw & Hh & Hbd & Hbpp & _).
    exists h. tauto.
Qed.

Lemma constructor_rejects_out_of_range_header_witness :
  exists h : Tex.TexData,
    Parser.parse Tex.texHeaderParser Samples.too_wide = Some h /\
    Tex.width h = 5000 /\
    Tex.TexFile_constructor Samples.too_wide = Err (Tex.InvalidTexData 5000 1 8 1).
Proof.
  destruct (Parser.parse Tex.texHeaderParser Samples.too_wide) as [h|] eqn:Hparse;
    [|vm_compute in Hparse; discriminate].
  assert (Hw : Tex.width h = 5000)
    by (vm_compute in Hparse; injection Hparse as <-; reflexivity).
  exists h. split; [reflexivity|]. split; [exact Hw|].
  rewrite (proj1 constructor_rejects_out_of_range_header _ h Hparse)
    by (left; lia).
  vm_compute in Hparse. injection Hparse as <-. reflexivity.
Defined.

(** C4, as stated, fails: this 236-byte buffer is one byte shorter than its
    header, palette and pixel payload require, and decoding it fails with the
    "Invalid TEX data" error for its bit depth of 0, not with a truncation
    error: the header is validated before any length is looked at. *)
Lemma short_buffer_with_invalid_header_is_not_truncated :
  exists h : Tex.TexData,
    Parser.parse Tex.texHeaderParser Samples.zero_depth_no_pixel = Some h /\
    Tex.requiredLength h = 237 /\
    byteLength Samples.zero_depth_no_pixel = 236 /\
    Tex.TexFile_constructor Samples.zero_depth_no_pixel
    = Err (Tex.InvalidTexData 1 1 0 1) /\
    Tex.is_truncated (Tex.InvalidTexData 1 1 0 1) = false.
Proof.
  destruct (Parser.parse Tex.texHeaderParser Samples.zero_depth_no_pixel)
    as [h|] eqn:Hparse; [|vm_compute in Hparse; discriminate].
  exists h. split; [reflexivity|].
  vm_compute in Hparse. injection Hparse as <-.
  repeat split; vm_compute; reflexivity.
Qed.

(** C4, amended: decoding fails with a truncation error for a buffer that
    ends inside the header, where the header-parse error is thrown and
    nowhere else, and for a buffer whose header can be read and is in range
    and that is shorter than header, palette (when the palette flag is set)
    and pixel payload; a buffer whose header can be read and is out of
    range fails with the "Invalid TEX data" error whatever its length,
    which is no truncation error; and a buffer long enough for the pixel
    payload decodes, without a colour-key array when it is too short for
    that one. *)
Theorem constructor_truncated_buffer :
  (forall buf : Uint8Array,
     (byteLength buf < 48 \/
      byteLength buf < Tex.headerSize (Tex.layout_of (u32_at buf 44)) - 36) <->
     Tex.TexFile_constructor buf = Err Tex.HeaderParseFailed) /\
  Tex.is_truncated Tex.HeaderParseFailed = true /\
  (forall (buf : Uint8Array) (h : Tex.TexData),
     Parser.parse Tex.texHeaderParser buf = Some h ->
     Tex.isValidTexData h = true ->
     byteLength buf < Tex.requiredLength h ->
     exists e : Tex.TexError,
       Tex.TexFile_constructor buf = Err e /\ Tex.is_truncated e = true) /\
  (forall (buf : Uint8Array) (h : Tex.TexData),
     Parser.parse Tex.texHeaderParser buf = Some h ->
     Tex.isValidTexData h = false ->
     Tex.TexFile_constructor buf
     = Err (Tex.InvalidTexData (Tex.width h) (Tex.height h) (Tex.bitDepth h)
              (Tex.bytesPerPixel h)) /\
     Tex.is_truncated
       (Tex.InvalidTexData (Tex.width h) (Tex.height h) (Tex.bitDepth h)
          (Tex.bytesPerPixel h)) = false) /\
  (forall (buf : Uint8Array) (h : Tex.TexData),
     Parser.parse Tex.texHeaderParser buf = Some h ->
     Tex.isValidTexData h = true ->
     Tex.requiredLength h <= byteLength buf ->
     exists t : Tex.TexData,
       Tex.TexFile_constructor buf = Ok t /\
       Tex.pixels t
       = slice buf (Tex._headerSize h + Tex.paletteBytes h) (Tex.requiredLength h) /\
       (Tex.colorKeyArrayFlag h <> 0 ->
        byteLength buf < Tex.requiredLength h + Tex.numPalettes h ->
        Tex.colorKeyArray t = None)).
Proof.
  split; [|split; [reflexivity|split; [|split]]].
  - intros buf. rewrite <- header_unreadable_iff. split.
    + apply constructor_unreadable_header.
    + intros Herr.
      destruct (Parser.parse Tex.texHeaderParser buf) as [h|] eqn:Hp;
        [exfalso|reflexivity].
      destruct (Tex.isValidTexData h) eqn:Hv.
      * destruct (constructor_valid_header buf h Hp Hv)
          as (Hpal & Hpix & Hpix0 & Hdone).
        destruct (Z.le_gt_cases (Tex.requiredLength h) (byteLength buf))
          as [Hlong|Hshort].
        -- destruct (Hdone Hlong) as (t & Hok & _). congruence.
        -- destruct (Z.eq_dec (Tex.paletteFlag h) 0) as [Hf|Hf].
           ++ rewrite (Hpix0 Hf ltac:(lia)) in Herr. discriminate.
           ++ destruct (Z.le_gt_cases (Tex._headerSize h + Tex.paletteBytes h)
                          (byteLength buf)).
              ** rewrite (Hpix ltac:(lia) ltac:(lia)) in Herr. discriminate.
              ** rewrite (Hpal Hf ltac:(lia)) in Herr. discriminate.
      * rewrite (constructor_invalid_header buf h Hp Hv) in Herr. discriminate.
  - intros buf h Hp Hv Hshort.
    destruct (constructor_valid_header buf h Hp Hv) as (Hpal & Hpix & Hpix0 & _).
    destruct (Z.le_gt_cases (Tex._headerSize h + Tex.paletteBytes h) (byteLength buf)).
    + eexists. split; [apply Hpix; lia | reflexivity].
    + destruct (Z.eq_dec (Tex.paletteFlag h) 0) as [Hf|Hf].
      * eexists. split; [apply Hpix0; lia | reflexivity].
      * eexists. split; [apply Hpal; [exact Hf | lia] | reflexivity].
  - intros buf h Hp Hv. split; [|reflexivity].
    exact (constructor_invalid_header buf h Hp Hv).
  - intros buf h Hp Hv Hlen.
    destruct (constructor_valid_header buf h Hp Hv) as (_ & _ & _ & Hdone).
    destruct (Hdone Hlen) as (t & Hok & Hdec).
    exists t. split; [exact Hok|].
    destruct Hdec as (_ & _ & _ & _ & _ & _ & _ & _ & _ & _ & _ & _ & _ & Hpx & Hck).
    split; [exact Hpx|].
    intros Hflag Hshort. rewrite Hck.
    destruct (Z.leb_spec (Tex.requiredLength h + Tex.numPalettes h) (byteLength buf));
      [lia|].
    rewrite andb_false_r. reflexivity.
Qed.

Lemma constructor_truncated_buffer_witness :
  (byteLength (firstn 40 Samples.short_pixels_2x2) < 48 /\
   Tex.TexFile_constructor (firstn 40 Samples.short_pixels_2x2)
   = Err Tex.HeaderParseFailed) /\
  exists h : Tex.TexData,
    Parser.parse Tex.texHeaderParser Samples.short_pixels_2x2 = Some h /\
    Tex.isValidTexData h = true /\
    byteLength Samples.short_pixels_2x2 < Tex.requiredLength h /\
    exists e : Tex.TexError,
      Tex.TexFile_constructor Samples.short_pixels_2x2 = Err e /\
      Tex.is_truncated e = true.
Proof.
  split.
  - assert (Hshort : byteLength (firstn 40 Samples.short_pixels_2x2) < 48)
      by reflexivity.
    split; [exact Hshort|].
    exact (proj1 (proj1 constructor_truncated_buffer
                    (firstn 40 Samples.short_pixels_2x2)) (or_introl Hshort)).
  - destruct (Parser.parse Tex.texHeaderParser Samples.short_pixels_2x2)
      as [h|] eqn:Hparse; [|vm_compute in Hparse; discriminate].
    assert (Hv : Tex.isValidTexData h = true)
      by (vm_compute in Hparse; injection Hparse as <-; reflexivity).
    assert (Hlen : byteLength Samples.short_pixels_2x2 < Tex.requiredLength h)
      by (vm_compute in Hparse; injection Hparse as <-; reflexivity).
    exists h. split; [reflexivity|]. split; [exact Hv|]. split; [exact Hlen|].
    exact (proj1 (proj2 (proj2 constructor_truncated_buffer)) _ h Hparse Hv Hlen).
Defined.

(** ** Pixel expansion *)

(** A loop that writes one quadruplet per pixel fills the output with
    them. *)
Lemma write_quads (body : Z -> Uint8Array -> result JsError Uint8Array)
  (r g b a : Z -> byte) (n : Z) (out0 : Uint8Array) :
  0 <= n -> byteLength out0 = 4 * n ->
  (forall i out, 0 <= i < n ->
     body i out
     = Ok (put (put (put (put out (i * 4) (r i)) (i * 4 + 1) (g i))
                  (i * 4 + 2) (b i)) (i * 4 + 3) (a i))) ->
  exists out,
    for_loop n body out0 = Ok out /\ byteLength out = 4 * n /\
    forall i, 0 <= i < n -> Tex.quad_at out i (r i) (g i) (b i) (a i).
Proof.
  intros Hn Hlen Hbody.
  destruct (for_loop_returns body
              (fun j out => byteLength out = 4 * n /\
                 forall i, 0 <= i < j ->
                   Tex.quad_at out i (r i) (g i) (b i) (a i))
              n out0 Hn) as (out & Hrun & Hout & Hquads).
  - intros j out Hj (Hl & Hprev). rewrite (Hbody j out Hj).
    eexists. split; [reflexivity|]. split.
    + rewrite !byteLength_put. exact Hl.
    + intros i Hi. unfold Tex.quad_at.
      destruct (Z.eq_dec i j) as [->|Hne].
      * replace (4 * j) with (j * 4) by lia.
        repeat split.
        -- rewrite !get_put_neq by lia. apply get_put_eq. lia.
        -- rewrite !get_put_neq by lia. apply get_put_eq.
           rewrite byteLength_put. lia.
        -- rewrite !get_put_neq by lia. apply get_put_eq.
           rewrite !byteLength_put. lia.
        -- apply get_put_eq. rewrite !byteLength_put. lia.
      * destruct (Hprev i ltac:(lia)) as (Hr & Hg & Hb & Ha).
        repeat split; rewrite !get_put_neq by lia; assumption.
  - split; [exact Hlen|]. intros i Hi. lia.
  - exists out. auto.
Qed.

(** The payload of a decoded texture. *)
Lemma decoded_payload (buf : Uint8Array) (t : Tex.TexData) :
  Tex.TexFile_constructor buf = Ok t ->
  0 < Tex.width t * Tex.height t /\
  1 <= Tex.bytesPerPixel t <= 4 /\
  byteLength (Tex.pixels t) = Tex.width t * Tex.height t * Tex.bytesPerPixel t /\
  0 <= Tex.numPalettes t /\
  0 <= Tex.alphaBits (Tex.pixelFormat t) /\
  (Tex.paletteFlag t <> 0 -> exists pal, Tex.palette t = Some pal).
Proof.
  intros Hok.
  destruct (constructor_Ok_inv buf t Hok) as (h & Hp & Hv & Hlen & Hdec).
  destruct (parsed_header_shape buf h Hp) as (Hhs & Hnp & Hps & _ & Hab & _).
  apply isValidTexData_true in Hv.
  destruct Hdec as (Hw & Hh & _ & Hbpp & Hpf & _ & Hnum & _ & _ & Hfmt & _ & _
                    & Hpal & Hpix & _).
  rewrite Hw, Hh, Hbpp, Hnum, Hfmt, Hpf.
  assert (Hpb : 0 <= Tex.paletteBytes h).
  { unfold Tex.paletteBytes. destruct (_ =? 0); lia. }
  repeat split; try lia; try nia.
  - rewrite Hpix. rewrite byteLength_slice.
    + unfold Tex.requiredLength, Tex.pixelBytes. lia.
    + unfold Tex.requiredLength, Tex.pixelBytes. split; [lia | nia].
    + exact Hlen.
  - intros Hflag. rewrite Hpal.
    destruct (Z.eqb_spec (Tex.paletteFlag h) 0); [contradiction | eauto].
Qed.

(** Palette mode, for whatever number of colours per palette is in use. *)
Lemma palette_expansion (buf : Uint8Array) (t : Tex.TexData)
  (paletteIndex colors : Z) :
  Tex.TexFile_constructor buf = Ok t ->
  Tex.paletteFlag t <> 0 ->
  Tex.actualColorsPerPalette t = Some colors ->
  exists pal out,
    Tex.palette t = Some pal /\
    Tex.getPixels t paletteIndex = Ok out /\
    byteLength out = 4 * (Tex.width t * Tex.height t) /\
    forall i, 0 <= i < Tex.width t * Tex.height t ->
      exists p, get (Tex.pixels t) i = Some p /\
        let colorIndex := byte_to_Z p * 4 + paletteIndex * colors * 4 in
        Tex.quad_at out i
          (Tex.stored (get pal (colorIndex + 2)))
          (Tex.stored (get pal (colorIndex + 1)))
          (Tex.stored (get pal colorIndex))
          (Tex.stored (get pal (colorIndex + 3))).
Proof.
  intros Hok Hflag Hcolors.
  destruct (decoded_payload buf t Hok) as (Hn & Hbpp & Hpix & _ & _ & Hpal).
  destruct (Hpal Hflag) as (pal & Hpal').
  set (n := Tex.width t * Tex.height t) in *.
  set (index := fun i =>
         match get (Tex.pixels t) i with
         | Some p => Some (byte_to_Z p * 4 + paletteIndex * colors * 4)
         | None => None
         end).
  destruct (write_quads
              (Tex.palette_body t pal (Some (paletteIndex * colors * 4)))
              (fun i => Tex.stored (Tex.index_read pal (Tex.shift_index (index i) 2)))
              (fun i => Tex.stored (Tex.index_read pal (Tex.shift_index (index i) 1)))
              (fun i => Tex.stored (Tex.index_read pal (index i)))
              (fun i => Tex.stored (Tex.index_read pal (Tex.shift_index (index i) 3)))
              n (zeros (n * 4)))
    as (out & Hrun & Hlen & Hquads).
  - lia.
  - rewrite byteLength_zeros; lia.
  - intros i out Hi. unfold Tex.palette_body, Tex.store, index.
    destruct (get (Tex.pixels t) i); reflexivity.
  - exists pal, out. split; [exact Hpal'|]. split.
    + unfold Tex.getPixels, Uint8Array_new. fold n.
      destruct (Z.ltb_spec (n * 4) 0); [lia|]. cbn [bindR].
      destruct (Z.eqb_spec (Tex.paletteFlag t) 0); [contradiction|].
      cbn [negb]. rewrite Hcolors, Hpal'. exact Hrun.
    + split; [exact Hlen|]. intros i Hi.
      destruct (get_Some_lt (Tex.pixels t) i) as (p & Hp); [nia|].
      exists p. split; [exact Hp|].
      specialize (Hquads i Hi). unfold index in Hquads. rewrite Hp in Hquads.
      exact Hquads.
Qed.

(** C5, as stated, fails: in this decoded palette-mode texture the palette
    count is 0, so floor(paletteSize / numPalettes) is no number, and
    [getPixels] uses the header's colours-per-palette field, here 1: with
    palette index 1 it reads the colour at palette byte 4. *)
Lemma palette_count_zero_uses_header_field :
  exists t : Tex.TexData,
    Tex.TexFile_constructor Samples.no_palette_count_2x1 = Ok t /\
    Tex.paletteFlag t <> 0 /\
    Tex.floor_div (Tex.paletteSize t) (Tex.numPalettes t) = None /\
    Tex.actualColorsPerPalette t = Some (Tex.colorsPerPalette t) /\
    Tex.actualColorsPerPalette t
    <> Tex.floor_div (Tex.paletteSize t) (Tex.numPalettes t) /\
    Tex.getPixels t 1 = Ok [x07; x06; x05; x08; x07; x06; x05; x08].
Proof.
  destruct (Tex.TexFile_constructor Samples.no_palette_count_2x1) as [t|e] eqn:Hok;
    [|vm_compute in Hok; discriminate].
  exists t. split; [reflexivity|].
  vm_compute in Hok. injection Hok as <-.
  repeat split; try (vm_compute; reflexivity); vm_compute; discriminate.
Qed.

(** C5, amended: for every decoded palette-mode texture, [getPixels]
    takes floor(paletteSize / numPalettes) as the number of colours per
    palette when the palette count is positive, whatever the header's
    colours-per-palette field says (and that field when the palette count is
    0), and emits for each pixel the palette bytes 2, 1, 0, 3 of its colour
    (stored B, G, R, A) in that order, that is R, G, B, A; a palette byte
    outside the palette reads as 0.  The 2x1 image of the specification
    yields [30, 20, 10, 255] for both pixels; the two-palette sample shows the
    second palette starting at colour 4/2 = 2 although its header says 256. *)
Theorem getPixels_palette_mode :
  (forall (buf : Uint8Array) (t : Tex.TexData) (paletteIndex : Z),
     Tex.TexFile_constructor buf = Ok t ->
     Tex.paletteFlag t <> 0 ->
     exists colors pal out,
       Tex.actualColorsPerPalette t = Some colors /\
       (0 < Tex.numPalettes t ->
        colors = Tex.paletteSize t / Tex.numPalettes t) /\
       (Tex.numPalettes t = 0 -> colors = Tex.colorsPerPalette t) /\
       Tex.palette t = Some pal /\
       Tex.getPixels t paletteIndex = Ok out /\
       byteLength out = 4 * (Tex.width t * Tex.height t) /\
       forall i, 0 <= i < Tex.width t * Tex.height t ->
         exists p, get (Tex.pixels t) i = Some p /\
           let colorIndex := byte_to_Z p * 4 + paletteIndex * colors * 4 in
           get out (4 * i) = Some (Tex.stored (get pal (colorIndex + 2))) /\
           get out (4 * i + 1) = Some (Tex.stored (get pal (colorIndex + 1))) /\
           get out (4 * i + 2) = Some (Tex.stored (get pal colorIndex)) /\
           get out (4 * i + 3) = Some (Tex.stored (get pal (colorIndex + 3)))) /\
  (exists t : Tex.TexData,
     Tex.TexFile_constructor Samples.palette_2x1 = Ok t /\
     Tex.palette t = Some [x0a; x14; x1e; xff] /\
     Tex.pixels t = [x00; x00] /\
     Tex.getPixels t 0 = Ok [x1e; x14; x0a; xff; x1e; x14; x0a; xff]) /\
  (exists t : Tex.TexData,
     Tex.TexFile_constructor Samples.two_palettes_2x1 = Ok t /\
     Tex.colorsPerPalette t = 256 /\
     Tex.getPixels t 1 = Ok [x0d; x0c; x0b; x0e; x17; x16; x15; x18]).
Proof.
  split; [|split].
  - intros buf t paletteIndex Hok Hflag.
    destruct (decoded_payload buf t Hok) as (_ & _ & _ & Hnum & _).
    assert (Hcolors : exists colors,
              Tex.actualColorsPerPalette t = Some colors /\
              (0 < Tex.numPalettes t ->
               colors = Tex.paletteSize t / Tex.numPalettes t) /\
              (Tex.numPalettes t = 0 -> colors = Tex.colorsPerPalette t)).
    { unfold Tex.actualColorsPerPalette, Tex.floor_div.
      destruct (Z.ltb_spec 0 (Tex.numPalettes t)).
      - destruct (Z.eqb_spec (Tex.numPalettes t) 0); [lia|].
        eexists. split; [reflexivity|]. split; [reflexivity | lia].
      - eexists. split; [reflexivity|]. split; [lia | reflexivity]. }
    destruct Hcolors as (colors & Hsome & Hpos & Hzero).
    destruct (palette_expansion buf t paletteIndex colors Hok Hflag Hsome)
      as (pal & out & Hpal & Hrun & Hlen & Hquads).
    exists colors, pal, out.
    split; [exact Hsome|]. split; [exact Hpos|]. split; [exact Hzero|].
    split; [exact Hpal|]. split; [exact Hrun|]. split; [exact Hlen|].
    intros i Hi. destruct (Hquads i Hi) as (p & Hp & Hq).
    exists p. split; [exact Hp | exact Hq].
  - destruct (Tex.TexFile_constructor Samples.palette_2x1) as [t|e] eqn:Hok;
      [|vm_compute in Hok; discriminate].
    exists t. split; [reflexivity|].
    vm_compute in Hok. injection Hok as <-.
    repeat split; vm_compute; reflexivity.
  - destruct (Tex.TexFile_constructor Samples.two_palettes_2x1) as [t|e] eqn:Hok;
      [|vm_compute in Hok; discriminate].
    exists t. split; [reflexivity|].
    vm_compute in Hok. injection Hok as <-.
    repeat split; vm_compute; reflexivity.
Qed.

Lemma getPixels_palette_mode_witness :
  exists t pal out : _,
    Tex.TexFile_constructor Samples.two_palettes_2x1 = Ok t /\
    Tex.paletteFlag t <> 0 /\
    0 < Tex.numPalettes t /\
    Tex.actualColorsPerPalette t = Some (Tex.paletteSize t / Tex.numPalettes t) /\
    Tex.palette t = Some pal /\
    Tex.getPixels t 1 = Ok out.
Proof.
  destruct (Tex.TexFile_constructor Samples.two_palettes_2x1) as [t|e] eqn:Hok;
    [|vm_compute in Hok; discriminate].
  assert (Hflag : Tex.paletteFlag t <> 0)
    by (vm_compute in Hok; injection Hok as <-; vm_compute; discriminate).
  assert (Hnum : 0 < Tex.numPalettes t)
    by (vm_compute in Hok; injection Hok as <-; reflexivity).
  destruct (proj1 getPixels_palette_mode _ t 1 Hok Hflag)
    as (colors & pal & out & Hcolors & Hpos & _ & Hpal & Hrun & _).
  exists t, pal, out. rewrite <- (Hpos Hnum). repeat split; assumption.
Defined.

(** C10: the division in [getPixels] is guarded for every texture
    structure: the number of colours per palette is always a number, never
    the non-finite quotient of a division by zero; when the palette count is
    0 it is the header's colours-per-palette field, and a decoded
    palette-mode texture with palette count 0 is expanded with that
    field. *)
Theorem actualColorsPerPalette_division_guarded :
  (forall d : Tex.TexData,
     exists colors : Z, Tex.actualColorsPerPalette d = Some colors) /\
  (forall d : Tex.TexData,
     Tex.numPalettes d = 0 ->
     Tex.floor_div (Tex.paletteSize d) (Tex.numPalettes d) = None /\
     Tex.actualColorsPerPalette d = Some (Tex.colorsPerPalette d)) /\
  (forall (buf : Uint8Array) (t : Tex.TexData) (paletteIndex : Z),
     Tex.TexFile_constructor buf = Ok t ->
     Tex.paletteFlag t <> 0 ->
     Tex.numPalettes t = 0 ->
     exists pal out,
       Tex.palette t = Some pal /\
       Tex.getPixels t paletteIndex = Ok out /\
       byteLength out = 4 * (Tex.width t * Tex.height t) /\
       forall i, 0 <= i < Tex.width t * Tex.height t ->
         exists p, get (Tex.pixels t) i = Some p /\
           let colorIndex :=
             byte_to_Z p * 4 + paletteIndex * Tex.colorsPerPalette t * 4 in
           get out (4 * i) = Some (Tex.stored (get pal (colorIndex + 2))) /\
           get out (4 * i + 1) = Some (Tex.stored (get pal (colorIndex + 1))) /\
           get out (4 * i + 2) = Some (Tex.stored (get pal colorIndex)) /\
           get out (4 * i + 3) = Some (Tex.stored (get pal (colorIndex + 3)))).
Proof.
  assert (Hzero : forall d, Tex.numPalettes d = 0 ->
            Tex.actualColorsPerPalette d = Some (Tex.colorsPerPalette d)).
  { intros d Hd. unfold Tex.actualColorsPerPalette. rewrite Hd. reflexivity. }
  split; [|split].
  - intros d. unfold Tex.actualColorsPerPalette, Tex.floor_div.
    destruct (Z.ltb_spec 0 (Tex.numPalettes d)); [|eauto].
    destruct (Z.eqb_spec (Tex.numPalettes d) 0); [lia | eauto].
  - intros d Hd. split; [|exact (Hzero d Hd)].
    unfold Tex.floor_div. rewrite Hd. reflexivity.
  - intros buf t paletteIndex Hok Hflag Hnum.
    destruct (palette_expansion buf t paletteIndex (Tex.colorsPerPalette t)
                Hok Hflag (Hzero t Hnum))
      as (pal & out & Hpal & Hrun & Hlen & Hquads).
    exists pal, out.
    split; [exact Hpal|]. split; [exact Hrun|]. split; [exact Hlen|].
    intros i Hi. destruct (Hquads i Hi) as (p & Hp & Hq).
    exists p. split; [exact Hp | exact Hq].
Qed.

Lemma actualColorsPerPalette_division_guarded_witness :
  exists t pal out : _,
    Tex.TexFile_constructor Samples.no_palette_count_2x1 = Ok t /\
    Tex.paletteFlag t <> 0 /\
    Tex.numPalettes t = 0 /\
    Tex.actualColorsPerPalette t = Some (Tex.colorsPerPalette t) /\
    Tex.palette t = Some pal /\
    Tex.getPixels t 1 = Ok out.
Proof.
  destruct (Tex.TexFile_constructor Samples.no_palette_count_2x1) as [t|e] eqn:Hok;
    [|vm_compute in Hok; discriminate].
  assert (Hflag : Tex.paletteFlag t <> 0)
    by (vm_compute in Hok; injection Hok as <-; vm_compute; discriminate).
  assert (Hnum : Tex.numPalettes t = 0)
    by (vm_compute in Hok; injection Hok as <-; reflexivity).
  destruct (proj2 (proj2 actualColorsPerPalette_division_guarded) _ t 1 Hok Hflag Hnum)
    as (pal & out & Hpal & Hrun & _).
  exists t, pal, out. repeat split; try assumption.
  exact (proj2 (proj1 (proj2 actualColorsPerPalette_division_guarded) t Hnum)).
Defined.

Lemma u16_at_le_uint (a : Uint8Array) (off : Z) :
  u16_at a off = Tex.le_uint a off 2.
Proof. unfold u16_at. cbn [Tex.le_uint]. lia. Qed.

Lemma u32_at_le_uint (a : Uint8Array) (off : Z) :
  u32_at a off = Tex.le_uint a off 4.
Proof.
  unfold u32_at. cbn [Tex.le_uint].
  replace (off + 1 + 1) with (off + 2) by lia.
  replace (off + 2 + 1) with (off + 3) by lia. lia.
Qed.

(** One iteration of the direct-colour loop, for 2 or 4 bytes per pixel. *)
Lemma direct_body_returns (t : Tex.TexData) (i : Z) (out : Uint8Array) :
  Tex.bytesPerPixel t = 2 \/ Tex.bytesPerPixel t = 4 ->
  0 <= i ->
  i * Tex.bytesPerPixel t + Tex.bytesPerPixel t <= byteLength (Tex.pixels t) ->
  let f := Tex.pixelFormat t in
  let value :=
    Tex.le_uint (Tex.pixels t) (i * Tex.bytesPerPixel t)
      (Z.to_nat (Tex.bytesPerPixel t)) in
  Tex.direct_body t i out
  = Ok (put (put (put (put out (i * 4)
          (ToUint8 (Tex.channel value (Tex.redMask f) (Tex.redShift f) (Tex.redBits f))))
          (i * 4 + 1)
          (ToUint8 (Tex.channel value (Tex.greenMask f) (Tex.greenShift f) (Tex.greenBits f))))
          (i * 4 + 2)
          (ToUint8 (Tex.channel value (Tex.blueMask f) (Tex.blueShift f) (Tex.blueBits f))))
          (i * 4 + 3)
          (ToUint8 (if 0 <? Tex.alphaBits f
                    then Tex.channel value (Tex.alphaMask f) (Tex.alphaShift f)
                           (Tex.alphaBits f)
                    else 255))).
Proof.
  intros Hbpp Hi Hfit f value. unfold Tex.direct_body, DataView_new.
  destruct (Z.ltb_spec (i * Tex.bytesPerPixel t) 0); [lia|].
  destruct (Z.ltb_spec (Tex.bytesPerPixel t) 0); [lia|].
  destruct (Z.ltb_spec (byteLength (Tex.pixels t))
              (i * Tex.bytesPerPixel t + Tex.bytesPerPixel t)); [lia|].
  cbn [orb bindR]. subst value f.
  destruct Hbpp as [H2|H4].
  - rewrite H2. cbn [Z.eqb Pos.eqb]. unfold getUint16. cbn.
    rewrite Z.add_0_r, u16_at_le_uint. reflexivity.
  - rewrite H4. cbn [Z.eqb Pos.eqb]. unfold getUint32. cbn.
    rewrite Z.add_0_r, u32_at_le_uint. reflexivity.
Qed.

Lemma byte_to_Z_ToUint8 (z : Z) : byte_to_Z (ToUint8 z) = z mod 256.
Proof.
  unfold byte_to_Z, ToUint8.
  pose proof (Z.mod_pos_bound z 256 ltac:(lia)) as Hb.
  destruct (Byte.of_N (Z.to_N (z mod 256))) as [b|] eqn:E.
  - apply Byte.to_of_N in E. rewrite E. lia.
  - apply Byte.of_N_None_iff in E. lia.
Qed.

Lemma ToInt32_small (x : Z) : -2147483648 <= x < 2147483648 -> ToInt32 x = x.
Proof. intros Hx. unfold ToInt32. rewrite Z.mod_small; lia. Qed.

Lemma ToInt32_mod_256 (x : Z) : ToInt32 x mod 256 = x mod 256.
Proof.
  unfold ToInt32.
  rewrite (Z.mod_eq (x + 2147483648) 4294967296) by lia.
  replace (x + 2147483648 - 4294967296 * ((x + 2147483648) / 4294967296) - 2147483648)
    with (x + (- (16777216 * ((x + 2147483648) / 4294967296))) * 256) by lia.
  apply Z_mod_plus_full.
Qed.

Lemma land_below (v m : Z) :
  0 <= v < 2147483648 -> 0 <= Z.land v m < 2147483648.
Proof.
  intros Hv. split.
  - apply Z.land_nonneg. left. lia.
  - replace v with (Z.land v (Z.ones 31)).
    + rewrite <- Z.land_assoc, (Z.land_comm (Z.ones 31) m), Z.land_assoc.
      rewrite Z.land_ones by lia.
      apply Z.mod_pos_bound. reflexivity.
    + rewrite Z.land_ones by lia. apply Z.mod_small.
      change (2 ^ 31) with 2147483648. lia.
Qed.

(** On values and masks below 2^31 the 32-bit operators are the
    unsigned ones. *)
Lemma channel_unsigned (value mask shift bits : Z) :
  0 <= value < 2147483648 -> 0 <= mask < 2147483648 ->
  0 <= shift < 32 -> 0 <= bits <= 8 ->
  byte_to_Z (ToUint8 (js_shl (js_sar (js_and value mask) shift) (8 - bits)))
  = (Z.land value mask / 2 ^ shift * 2 ^ (8 - bits)) mod 256.
Proof.
  intros Hv Hm Hs Hb.
  rewrite byte_to_Z_ToUint8. unfold js_shl, js_sar, js_and, ToUint32.
  rewrite ToInt32_mod_256.
  rewrite (ToInt32_small value), (ToInt32_small mask) by lia.
  pose proof (land_below value mask Hv) as Hl.
  rewrite (ToInt32_small (Z.land value mask)) by lia.
  rewrite (Z.mod_small shift 4294967296), (Z.mod_small shift 32) by lia.
  rewrite (Z.mod_small (8 - bits) 4294967296), (Z.mod_small (8 - bits) 32) by lia.
  rewrite Z.shiftr_div_pow2 by lia.
  assert (Hpow : 0 < 2 ^ shift) by (apply Z.pow_pos_nonneg; lia).
  assert (Hq : 0 <= Z.land value mask / 2 ^ shift <= Z.land value mask).
  { split.
    - apply Z.div_pos; lia.
    - apply Z.div_le_upper_bound; [lia | nia]. }
  rewrite ToInt32_small by lia.
  rewrite Z.shiftl_mul_pow2 by lia. reflexivity.
Qed.

(** C6, as stated, fails: this decoded direct-colour texture has 3 bytes
    per pixel; [getPixels] asks a 3-byte view for a 32-bit integer and
    throws. *)
Lemma three_byte_pixels_throw :
  exists t : Tex.TexData,
    Tex.TexFile_constructor Samples.rgb888_1x1 = Ok t /\
    Tex.paletteFlag t = 0 /\
    Tex.bytesPerPixel t = 3 /\
    Tex.pixels t = [x0a; x14; x1e] /\
    Tex.getPixels t 0 = Err RangeError.
Proof.
  destruct (Tex.TexFile_constructor Samples.rgb888_1x1) as [t|e] eqn:Hok;
    [|vm_compute in Hok; discriminate].
  exists t. split; [reflexivity|].
  vm_compute in Hok. injection Hok as <-.
  repeat split; vm_compute; reflexivity.
Qed.

(** C6, amended: for every decoded direct-colour texture with 2 or 4 bytes
    per pixel, [getPixels] reads each pixel as the little-endian unsigned
    integer of its bytes and stores, for each channel, the low byte of
    [((value & mask) >> shift) << (8 - bits)], with alpha 255 when the format
    has no alpha bits.  Red with 5 bits, mask 0x7C00 and shift 10 is 0xF8 on
    the value 0x7C00, as a formula and on a decoded 1x1 image; and where
    value and mask are below 2^31 the stored byte is that of the unsigned
    reading of the formula. *)
Theorem getPixels_direct_color :
  (forall (buf : Uint8Array) (t : Tex.TexData) (paletteIndex : Z),
     Tex.TexFile_constructor buf = Ok t ->
     Tex.paletteFlag t = 0 ->
     Tex.bytesPerPixel t = 2 \/ Tex.bytesPerPixel t = 4 ->
     exists out,
       Tex.getPixels t paletteIndex = Ok out /\
       byteLength out = 4 * (Tex.width t * Tex.height t) /\
       forall i, 0 <= i < Tex.width t * Tex.height t ->
         let f := Tex.pixelFormat t in
         let value :=
           Tex.le_uint (Tex.pixels t) (i * Tex.bytesPerPixel t)
             (Z.to_nat (Tex.bytesPerPixel t)) in
         get out (4 * i)
         = Some (ToUint8 (js_shl (js_sar (js_and value (Tex.redMask f))
                                     (Tex.redShift f)) (8 - Tex.redBits f))) /\
         get out (4 * i + 1)
         = Some (ToUint8 (js_shl (js_sar (js_and value (Tex.greenMask f))
                                     (Tex.greenShift f)) (8 - Tex.greenBits f))) /\
         get out (4 * i + 2)
         = Some (ToUint8 (js_shl (js_sar (js_and value (Tex.blueMask f))
                                     (Tex.blueShift f)) (8 - Tex.blueBits f))) /\
         (Tex.alphaBits f = 0 -> get out (4 * i + 3) = Some xff) /\
         (Tex.alphaBits f <> 0 ->
          get out (4 * i + 3)
          = Some (ToUint8 (js_shl (js_sar (js_and value (Tex.alphaMask f))
                                      (Tex.alphaShift f)) (8 - Tex.alphaBits f))))) /\
  js_shl (js_sar (js_and 0x7C00 0x7C00) 10) (8 - 5) = 0xF8 /\
  (forall value mask shift bits : Z,
     0 <= value < 2147483648 -> 0 <= mask < 2147483648 ->
     0 <= shift < 32 -> 0 <= bits <= 8 ->
     byte_to_Z (ToUint8 (js_shl (js_sar (js_and value mask) shift) (8 - bits)))
     = (Z.land value mask / 2 ^ shift * 2 ^ (8 - bits)) mod 256) /\
  (exists t : Tex.TexData,
     Tex.TexFile_constructor Samples.rgb555_1x1 = Ok t /\
     Tex.pixels t = [x00; x7c] /\
     Tex.redBits (Tex.pixelFormat t) = 5 /\
     Tex.redMask (Tex.pixelFormat t) = 0x7C00 /\
     Tex.redShift (Tex.pixelFormat t) = 10 /\
     Tex.getPixels t 0 = Ok [xf8; x00; x00; xff]).
Proof.
  split; [|split; [|split]].
  - intros buf t paletteIndex Hok Hflag Hbpp.
    destruct (decoded_payload buf t Hok) as (Hn & _ & Hpix & _ & Hab & _).
    set (n := Tex.width t * Tex.height t) in *.
    set (f := Tex.pixelFormat t) in *.
    set (value := fun i =>
           Tex.le_uint (Tex.pixels t) (i * Tex.bytesPerPixel t)
             (Z.to_nat (Tex.bytesPerPixel t))).
    destruct (write_quads (Tex.direct_body t)
                (fun i => ToUint8 (Tex.channel (value i) (Tex.redMask f)
                                     (Tex.redShift f) (Tex.redBits f)))
                (fun i => ToUint8 (Tex.channel (value i) (Tex.greenMask f)
                                     (Tex.greenShift f) (Tex.greenBits f)))
                (fun i => ToUint8 (Tex.channel (value i) (Tex.blueMask f)
                                     (Tex.blueShift f) (Tex.blueBits f)))
                (fun i => ToUint8 (if 0 <? Tex.alphaBits f
                                   then Tex.channel (value i) (Tex.alphaMask f)
                                          (Tex.alphaShift f) (Tex.alphaBits f)
                                   else 255))
                n (zeros (n * 4)))
      as (out & Hrun & Hlen & Hquads).
    + lia.
    + rewrite byteLength_zeros; lia.
    + intros i out Hi. apply direct_body_returns; [exact Hbpp | lia |].
      rewrite Hpix. fold n. nia.
    + exists out. split.
      * unfold Tex.getPixels, Uint8Array_new. fold n.
        destruct (Z.ltb_spec (n * 4) 0); [lia|]. cbn [bindR].
        rewrite Hflag. exact Hrun.
      * split; [exact Hlen|]. intros i Hi.
        destruct (Hquads i Hi) as (Hr & Hg & Hb & Ha).
        cbv zeta. fold f. fold (value i).
        split; [exact Hr|]. split; [exact Hg|]. split; [exact Hb|].
        split.
        -- intros Hz. rewrite Ha, Hz. reflexivity.
        -- intros Hnz. rewrite Ha.
           destruct (Z.ltb_spec 0 (Tex.alphaBits f)); [reflexivity | lia].
  - vm_compute. reflexivity.
  - exact channel_unsigned.
  - destruct (Tex.TexFile_constructor Samples.rgb555_1x1) as [t|e] eqn:Hok;
      [|vm_compute in Hok; discriminate].
    exists t. split; [reflexivity|].
    vm_compute in Hok. injection Hok as <-.
    repeat split; vm_compute; reflexivity.
Qed.

Lemma getPixels_direct_color_witness :
  exists t out : _,
    Tex.TexFile_constructor Samples.rgb555_1x1 = Ok t /\
    Tex.paletteFlag t = 0 /\
    Tex.bytesPerPixel t = 2 /\
    Tex.getPixels t 0 = Ok out /\
    byteLength out = 4 * (Tex.width t * Tex.height t).
Proof.
  destruct (Tex.TexFile_constructor Samples.rgb555_1x1) as [t|e] eqn:Hok;
    [|vm_compute in Hok; discriminate].
  assert (Hflag : Tex.paletteFlag t = 0)
    by (vm_compute in Hok; injection Hok as <-; reflexivity).
  assert (Hbpp : Tex.bytesPerPixel t = 2)
    by (vm_compute in Hok; injection Hok as <-; reflexivity).
  destruct (proj1 getPixels_direct_color _ t 0 Hok Hflag (or_introl Hbpp))
    as (out & Hrun & Hlen & _).
  exists t, out. repeat split; assumption.
Defined.

(** ** Re-encoding *)

Lemma Uint8Array_set_Ok (target source out : Uint8Array) (offset : Z) :
  Uint8Array_set target source offset = Ok out ->
  byteLength out = byteLength target /\
  0 <= offset /\ offset + byteLength source <= byteLength target.
Proof.
  unfold Uint8Array_set.
  destruct (Z.ltb_spec offset 0); cbn [orb]; [discriminate|].
  destruct (Z.ltb_spec (byteLength target) (offset + byteLength source));
    [discriminate|].
  intros [= <-]. split; [|lia].
  unfold byteLength in *. rewrite !length_app, length_firstn, length_skipn. lia.
Qed.

Lemma advances_view_setUint32 (v : Z) : Tex.advances (Tex.view_setUint32 v) 0.
Proof.
  intros out off out' off'. unfold Tex.view_setUint32, setUint32.
  destruct ((off <? 0) || (byteLength out <? off + 4)); cbn [bindR]; [discriminate|].
  destruct (Uint8Array_set out (le32 v) off) as [o|e] eqn:Hset; cbn [bindR];
    [|discriminate].
  intros [= <- <-]. destruct (Uint8Array_set_Ok _ _ _ _ Hset) as (Hl & _).
  split; [exact Hl | lia].
Qed.

Lemma advances_offset_add (n : Z) : Tex.advances (Tex.offset_add n) n.
Proof.
  intros out off out' off'. unfold Tex.offset_add. intros [= <- <-]. auto.
Qed.

Lemma advances_andThen (w1 w2 : Tex.Writer) (n1 n2 n : Z) :
  Tex.advances w1 n1 -> Tex.advances w2 n2 -> n = n1 + n2 ->
  Tex.advances (Tex.andThen w1 w2) n.
Proof.
  intros H1 H2 -> out off out' off'. unfold Tex.andThen.
  destruct (w1 (out, off)) as [[o1 f1]|e] eqn:E1; cbn [bindR]; [|discriminate].
  intros E2. destruct (H1 _ _ _ _ E1) as (Hl1 & ->).
  destruct (H2 _ _ _ _ E2) as (Hl2 & ->). split; [congruence | lia].
Qed.

Ltac advances_chain :=
  lazymatch goal with
  | |- Tex.advances (Tex.andThen _ _) _ =>
      eapply advances_andThen; [advances_chain | advances_chain | reflexivity]
  | |- Tex.advances (Tex.view_setUint32 _) _ => apply advances_view_setUint32
  | |- Tex.advances (Tex.offset_add _) _ => apply advances_offset_add
  end.

(** The header that [writeFile] writes is 252 bytes long: 16 more than the
    0xEC bytes that [totalSize] reserves for it. *)
Lemma written_header_advances (d : Tex.TexData) :
  Tex.advances
    (Tex.andThen
       (Tex.andThen (Tex.writeHeader d) (Tex.writePixelFormat (Tex.pixelFormat d)))
       (Tex.writeTrailer d))
    252.
Proof.
  unfold Tex.writeHeader, Tex.writePixelFormat, Tex.writeTrailer.
  advances_chain.
Qed.

Lemma andThen_Ok (w1 w2 : Tex.Writer) (st st2 : Uint8Array * Z) :
  Tex.andThen w1 w2 st = Ok st2 ->
  exists st1, w1 st = Ok st1 /\ w2 st1 = Ok st2.
Proof.
  unfold Tex.andThen. destruct (w1 st) as [st1|e]; cbn [bindR]; [eauto | discriminate].
Qed.

Lemma out_set_Ok (a out out' : Uint8Array) (off off' : Z) :
  Tex.out_set a (out, off) = Ok (out', off') ->
  byteLength out' = byteLength out /\ off' = off /\
  off + byteLength a <= byteLength out.
Proof.
  unfold Tex.out_set.
  destruct (Uint8Array_set out a off) as [o|e] eqn:Hset; cbn [bindR]; [|discriminate].
  intros [= <- <-]. destruct (Uint8Array_set_Ok _ _ _ _ Hset) as (Hl & _ & Hfit).
  auto.
Qed.

Lemma writePayload_Ok (d : Tex.TexData) (out out' : Uint8Array) (off off' : Z) :
  Tex.writePayload d (out, off) = Ok (out', off') ->
  let written :=
    match Tex.palette d with
    | Some pal => if negb (Tex.paletteFlag d =? 0) then byteLength pal else 0
    | None => 0
    end in
  byteLength out' = byteLength out /\
  off + written + byteLength (Tex.pixels d) <= byteLength out /\
  (forall cka, Tex.colorKeyArray d = Some cka -> Tex.colorKeyArrayFlag d <> 0 ->
     off + written + byteLength (Tex.pixels d) + byteLength cka <= byteLength out).
Proof.
  intros Hrun written. unfold Tex.writePayload in Hrun.
  apply andThen_Ok in Hrun. destruct Hrun as ([o3 f3] & Hrun & Hck).
  apply andThen_Ok in Hrun. destruct Hrun as ([o2 f2] & Hrun & Hadd).
  apply andThen_Ok in Hrun. destruct Hrun as ([o1 f1] & Hpal & Hpix).
  assert (H1 : byteLength o1 = byteLength out /\ f1 = off + written).
  { subst written. destruct (Tex.palette d) as [pal|].
    - destruct (negb (Tex.paletteFlag d =? 0)).
      + apply andThen_Ok in Hpal. destruct Hpal as ([o0 f0] & Hset & Hadd0).
        apply out_set_Ok in Hset. destruct Hset as (Hl & -> & _).
        unfold Tex.offset_add in Hadd0. injection Hadd0 as <- <-. auto.
      + unfold Tex.skip_write in Hpal. injection Hpal as <- <-. split; [auto | lia].
    - unfold Tex.skip_write in Hpal. injection Hpal as <- <-. split; [auto | lia]. }
  destruct H1 as (Hl1 & ->).
  apply out_set_Ok in Hpix. destruct Hpix as (Hl2 & -> & Hfit2).
  unfold Tex.offset_add in Hadd. injection Hadd as <- <-.
  split; [|split].
  - destruct (Tex.colorKeyArray d) as [cka|].
    + destruct (negb (Tex.colorKeyArrayFlag d =? 0)).
      * apply out_set_Ok in Hck. destruct Hck as (Hl3 & _). congruence.
      * unfold Tex.skip_write in Hck. injection Hck as <- <-. congruence.
    + unfold Tex.skip_write in Hck. injection Hck as <- <-. congruence.
  - lia.
  - intros cka Hcka Hflag. rewrite Hcka in Hck.
    destruct (Z.eqb_spec (Tex.colorKeyArrayFlag d) 0); [contradiction|].
    cbn [negb] in Hck. apply out_set_Ok in Hck. lia.
Qed.

(** Whenever [writeFile] returns on a decoded texture, its output is longer
    than the buffer the texture was decoded from. *)
Lemma writeFile_Ok_longer (buf out : Uint8Array) (t : Tex.TexData) :
  Tex.TexFile_constructor buf = Ok t ->
  Tex.writeFile t = Ok out ->
  byteLength buf < byteLength out /\
  Tex.colorKeyArray t = None /\ 16 <= Tex.numPalettes t.
Proof.
  intros Hok Hwrite.
  destruct (constructor_Ok_inv buf t Hok) as (h & Hp & Hv & Hlen & Hdec).
  destruct (decoded_payload buf t Hok) as (Hn & Hbpp & Hpix & Hnp & _).
  destruct (parsed_header_shape buf h Hp) as (Hhs & _ & Hps & _).
  destruct Hdec as (Hw & Hh & _ & Hb & Hpf & Hpsz & Hnum & _ & Hckf & _ & _ & _
                    & Hpal & _ & Hcka).
  assert (Hpb : 0 <= Tex.paletteBytes h).
  { unfold Tex.paletteBytes. destruct (_ =? 0); lia. }
  assert (Hx : Tex.pixelBytes h = Tex.width t * Tex.height t * Tex.bytesPerPixel t).
  { unfold Tex.pixelBytes. rewrite Hw, Hh, Hb. reflexivity. }
  assert (Hreq : Tex.requiredLength h
                 = Tex._headerSize h + Tex.paletteBytes h + Tex.pixelBytes h)
    by reflexivity.
  assert (Htotal : Tex.totalSize t
                   = 236 + Tex.paletteBytes h + Tex.pixelBytes h
                     + (if negb (Tex.colorKeyArrayFlag h =? 0)
                        then Tex.numPalettes h else 0)).
  { unfold Tex.totalSize, Tex.paletteBytes. rewrite Hpf, Hpsz, Hckf, Hnum, Hx.
    destruct (Tex.paletteFlag h =? 0); reflexivity. }
  unfold Tex.writeFile, Uint8Array_new in Hwrite.
  destruct (Z.ltb_spec (Tex.totalSize t) 0) as [|Hnonneg]; cbn [bindR] in Hwrite;
    [discriminate|].
  destruct (Tex.andThen _ _ (zeros (Tex.totalSize t), 0)) as [[o f]|e] eqn:Hrun;
    cbn [bindR] in Hwrite; [|discriminate].
  injection Hwrite as <-. cbn [fst].
  apply andThen_Ok in Hrun. destruct Hrun as ([o1 f1] & Hhead & Hrun).
  destruct (written_header_advances t _ _ _ _ Hhead) as (Hl1 & ->).
  destruct (writePayload_Ok t _ _ _ _ Hrun) as (Hl2 & Hfit & Hck).
  rewrite byteLength_zeros in Hl1 by exact Hnonneg.
  assert (Hwritten :
            match Tex.palette t with
            | Some pal => if negb (Tex.paletteFlag t =? 0) then byteLength pal else 0
            | None => 0
            end = Tex.paletteBytes h).
  { rewrite Hpal, Hpf. unfold Tex.paletteBytes.
    destruct (Tex.paletteFlag h =? 0) eqn:Hflag; cbn [negb]; [reflexivity|].
    rewrite byteLength_slice; [lia | lia |].
    unfold Tex.paletteBytes in Hreq. rewrite Hflag in Hreq. nia. }
  rewrite Hwritten in Hfit, Hck. rewrite Hpix, <- Hx in Hfit, Hck.
  rewrite Hl2, Hl1, Htotal in *.
  destruct (Z.eqb_spec (Tex.colorKeyArrayFlag h) 0) as [Hz|Hnz]; cbn [negb] in *;
    [lia|].
  destruct (Z.leb_spec (Tex.requiredLength h + Tex.numPalettes h) (byteLength buf))
    as [Hfull|Hshort]; cbn [andb] in Hcka.
  - exfalso.
    specialize (Hck _ Hcka ltac:(congruence)).
    rewrite byteLength_slice in Hck; lia.
  - split; [lia|]. split; [exact Hcka | lia].
Qed.

(** C1: decoding and re-encoding does not give the buffer back; the code
    misses what the specification asks.  [writeFile] sizes its output for a
    0xEC-byte header but moves its cursor over 252 bytes while writing one:
    it skips 12 bytes after the colour-key flag where the parser skips 8, and
    48 bytes after the reference alpha where the parser skips 36.  On the
    237-byte standard-layout buffer of a 1x1 image the pixel byte then no
    longer fits and [writeFile] throws.  In general, whenever [writeFile]
    returns on a decoded texture its output is longer than the decoded
    buffer, so it never is that buffer; where it returns, as on the sample
    with a missing colour-key array, every field from offset 0x14 on is
    written 4 bytes late: the width read at 0x3C is written at 0x40. *)
Theorem writeFile_breaks_round_trip :
  (exists t : Tex.TexData,
     Tex.TexFile_constructor Samples.gray_1x1 = Ok t /\
     Tex._formatIndicator t = 0 /\ Tex._headerSize t = 0xEC /\
     byteLength Samples.gray_1x1 = Tex.totalSize t /\
     Tex.writeFile t = Err RangeError) /\
  (forall (buf out : Uint8Array) (t : Tex.TexData),
     Tex.TexFile_constructor buf = Ok t ->
     Tex.writeFile t = Ok out ->
     byteLength buf < byteLength out /\ out <> buf) /\
  (exists (t : Tex.TexData) (out : Uint8Array),
     Tex.TexFile_constructor Samples.missing_color_key = Ok t /\
     Tex.writeFile t = Ok out /\
     Tex.width t = 1 /\ Tex.bitDepth t = 8 /\
     u32_at Samples.missing_color_key 0x3C = 1 /\
     u32_at out 0x3C = 8 /\ u32_at out 0x40 = 1).
Proof.
  split; [|split].
  - destruct (Tex.TexFile_constructor Samples.gray_1x1) as [t|e] eqn:Hok;
      [|vm_compute in Hok; discriminate].
    exists t. split; [reflexivity|].
    vm_compute in Hok. injection Hok as <-.
    repeat split; vm_compute; reflexivity.
  - intros buf out t Hok Hwrite.
    destruct (writeFile_Ok_longer buf out t Hok Hwrite) as (Hlen & _).
    split; [exact Hlen|]. intros ->. lia.
  - destruct (Tex.TexFile_constructor Samples.missing_color_key) as [t|e] eqn:Hok;
      [|vm_compute in Hok; discriminate].
    vm_compute in Hok. injection Hok as <-.
    eexists. eexists. split; [reflexivity|].
    split; [vm_compute; reflexivity|].
    repeat split; vm_compute; reflexivity.
Qed.

Lemma writeFile_breaks_round_trip_witness :
  exists (t : Tex.TexData) (out : Uint8Array),
    Tex.TexFile_constructor Samples.missing_color_key = Ok t /\
    Tex.writeFile t = Ok out /\
    byteLength Samples.missing_color_key < byteLength out.
Proof.
  destruct (Tex.TexFile_constructor Samples.missing_color_key) as [t|e] eqn:Hok;
    [|vm_compute in Hok; discriminate].
  destruct (Tex.writeFile t) as [out|e] eqn:Hwrite.
  - exists t, out. split; [reflexivity|]. split; [exact Hwrite|].
    exact (proj1 (proj1 (proj2 writeFile_breaks_round_trip) _ out t Hok Hwrite)).
  - exfalso. vm_compute in Hok. injection Hok as <-.
    vm_compute in Hwrite. discriminate.
Defined.

(** ** The animation parser *)

Lemma getUint32_Ok (v : DataView) (off : Z) :
  0 <= off -> off + 4 <= dv_byteLength v ->
  getUint32 v off = Ok (u32_at (dv_buffer v) (dv_byteOffset v + off)).
Proof.
  intros H0 H1. unfold getUint32.
  destruct (Z.ltb_spec off 0); [lia|].
  destruct (Z.ltb_spec (dv_byteLength v) (off + 4)); [lia|]. reflexivity.
Qed.

Lemma getUint8_Ok (v : DataView) (off : Z) :
  0 <= off -> off + 1 <= dv_byteLength v ->
  getUint8 v off = Ok (u8_at (dv_buffer v) (dv_byteOffset v + off)).
Proof.
  intros H0 H1. unfold getUint8.
  destruct (Z.ltb_spec off 0); [lia|].
  destruct (Z.ltb_spec (dv_byteLength v) (off + 1)); [lia|]. reflexivity.
Qed.

Lemma readRotation_returns (view : DataView) (offset : Z) :
  0 <= offset -> offset + 12 <= dv_byteLength view ->
  exists r, Anim.readRotation view offset = Ok r.
Proof.
  intros H0 H1. unfold Anim.readRotation, Anim.getFloat32.
  rewrite !getUint32_Ok by lia. cbn. eauto.
Qed.

Lemma readTranslation_returns (view : DataView) (offset : Z) :
  0 <= offset -> offset + 12 <= dv_byteLength view ->
  exists r, Anim.readTranslation view offset = Ok r.
Proof.
  intros H0 H1. unfold Anim.readTranslation, Anim.getFloat32.
  rewrite !getUint32_Ok by lia. cbn. eauto.
Qed.

Lemma bone_body_Ok (view : DataView) (bi offset : Z)
  (l : list Anim.FieldRotation) (st : Z * list Anim.FieldRotation) :
  Anim.bone_body view bi (offset, l) = Ok st ->
  exists r, st = (offset + 12, l ++ [r]).
Proof.
  unfold Anim.bone_body.
  destruct (Anim.readRotation view offset) as [r|e]; cbn; [|discriminate].
  intros [= <-]. eauto.
Qed.

(** The inner loop pushes one rotation per iteration and advances the
    cursor by 12 bytes each time. *)
Lemma bone_loop_Ok (view : DataView) (boneCount offset : Z)
  (st : Z * list Anim.FieldRotation) :
  0 <= boneCount ->
  for_loop boneCount (Anim.bone_body view) (offset, []) = Ok st ->
  fst st = offset + 12 * boneCount /\
  List.length (snd st) = Z.to_nat boneCount.
Proof.
  intros Hn Hrun.
  assert (Hinv : fst st = offset + 12 * boneCount /\
                 Z.of_nat (List.length (snd st)) = boneCount).
  { apply (for_loop_invariant (Anim.bone_body view)
             (fun j s => fst s = offset + 12 * j /\
                         Z.of_nat (List.length (snd s)) = j)
             boneCount (offset, []) st Hn).
    - intros j [o l] st' Hj (Ho & Hl) Hb. cbn [fst snd] in Ho, Hl.
      destruct (bone_body_Ok _ _ _ _ _ Hb) as (r & ->). cbn [fst snd].
      rewrite length_app. cbn [List.length]. lia.
    - cbn [fst snd List.length]. lia.
    - exact Hrun. }
  destruct Hinv as (Ho & Hl). split; [exact Ho | lia].
Qed.

Lemma bone_loop_returns (view : DataView) (boneCount offset : Z) :
  0 <= boneCount -> 0 <= offset ->
  offset + 12 * boneCount <= dv_byteLength view ->
  exists st, for_loop boneCount (Anim.bone_body view) (offset, []) = Ok st.
Proof.
  intros Hn Ho Hfit.
  destruct (for_loop_returns (Anim.bone_body view)
              (fun j s => fst s = offset + 12 * j)
              boneCount (offset, []) Hn) as (st & Hrun & _).
  - intros j [o l] Hj Hinv. cbn [fst] in Hinv. unfold Anim.bone_body.
    destruct (readRotation_returns view o) as (r & ->); [lia | lia |].
    cbn [bindR]. eexists. split; [reflexivity|]. cbn [fst]. lia.
  - cbn [fst]. lia.
  - eauto.
Qed.

Lemma boneCount_max (nBones : Z) :
  (if 0 <? nBones then nBones else 1) = Z.max nBones 1.
Proof. destruct (Z.ltb_spec 0 nBones); lia. Qed.

Lemma frame_body_Ok (view : DataView) (nBones fi offset : Z)
  (fs : list Anim.FieldFrame) (st : Z * list Anim.FieldFrame) :
  Anim.frame_body view nBones fi (offset, fs) = Ok st ->
  exists f,
    st = (offset + 24 + 12 * Z.max nBones 1, fs ++ [f]) /\
    List.length (Anim.boneRotations f) = Z.to_nat (Z.max nBones 1).
Proof.
  unfold Anim.frame_body. rewrite boneCount_max.
  destruct (Anim.readRotation view offset) as [rr|e]; cbn [bindR]; [|discriminate].
  destruct (Anim.readTranslation view (offset + 12)) as [rt|e]; cbn [bindR];
    [|discriminate].
  destruct (for_loop (Z.max nBones 1) (Anim.bone_body view) (offset + 12 + 12, []))
    as [[o brs]|e] eqn:Hloop; cbn [bindR]; [|discriminate].
  intros [= <-].
  assert (Hpos : 0 <= Z.max nBones 1) by lia.
  destruct (bone_loop_Ok _ _ _ _ Hpos Hloop) as (Ho & Hl).
  cbn [fst snd] in Ho, Hl.
  exists (Anim.mkFieldFrame rr rt brs). split; [|exact Hl]. f_equal. lia.
Qed.

Lemma frame_body_returns (view : DataView) (nBones fi offset : Z)
  (fs : list Anim.FieldFrame) :
  0 <= offset ->
  offset + 24 + 12 * Z.max nBones 1 <= dv_byteLength view ->
  exists st, Anim.frame_body view nBones fi (offset, fs) = Ok st.
Proof.
  intros Ho Hfit. unfold Anim.frame_body. rewrite boneCount_max.
  destruct (readRotation_returns view offset) as (rr & ->); [lia | lia |].
  destruct (readTranslation_returns view (offset + 12)) as (rt & ->); [lia | lia |].
  destruct (bone_loop_returns view (Z.max nBones 1) (offset + 12 + 12))
    as ([o brs] & ->); [lia | lia | lia |].
  cbn [bindR]. eauto.
Qed.

(** C7: every frame that is parsed carries exactly max(nBones, 1) bone
    rotations, and there are max(nFrames, 0) frames; the parse returns
    whenever the buffer holds the 36-byte header and 24 + 12 max(nBones, 1)
    bytes per frame.  In particular a header declaring 2 frames and 0 bones,
    on a buffer with the two frames in it, yields 2 frames of exactly 1 bone
    rotation each. *)
Theorem parse_bone_rotations_per_frame :
  (forall (buf : Uint8Array) (d : Anim.FieldAnimationData),
     Anim.FieldAnimation_constructor buf = Ok d ->
     List.length (Anim.frames d) = Z.to_nat (Anim.nFrames d) /\
     Forall (fun f => List.length (Anim.boneRotations f)
                      = Z.to_nat (Z.max (Anim.nBones d) 1))
       (Anim.frames d)) /\
  (forall buf : Uint8Array,
     15 <= byteLength buf ->
     let nFrames := ToInt32 (u32_at buf 4) in
     let nBones := ToInt32 (u32_at buf 8) in
     (nFrames <= 0 \/
      36 + nFrames * (24 + 12 * Z.max nBones 1) <= byteLength buf) ->
     exists d : Anim.FieldAnimationData,
       Anim.FieldAnimation_constructor buf = Ok d /\
       Anim.nFrames d = nFrames /\ Anim.nBones d = nBones) /\
  (forall buf : Uint8Array,
     u32_at buf 4 = 2 -> u32_at buf 8 = 0 ->
     36 + 2 * 36 <= byteLength buf ->
     exists d f1 f2 r1 r2,
       Anim.FieldAnimation_constructor buf = Ok d /\
       Anim.nFrames d = 2 /\ Anim.nBones d = 0 /\
       Anim.frames d = [f1; f2] /\
       Anim.boneRotations f1 = [r1] /\ Anim.boneRotations f2 = [r2]) /\
  (exists d f1 f2,
     Anim.FieldAnimation_constructor Samples.two_frames_no_bones = Ok d /\
     Anim.nFrames d = 2 /\ Anim.nBones d = 0 /\
     Anim.frames d = [f1; f2] /\
     Anim.boneRotations f1 = [Anim.mkFieldRotation 7 8 9] /\
     Anim.boneRotations f2 = [Anim.mkFieldRotation 17 18 19]).
Proof.
  assert (Hpartial : forall buf d,
            Anim.FieldAnimation_constructor buf = Ok d ->
            List.length (Anim.frames d) = Z.to_nat (Anim.nFrames d) /\
            Forall (fun f => List.length (Anim.boneRotations f)
                             = Z.to_nat (Z.max (Anim.nBones d) 1))
              (Anim.frames d)).
  { intros buf d. unfold Anim.FieldAnimation_constructor, Anim.parse.
    set (view := DataView_of buf).
    destruct (Anim.getInt32 view 0) as [version|e]; cbn [bindR]; [|discriminate].
    destruct (Anim.getInt32 view (0 + 4)) as [nF|e]; cbn [bindR]; [|discriminate].
    destruct (Anim.getInt32 view (0 + 4 + 4)) as [nB|e]; cbn [bindR]; [|discriminate].
    destruct (getUint8 view (0 + 4 + 4 + 4)) as [r0|e]; cbn [bindR]; [|discriminate].
    destruct (getUint8 view (0 + 4 + 4 + 4 + 1)) as [r1|e]; cbn [bindR]; [|discriminate].
    destruct (getUint8 view (0 + 4 + 4 + 4 + 2)) as [r2|e]; cbn [bindR]; [|discriminate].
    destruct (for_loop nF (Anim.frame_body view nB) (0 + 4 + 4 + 4 + 4 + 20, []))
      as [st|e] eqn:Hloop; cbn [bindR]; [|discriminate].
    intros [= <-]. cbn [Anim.frames Anim.nFrames Anim.nBones].
    destruct (Z.le_gt_cases nF 0) as [Hneg|Hpos].
    - rewrite for_loop_nonpositive in Hloop by exact Hneg.
      injection Hloop as <-. cbn [snd]. split; [cbn; lia | constructor].
    - assert (Hinv : Z.of_nat (List.length (snd st)) = nF /\
                     Forall (fun f => List.length (Anim.boneRotations f)
                                      = Z.to_nat (Z.max nB 1)) (snd st)).
      { apply (for_loop_invariant (Anim.frame_body view nB)
                 (fun j s => Z.of_nat (List.length (snd s)) = j /\
                    Forall (fun f => List.length (Anim.boneRotations f)
                                     = Z.to_nat (Z.max nB 1)) (snd s))
                 nF (0 + 4 + 4 + 4 + 4 + 20, []) st); [lia | | | exact Hloop].
        - intros j [o fs] st' Hj (Hl & Hall) Hb. cbn [snd] in Hl, Hall.
          destruct (frame_body_Ok _ _ _ _ _ _ Hb) as (f & -> & Hf). cbn [snd].
          split.
          + rewrite length_app. cbn [List.length]. lia.
          + apply Forall_app. split; [exact Hall|]. constructor; [exact Hf | constructor].
        - cbn [snd List.length]. split; [lia | constructor]. }
      destruct Hinv as (Hl & Hall). split; [lia | exact Hall]. }
  assert (Htotal : forall buf,
            15 <= byteLength buf ->
            let nFrames := ToInt32 (u32_at buf 4) in
            let nBones := ToInt32 (u32_at buf 8) in
            (nFrames <= 0 \/
             36 + nFrames * (24 + 12 * Z.max nBones 1) <= byteLength buf) ->
            exists d,
              Anim.FieldAnimation_constructor buf = Ok d /\
              Anim.nFrames d = nFrames /\ Anim.nBones d = nBones).
  { intros buf Hlen nF nB Hfit.
    unfold Anim.FieldAnimation_constructor, Anim.parse, Anim.getInt32.
    set (view := DataView_of buf).
    assert (Hview : dv_byteLength view = byteLength buf) by reflexivity.
    rewrite !getUint32_Ok by (rewrite ?Hview; lia). cbn [bindR].
    rewrite !getUint8_Ok by (rewrite ?Hview; lia). cbn [bindR].
    change (u32_at (dv_buffer view) (dv_byteOffset view + (0 + 4)))
      with (u32_at buf 4).
    change (u32_at (dv_buffer view) (dv_byteOffset view + (0 + 4 + 4)))
      with (u32_at buf 8).
    fold nF. fold nB.
    assert (Hloop : exists st,
              for_loop nF (Anim.frame_body view nB) (0 + 4 + 4 + 4 + 4 + 20, [])
              = Ok st).
    { destruct (Z.le_gt_cases nF 0) as [Hneg|Hpos].
      - rewrite for_loop_nonpositive by exact Hneg. eauto.
      - destruct Hfit as [|Hfit]; [lia|].
        destruct (for_loop_returns (Anim.frame_body view nB)
                    (fun j s => fst s = 36 + j * (24 + 12 * Z.max nB 1))
                    nF (0 + 4 + 4 + 4 + 4 + 20, [])) as (st & Hrun & _).
        + lia.
        + intros j [o fs] Hj Ho. cbn [fst] in Ho.
          destruct (frame_body_returns view nB j o fs) as (st' & Hb).
          * nia.
          * rewrite Hview. nia.
          * exists st'. split; [exact Hb|].
            destruct (frame_body_Ok _ _ _ _ _ _ Hb) as (f & -> & _).
            cbn [fst]. lia.
        + cbn [fst]. lia.
        + eauto. }
    destruct Hloop as (st & ->). cbn [bindR].
    eexists. split; [reflexivity|]. split; reflexivity. }
  split; [exact Hpartial|]. split; [exact Htotal|]. split.
  - intros buf HnF HnB Hlen.
    destruct (Htotal buf) as (d & Hok & HdF & HdB); [lia | |].
    { right. rewrite HnF, HnB. cbn. lia. }
    rewrite HnF in HdF. rewrite HnB in HdB.
    change (ToInt32 2) with 2 in HdF. change (ToInt32 0) with 0 in HdB.
    destruct (Hpartial buf d Hok) as (Hl & Hall).
    rewrite HdF in Hl. rewrite HdB in Hall.
    change (Z.to_nat 2) with 2%nat in Hl.
    change (Z.to_nat (Z.max 0 1)) with 1%nat in Hall.
    destruct (Anim.frames d) as [|f1 [|f2 [|f3 fs]]] eqn:Hfr; try discriminate.
    inversion Hall as [|? ? H1 Hall']. inversion Hall' as [|? ? H2 _]. subst.
    destruct (Anim.boneRotations f1) as [|r1 [|? ?]] eqn:Hb1; try discriminate.
    destruct (Anim.boneRotations f2) as [|r2 [|? ?]] eqn:Hb2; try discriminate.
    exists d, f1, f2, r1, r2. repeat split; assumption.
  - destruct (Anim.FieldAnimation_constructor Samples.two_frames_no_bones)
      as [d|e] eqn:Hok; [|vm_compute in Hok; discriminate].
    vm_compute in Hok. injection Hok as <-.
    do 3 eexists. repeat split.
Qed.

Lemma parse_bone_rotations_per_frame_witness :
  exists d : Anim.FieldAnimationData,
    Anim.FieldAnimation_constructor Samples.two_frames_no_bones = Ok d /\
    List.length (Anim.frames d) = 2%nat /\
    Forall (fun f => List.length (Anim.boneRotations f) = 1%nat) (Anim.frames d).
Proof.
  destruct (Anim.FieldAnimation_constructor Samples.two_frames_no_bones)
    as [d|e] eqn:Hok; [|vm_compute in Hok; discriminate].
  exists d. split; [reflexivity|].
  destruct (proj1 parse_bone_rotations_per_frame _ d Hok) as (Hl & Hall).
  assert (HnF : Anim.nFrames d = 2)
    by (vm_compute in Hok; injection Hok as <-; reflexivity).
  assert (HnB : Anim.nBones d = 0)
    by (vm_compute in Hok; injection Hok as <-; reflexivity).
  rewrite HnF in Hl. rewrite HnB in Hall. split; [exact Hl | exact Hall].
Defined.

(** ** The resource descriptor *)

Section Descriptor.
Local Open Scope string_scope.

Lemma fold_parse_line_unrecognised (lines : list string) (data : RSD.RSDData) :
  Forall (fun line =>
            JsString.startsWith line "@RSD" = false /\
            JsString.startsWith line "PLY=" = false /\
            JsString.startsWith line "MAT=" = false /\
            JsString.startsWith line "GRP=" = false /\
            JsString.startsWith line "NTEX=" = false /\
            JsString.startsWith line "TEX[" = false) lines ->
  fold_left RSD.parse_line lines data = data.
Proof.
  intros Hall. revert data.
  induction Hall as [|line lines (H1 & H2 & H3 & H4 & H5 & H6) _ IH]; intros data.
  - reflexivity.
  - cbn [fold_left]. rewrite IH. unfold RSD.parse_line.
    rewrite H1, H2, H3, H4, H5, H6. reflexivity.
Qed.

(** C8: the descriptor parser is a total function of the buffer: the
    decoder accepts every byte and none of the string operations of [parse]
    can throw, so it has no error branch here.  The empty buffer gives the
    structure with every string empty, texture count 0 and no texture; an
    [NTEX=] line whose value is not a decimal integer sets the texture count
    to 0; a buffer none of whose lines is recognised gives the same empty
    structure, as the bytes FF 00 0A 4E 54 do. *)
Theorem RSDFile_parse_lenient :
  RSD.RSDFile_constructor [] = RSD.mkRSDData "" "" "" "" 0 [] /\
  (forall (data : RSD.RSDData) (rest : string),
     JsString.parseInt rest = None ->
     RSD.parse_line data ("NTEX=" ++ rest)
     = RSD.mkRSDData (RSD.id data) (RSD.plyFile data) (RSD.matFile data)
         (RSD.grpFile data) 0 (RSD.textures data)) /\
  (forall buffer : Uint8Array,
     Forall (fun line =>
               JsString.startsWith line "@RSD" = false /\
               JsString.startsWith line "PLY=" = false /\
               JsString.startsWith line "MAT=" = false /\
               JsString.startsWith line "GRP=" = false /\
               JsString.startsWith line "NTEX=" = false /\
               JsString.startsWith line "TEX[" = false)
       (filter RSD.nonEmpty
          (map JsString.trim (JsString.split_lines (JsString.decode buffer)))) ->
     RSD.RSDFile_constructor buffer = RSD.mkRSDData "" "" "" "" 0 []) /\
  RSD.RSDFile_constructor [xff; x00; x0a; x4e; x54]
  = RSD.mkRSDData "" "" "" "" 0 [] /\
  RSD.RSDFile_constructor
    (list_byte_of_string
       ("PLY=AAAC.PLY" ++ String "010" ("NTEX=many" ++ String "010" "TEX[0]=AABB.TIM")))
  = RSD.mkRSDData "" "AAAC.PLY" "" "" 0 ["AABB.TIM"].
Proof.
  split; [reflexivity|]. split; [|split; [|split]].
  - intros data rest Hnan. unfold RSD.parse_line.
    change (JsString.startsWith ("NTEX=" ++ rest) "@RSD") with false.
    change (JsString.startsWith ("NTEX=" ++ rest) "PLY=") with false.
    change (JsString.startsWith ("NTEX=" ++ rest) "MAT=") with false.
    change (JsString.startsWith ("NTEX=" ++ rest) "GRP=") with false.
    replace (JsString.startsWith ("NTEX=" ++ rest) "NTEX=") with true.
    + change (JsString.substring_from 5 ("NTEX=" ++ rest)) with rest.
      rewrite Hnan. reflexivity.
    + unfold JsString.startsWith. cbn.
      destruct rest; reflexivity.
  - intros buffer Hall. unfold RSD.RSDFile_constructor, RSD.parse.
    apply fold_parse_line_unrecognised. exact Hall.
  - vm_compute. reflexivity.
  - vm_compute. reflexivity.
Qed.

Lemma RSDFile_parse_lenient_witness :
  JsString.parseInt "many" = None /\
  RSD.parse_line (RSD.mkRSDData "" "AAAC.PLY" "" "" 3 []) "NTEX=many"
  = RSD.mkRSDData "" "AAAC.PLY" "" "" 0 [].
Proof.
  assert (Hnan : JsString.parseInt "many" = None) by reflexivity.
  split; [exact Hnan|].
  exact (proj1 (proj2 RSDFile_parse_lenient)
           (RSD.mkRSDData "" "AAAC.PLY" "" "" 3 []) "many" Hnan).
Defined.

End Descriptor.

(** ** The skeleton *)

Section Skeleton.
Local Open Scope string_scope.

Lemma findIndex_from_none {A : Type} (p : A -> bool) (l : list A) (i : Z) :
  (forall x, In x l -> p x = false) -> HRC.findIndex_from p l i = -1.
Proof.
  revert i. induction l as [|x l IH]; intros i Hall; cbn [HRC.findIndex_from].
  - reflexivity.
  - rewrite (Hall x (or_introl eq_refl)). apply IH.
    intros y Hy. apply Hall. right. exact Hy.
Qed.

Lemma findIndex_from_first {A : Type} (p : A -> bool) (l : list A) :
  forall (i : Z) (k : nat) (x : A),
    nth_error l k = Some x -> p x = true ->
    (forall k' y, (k' < k)%nat -> nth_error l k' = Some y -> p y = false) ->
    HRC.findIndex_from p l i = i + Z.of_nat k.
Proof.
  induction l as [|h l IH]; intros i k x Hk Hp Hfirst.
  - destruct k; discriminate.
  - cbn [HRC.findIndex_from]. destruct k as [|k].
    + cbn in Hk. injection Hk as ->. rewrite Hp. lia.
    + rewrite (Hfirst O h) by (cbn; (lia || reflexivity)).
      rewrite (IH (i + 1) k x Hk Hp).
      * lia.
      * intros k' y Hlt Hy. apply (Hfirst (S k') y); [lia | exact Hy].
Qed.

Lemma lowerChar_r (c : ascii) :
  JsString.lowerChar c = "r"%char <-> (c = "r"%char \/ c = "R"%char).
Proof.
  destruct c as [[] [] [] [] [] [] [] []]; vm_compute;
    (split; [intros H; try discriminate H; auto
            | intros [H|H]; try discriminate H; reflexivity]).
Qed.

Lemma lowerChar_o (c : ascii) :
  JsString.lowerChar c = "o"%char <-> (c = "o"%char \/ c = "O"%char).
Proof.
  destruct c as [[] [] [] [] [] [] [] []]; vm_compute;
    (split; [intros H; try discriminate H; auto
            | intros [H|H]; try discriminate H; reflexivity]).
Qed.

Lemma lowerChar_t (c : ascii) :
  JsString.lowerChar c = "t"%char <-> (c = "t"%char \/ c = "T"%char).
Proof.
  destruct c as [[] [] [] [] [] [] [] []]; vm_compute;
    (split; [intros H; try discriminate H; auto
            | intros [H|H]; try discriminate H; reflexivity]).
Qed.

(** The strings that lower-case to "root" are its 16 spellings in upper
    and lower case. *)
Lemma toLowerCase_root (s : string) :
  JsString.toLowerCase s = "root" <->
  exists c1 c2 c3 c4,
    s = String c1 (String c2 (String c3 (String c4 ""))) /\
    (c1 = "r"%char \/ c1 = "R"%char) /\ (c2 = "o"%char \/ c2 = "O"%char) /\
    (c3 = "o"%char \/ c3 = "O"%char) /\ (c4 = "t"%char \/ c4 = "T"%char).
Proof.
  split.
  - destruct s as [|c1 [|c2 [|c3 [|c4 [|c5 s]]]]]; cbn [JsString.toLowerCase];
      intros H; try discriminate H.
    injection H as H1 H2 H3 H4.
    exists c1, c2, c3, c4. split; [reflexivity|].
    rewrite <- lowerChar_r, <- !lowerChar_o, <- lowerChar_t. auto.
  - intros (c1 & c2 & c3 & c4 & -> & H1 & H2 & H3 & H4).
    cbn [JsString.toLowerCase].
    apply lowerChar_r in H1. apply lowerChar_o in H2, H3. apply lowerChar_t in H4.
    rewrite H1, H2, H3, H4. reflexivity.
Qed.

(** C9: [getBoneParentIndex] compares the parent name of the bone with the
    names of the skeleton's bones after lower-casing both.  A parent name
    that lower-cases to "root", which the 16 spellings of "root" in upper and
    lower case do and no other string, gives -1 whatever the bones are named;
    a parent name that no bone matches gives -1; otherwise the result is the
    index of the first bone that matches.  An index with no bone gives -1 as
    well.  For the bones "Hip" (parent "root") and "Knee" (parent "Hip"),
    "Knee" resolves to 0, the index of "Hip", and "Hip" to -1. *)
Theorem getBoneParentIndex_resolution :
  (forall (data : HRC.HRCData) (i : Z) (bone : HRC.HRCBone),
     HRC.bone_at (HRC.bones data) i = Some bone ->
     JsString.toLowerCase (HRC.parentName bone) = "root" ->
     HRC.getBoneParentIndex data i = -1) /\
  (forall s : string,
     JsString.toLowerCase s = "root" <->
     exists c1 c2 c3 c4,
       s = String c1 (String c2 (String c3 (String c4 ""))) /\
       (c1 = "r"%char \/ c1 = "R"%char) /\ (c2 = "o"%char \/ c2 = "O"%char) /\
       (c3 = "o"%char \/ c3 = "O"%char) /\ (c4 = "t"%char \/ c4 = "T"%char)) /\
  (forall (data : HRC.HRCData) (i : Z) (bone : HRC.HRCBone),
     HRC.bone_at (HRC.bones data) i = Some bone ->
     JsString.toLowerCase (HRC.parentName bone) <> "root" ->
     (forall b, In b (HRC.bones data) ->
        JsString.toLowerCase (HRC.name b)
        <> JsString.toLowerCase (HRC.parentName bone)) ->
     HRC.getBoneParentIndex data i = -1) /\
  (forall (data : HRC.HRCData) (i : Z) (bone parent : HRC.HRCBone) (k : nat),
     HRC.bone_at (HRC.bones data) i = Some bone ->
     JsString.toLowerCase (HRC.parentName bone) <> "root" ->
     nth_error (HRC.bones data) k = Some parent ->
     JsString.toLowerCase (HRC.name parent)
     = JsString.toLowerCase (HRC.parentName bone) ->
     (forall k' b, (k' < k)%nat -> nth_error (HRC.bones data) k' = Some b ->
        JsString.toLowerCase (HRC.name b)
        <> JsString.toLowerCase (HRC.parentName bone)) ->
     HRC.getBoneParentIndex data i = Z.of_nat k) /\
  (forall (data : HRC.HRCData) (i : Z),
     HRC.bone_at (HRC.bones data) i = None ->
     HRC.getBoneParentIndex data i = -1) /\
  (forall (headerBlock boneCount length1 count1 length2 count2 : float)
          (skeletonName : string) (resources1 resources2 : list string),
     let data :=
       HRC.mkHRCData headerBlock skeletonName boneCount
         [HRC.mkHRCBone "Hip" "root" length1 count1 resources1;
          HRC.mkHRCBone "Knee" "Hip" length2 count2 resources2] in
     HRC.getBoneParentIndex data 1 = 0 /\
     HRC.getBoneParentIndex data 0 = -1).
Proof.
  split; [|split; [|split; [|split; [|split]]]].
  - intros data i bone Hbone Hroot. unfold HRC.getBoneParentIndex.
    rewrite Hbone, Hroot. reflexivity.
  - exact toLowerCase_root.
  - intros data i bone Hbone Hroot Hnone. unfold HRC.getBoneParentIndex.
    rewrite Hbone.
    destruct (String.eqb_spec (JsString.toLowerCase (HRC.parentName bone)) "root");
      [contradiction|].
    apply findIndex_from_none. intros b Hb.
    apply String.eqb_neq. apply Hnone. exact Hb.
  - intros data i bone parent k Hbone Hroot Hk Hmatch Hfirst.
    unfold HRC.getBoneParentIndex. rewrite Hbone.
    destruct (String.eqb_spec (JsString.toLowerCase (HRC.parentName bone)) "root");
      [contradiction|].
    unfold HRC.findIndex.
    rewrite (findIndex_from_first _ _ 0 k parent Hk).
    + lia.
    + apply String.eqb_eq. exact Hmatch.
    + intros k' b Hlt Hb. apply String.eqb_neq. exact (Hfirst k' b Hlt Hb).
  - intros data i Hnone. unfold HRC.getBoneParentIndex. rewrite Hnone. reflexivity.
  - intros. split; reflexivity.
Qed.

Lemma getBoneParentIndex_resolution_witness :
  JsString.toLowerCase "Root" = "root" /\
  HRC.getBoneParentIndex Samples.three_bones 1 = -1 /\
  JsString.toLowerCase "HIP" <> "root" /\
  HRC.getBoneParentIndex Samples.three_bones 2 = 0.
Proof.
  assert (Hroot : JsString.toLowerCase "Root" = "root") by reflexivity.
  assert (Hhip : JsString.toLowerCase "HIP" <> "root") by (vm_compute; discriminate).
  split; [exact Hroot|]. split.
  - exact (proj1 getBoneParentIndex_resolution Samples.three_bones 1
             (HRC.mkHRCBone "root" "Root" 2%float 0%float []) eq_refl Hroot).
  - split; [exact Hhip|].
    exact (proj1 (proj2 (proj2 (proj2 getBoneParentIndex_resolution)))
             Samples.three_bones 2
             (HRC.mkHRCBone "KNEE" "HIP" 2%float 0%float [])
             (HRC.mkHRCBone "hip" "ROOT" 1.5%float 1%float ["AAAB"]) O
             eq_refl Hhip eq_refl eq_refl
             (fun k' b Hlt => match Nat.nlt_0_r k' Hlt with end)).
Defined.

End Skeleton.

(** * Further properties *)

(** ** The animation stream as a layout *)

Lemma getUint32_Ok_inv (buf : Uint8Array) (off w : Z) :
  getUint32 (DataView_of buf) off = Ok w ->
  w = u32_at buf off /\ 0 <= off /\ off + 4 <= byteLength buf.
Proof.
  unfold getUint32, DataView_of. cbn [dv_byteLength dv_buffer dv_byteOffset].
  destruct (Z.ltb_spec off 0); cbn [orb]; [discriminate|].
  destruct (Z.ltb_spec (byteLength buf) (off + 4)); [discriminate|].
  intros [= <-]. repeat split; lia.
Qed.

Lemma getUint32_Err (v : DataView) (off : Z) (e : JsError) :
  getUint32 v off = Err e -> e = RangeError.
Proof.
  unfold getUint32. destruct (_ || _); [intros [= <-]; reflexivity | discriminate].
Qed.

Lemma getUint8_Err (v : DataView) (off : Z) (e : JsError) :
  getUint8 v off = Err e -> e = RangeError.
Proof.
  unfold getUint8. destruct (_ || _); [intros [= <-]; reflexivity | discriminate].
Qed.

Lemma readRotation_Ok_inv (buf : Uint8Array) (off : Z) (r : Anim.FieldRotation) :
  Anim.readRotation (DataView_of buf) off = Ok r ->
  r = rotation_at buf off /\ 0 <= off /\ off + 12 <= byteLength buf.
Proof.
  unfold Anim.readRotation, Anim.getFloat32.
  destruct (getUint32 (DataView_of buf) off) as [a|] eqn:Ha; cbn [bindR]; [|discriminate].
  destruct (getUint32 (DataView_of buf) (off + 4)) as [b|] eqn:Hb; cbn [bindR];
    [|discriminate].
  destruct (getUint32 (DataView_of buf) (off + 8)) as [c|] eqn:Hc; cbn [bindR];
    [|discriminate].
  intros [= <-].
  apply getUint32_Ok_inv in Ha, Hb, Hc.
  destruct Ha as (-> & ? & ?), Hb as (-> & ? & ?), Hc as (-> & ? & ?).
  repeat split; lia.
Qed.

Lemma readTranslation_Ok_inv (buf : Uint8Array) (off : Z) (r : Anim.Translation) :
  Anim.readTranslation (DataView_of buf) off = Ok r ->
  r = translation_at buf off /\ 0 <= off /\ off + 12 <= byteLength buf.
Proof.
  unfold Anim.readTranslation, Anim.getFloat32.
  destruct (getUint32 (DataView_of buf) off) as [a|] eqn:Ha; cbn [bindR]; [|discriminate].
  destruct (getUint32 (DataView_of buf) (off + 4)) as [b|] eqn:Hb; cbn [bindR];
    [|discriminate].
  destruct (getUint32 (DataView_of buf) (off + 8)) as [c|] eqn:Hc; cbn [bindR];
    [|discriminate].
  intros [= <-].
  apply getUint32_Ok_inv in Ha, Hb, Hc.
  destruct Ha as (-> & ? & ?), Hb as (-> & ? & ?), Hc as (-> & ? & ?).
  repeat split; lia.
Qed.

Lemma readRotation_Err (v : DataView) (off : Z) (e : JsError) :
  Anim.readRotation v off = Err e -> e = RangeError.
Proof.
  unfold Anim.readRotation, Anim.getFloat32.
  destruct (getUint32 v off) eqn:Ha; cbn [bindR];
    [|intros [= <-]; exact (getUint32_Err _ _ _ Ha)].
  destruct (getUint32 v (off + 4)) eqn:Hb; cbn [bindR];
    [|intros [= <-]; exact (getUint32_Err _ _ _ Hb)].
  destruct (getUint32 v (off + 8)) eqn:Hc; cbn [bindR];
    [discriminate | intros [= <-]; exact (getUint32_Err _ _ _ Hc)].
Qed.

Lemma readTranslation_Err (v : DataView) (off : Z) (e : JsError) :
  Anim.readTranslation v off = Err e -> e = RangeError.
Proof.
  unfold Anim.readTranslation, Anim.getFloat32.
  destruct (getUint32 v off) eqn:Ha; cbn [bindR];
    [|intros [= <-]; exact (getUint32_Err _ _ _ Ha)].
  destruct (getUint32 v (off + 4)) eqn:Hb; cbn [bindR];
    [|intros [= <-]; exact (getUint32_Err _ _ _ Hb)].
  destruct (getUint32 v (off + 8)) eqn:Hc; cbn [bindR];
    [discriminate | intros [= <-]; exact (getUint32_Err _ _ _ Hc)].
Qed.

(** A loop throws only what its body throws. *)
Lemma for_from_Err {E S : Type} (P : E -> Prop) (body : Z -> S -> result E S)
  (n : nat) :
  (forall i s e, body i s = Err e -> P e) ->
  forall i s e, for_from n i body s = Err e -> P e.
Proof.
  intros Hbody. induction n as [|n IH]; intros i s e; cbn [for_from].
  - discriminate.
  - destruct (body i s) as [s'|e'] eqn:Hb.
    + apply IH.
    + intros [= <-]. exact (Hbody _ _ _ Hb).
Qed.

Lemma rotations_at_snoc (buf : Uint8Array) (off : Z) (n : nat) :
  rotations_at buf off (S n)
  = rotations_at buf off n ++ [rotation_at buf (off + 12 * Z.of_nat n)].
Proof. unfold rotations_at. rewrite seq_S, map_app. reflexivity. Qed.

(** What the inner loop has read when it returns. *)
Lemma bone_loop_reads (buf : Uint8Array) (boneCount offset : Z)
  (st : Z * list Anim.FieldRotation) :
  0 < boneCount ->
  for_loop boneCount (Anim.bone_body (DataView_of buf)) (offset, []) = Ok st ->
  st = (offset + 12 * boneCount, rotations_at buf offset (Z.to_nat boneCount)) /\
  0 <= offset /\ offset + 12 * boneCount <= byteLength buf.
Proof.
  intros Hn Hrun.
  assert (Hinv : fst st = offset + 12 * boneCount /\
                 snd st = rotations_at buf offset (Z.to_nat boneCount) /\
                 (0 < boneCount ->
                  0 <= offset /\ offset + 12 * boneCount <= byteLength buf)).
  { apply (for_loop_invariant (Anim.bone_body (DataView_of buf))
             (fun j s => fst s = offset + 12 * j /\
                         snd s = rotations_at buf offset (Z.to_nat j) /\
                         (0 < j -> 0 <= offset /\ offset + 12 * j <= byteLength buf))
             boneCount (offset, []) st); [lia | | | exact Hrun].
    - intros j [o l] st' Hj (Ho & Hl & Hfit) Hb. cbn [fst snd] in Ho, Hl.
      unfold Anim.bone_body in Hb.
      destruct (Anim.readRotation (DataView_of buf) o) as [r|] eqn:Hr;
        cbn [bindR] in Hb; [|discriminate].
      injection Hb as <-. cbn [fst snd].
      apply readRotation_Ok_inv in Hr. destruct Hr as (-> & Hlo & Hhi).
      split; [lia|]. split.
      + replace (Z.to_nat (j + 1)) with (S (Z.to_nat j)) by lia.
        rewrite rotations_at_snoc, Hl. do 3 f_equal. lia.
      + intros _. lia.
    - cbn [fst snd]. split; [lia|]. split; [reflexivity | lia]. }
  destruct Hinv as (Ho & Hl & Hfit). destruct st as [o l]. cbn [fst snd] in *.
  subst. split; [reflexivity | exact (Hfit Hn)].
Qed.

(** What one iteration of the outer loop has read when it returns. *)
Lemma frame_body_reads (buf : Uint8Array) (nBones fi offset : Z)
  (fs : list Anim.FieldFrame) (st : Z * list Anim.FieldFrame) :
  Anim.frame_body (DataView_of buf) nBones fi (offset, fs) = Ok st ->
  st = (offset + frameStride nBones, fs ++ [frame_from buf nBones offset]) /\
  0 <= offset /\ offset + frameStride nBones <= byteLength buf.
Proof.
  unfold Anim.frame_body, frameStride. rewrite boneCount_max.
  destruct (Anim.readRotation (DataView_of buf) offset) as [rr|] eqn:Hrr;
    cbn [bindR]; [|discriminate].
  destruct (Anim.readTranslation (DataView_of buf) (offset + 12)) as [rt|] eqn:Hrt;
    cbn [bindR]; [|discriminate].
  destruct (for_loop (Z.max nBones 1) (Anim.bone_body (DataView_of buf))
              (offset + 12 + 12, [])) as [[o brs]|] eqn:Hloop;
    cbn [bindR]; [|discriminate].
  intros [= <-].
  apply readRotation_Ok_inv in Hrr. destruct Hrr as (-> & Hlo & _).
  apply readTranslation_Ok_inv in Hrt. destruct Hrt as (-> & _ & _).
  apply bone_loop_reads in Hloop; [|lia].
  destruct Hloop as (Hst & _ & Hhi).
  pose proof (f_equal fst Hst) as Ho. pose proof (f_equal snd Hst) as Hb.
  cbn [fst snd] in Ho, Hb. subst o brs.
  split; [|lia]. unfold frame_from.
  replace (offset + 12 + 12) with (offset + 24) by lia.
  f_equal. lia.
Qed.

Lemma frame_body_Err (v : DataView) (nBones fi : Z)
  (st : Z * list Anim.FieldFrame) (e : JsError) :
  Anim.frame_body v nBones fi st = Err e -> e = RangeError.
Proof.
  destruct st as [offset fs]. unfold Anim.frame_body.
  destruct (Anim.readRotation v offset) eqn:Hrr; cbn [bindR];
    [|intros [= <-]; exact (readRotation_Err _ _ _ Hrr)].
  destruct (Anim.readTranslation v (offset + 12)) eqn:Hrt; cbn [bindR];
    [|intros [= <-]; exact (readTranslation_Err _ _ _ Hrt)].
  destruct (for_loop _ (Anim.bone_body v) (offset + 12 + 12, [])) as [[o brs]|e']
    eqn:Hloop; cbn [bindR]; [discriminate|].
  intros [= <-]. unfold for_loop in Hloop.
  apply (for_from_Err (fun e => e = RangeError) (Anim.bone_body v) _) in Hloop;
    [exact Hloop|].
  intros i [o l] e0. unfold Anim.bone_body.
  destruct (Anim.readRotation v o) eqn:Hr; cbn [bindR];
    [discriminate | intros [= <-]; exact (readRotation_Err _ _ _ Hr)].
Qed.

Lemma frames_at_snoc (buf : Uint8Array) (nBones : Z) (n : nat) :
  frames_at buf nBones (S n)
  = frames_at buf nBones n ++ [frame_at buf nBones (Z.of_nat n)].
Proof. unfold frames_at. rewrite seq_S, map_app. reflexivity. Qed.

Lemma nth_error_frames_at (buf : Uint8Array) (nBones : Z) (n k : nat) :
  (k < n)%nat ->
  nth_error (frames_at buf nBones n) k = Some (frame_at buf nBones (Z.of_nat k)).
Proof.
  intros Hk. unfold frames_at.
  rewrite nth_error_map, nth_error_seq.
  destruct (Nat.ltb_spec k n); [reflexivity | lia].
Qed.

Lemma length_frames_at (buf : Uint8Array) (nBones : Z) (n : nat) :
  List.length (frames_at buf nBones n) = n.
Proof. unfold frames_at. rewrite length_map, length_seq. reflexivity. Qed.

(** What the outer loop has read when it returns. *)
Lemma frame_loop_reads (buf : Uint8Array) (nFrames nBones : Z)
  (st : Z * list Anim.FieldFrame) :
  for_loop nFrames (Anim.frame_body (DataView_of buf) nBones) (36, []) = Ok st ->
  snd st = frames_at buf nBones (Z.to_nat nFrames) /\
  (0 < nFrames -> 36 + nFrames * frameStride nBones <= byteLength buf).
Proof.
  intros Hrun. destruct (Z.le_gt_cases nFrames 0) as [Hneg|Hpos].
  - rewrite for_loop_nonpositive in Hrun by exact Hneg. injection Hrun as <-.
    replace (Z.to_nat nFrames) with O by lia. split; [reflexivity | lia].
  - assert (Hinv : fst st = 36 + nFrames * frameStride nBones /\
                   snd st = frames_at buf nBones (Z.to_nat nFrames) /\
                   (0 < nFrames ->
                    36 + nFrames * frameStride nBones <= byteLength buf)).
    { apply (for_loop_invariant (Anim.frame_body (DataView_of buf) nBones)
               (fun j s => fst s = 36 + j * frameStride nBones /\
                           snd s = frames_at buf nBones (Z.to_nat j) /\
                           (0 < j ->
                            36 + j * frameStride nBones <= byteLength buf))
               nFrames (36, []) st); [lia | | | exact Hrun].
      - intros j [o fs] st' Hj (Ho & Hfs & _) Hb. cbn [fst snd] in Ho, Hfs.
        apply frame_body_reads in Hb. destruct Hb as (-> & Hlo & Hhi).
        cbn [fst snd]. split; [lia|]. split.
        + replace (Z.to_nat (j + 1)) with (S (Z.to_nat j)) by lia.
          rewrite frames_at_snoc, Hfs. unfold frame_at.
          rewrite Z2Nat.id by lia. rewrite Ho. reflexivity.
        + intros _. lia.
      - cbn [fst snd]. split; [lia|]. split; [reflexivity | lia]. }
    destruct Hinv as (_ & Hfs & Hfit). auto.
Qed.

(** What [parse] has read when it returns. *)
Lemma parse_reads (buf : Uint8Array) (d : Anim.FieldAnimationData) :
  Anim.FieldAnimation_constructor buf = Ok d ->
  15 <= byteLength buf /\
  Anim.version d = ToInt32 (u32_at buf 0) /\
  Anim.nFrames d = ToInt32 (u32_at buf 4) /\
  Anim.nBones d = ToInt32 (u32_at buf 8) /\
  Anim.rotationOrder d = (u8_at buf 12, u8_at buf 13, u8_at buf 14) /\
  Anim.frames d = frames_at buf (Anim.nBones d) (Z.to_nat (Anim.nFrames d)) /\
  (0 < Anim.nFrames d ->
   36 + Anim.nFrames d * frameStride (Anim.nBones d) <= byteLength buf).
Proof.
  unfold Anim.FieldAnimation_constructor, Anim.parse, Anim.getInt32.
  destruct (getUint32 (DataView_of buf) 0) as [w0|] eqn:H0; cbn [bindR];
    [|discriminate].
  destruct (getUint32 (DataView_of buf) (0 + 4)) as [w1|] eqn:H1; cbn [bindR];
    [|discriminate].
  destruct (getUint32 (DataView_of buf) (0 + 4 + 4)) as [w2|] eqn:H2; cbn [bindR];
    [|discriminate].
  destruct (getUint8 (DataView_of buf) (0 + 4 + 4 + 4)) as [r0|] eqn:Hr0;
    cbn [bindR]; [|discriminate].
  destruct (getUint8 (DataView_of buf) (0 + 4 + 4 + 4 + 1)) as [r1|] eqn:Hr1;
    cbn [bindR]; [|discriminate].
  destruct (getUint8 (DataView_of buf) (0 + 4 + 4 + 4 + 2)) as [r2|] eqn:Hr2;
    cbn [bindR]; [|discriminate].
  change (0 + 4 + 4 + 4 + 4 + 20) with 36.
  destruct (for_loop (ToInt32 w1) _ (36, [])) as [st|] eqn:Hloop; cbn [bindR];
    [|discriminate].
  intros [= <-]. cbn [Anim.version Anim.nFrames Anim.nBones Anim.rotationOrder
                       Anim.frames].
  apply getUint32_Ok_inv in H0, H1, H2.
  destruct H0 as (-> & _), H1 as (-> & _), H2 as (-> & _).
  apply frame_loop_reads in Hloop. destruct Hloop as (Hfs & Hfit).
  unfold getUint8, DataView_of in Hr0, Hr1, Hr2.
  cbn [dv_byteLength dv_buffer dv_byteOffset] in Hr0, Hr1, Hr2.
  destruct (Z.ltb_spec (byteLength buf) (0 + 4 + 4 + 4 + 2 + 1)) as [|Hlen];
    [rewrite orb_true_r in Hr2; discriminate|].
  destruct ((0 + 4 + 4 + 4 <? 0) || (byteLength buf <? 0 + 4 + 4 + 4 + 1));
    [discriminate|].
  destruct ((0 + 4 + 4 + 4 + 1 <? 0) || (byteLength buf <? 0 + 4 + 4 + 4 + 1 + 1));
    [discriminate|].
  rewrite orb_false_r in Hr2. cbn in Hr2.
  injection Hr0 as <-. injection Hr1 as <-. injection Hr2 as <-.
  split; [lia|]. repeat split; auto.
Qed.

(** X1: whenever the animation parser returns, the structure it returns is
    the buffer read as a layout: the three counts are the signed words at
    0, 4 and 8, the rotation order the bytes at 12, 13 and 14, and frame i
    is read at offset 36 + i (24 + 12 max(nBones, 1)): root rotation, root
    translation 12 bytes later, bone rotation j at 24 + 12 j. *)
Theorem parse_reads_layout (buf : Uint8Array) (d : Anim.FieldAnimationData) :
  Anim.FieldAnimation_constructor buf = Ok d ->
  Anim.version d = ToInt32 (u32_at buf 0) /\
  Anim.nFrames d = ToInt32 (u32_at buf 4) /\
  Anim.nBones d = ToInt32 (u32_at buf 8) /\
  Anim.rotationOrder d = (u8_at buf 12, u8_at buf 13, u8_at buf 14) /\
  Anim.frames d
  = map (fun i => frame_at buf (Anim.nBones d) (Z.of_nat i))
      (seq 0 (Z.to_nat (Anim.nFrames d))) /\
  forall i j,
    0 <= i < Anim.nFrames d -> 0 <= j < Z.max (Anim.nBones d) 1 ->
    exists f r,
      nth_error (Anim.frames d) (Z.to_nat i) = Some f /\
      nth_error (Anim.boneRotations f) (Z.to_nat j) = Some r /\
      let off := 36 + i * (24 + 12 * Z.max (Anim.nBones d) 1) in
      Anim.alpha (Anim.rootRotation f) = u32_at buf off /\
      Anim.x (Anim.rootTranslation f) = u32_at buf (off + 12) /\
      Anim.alpha r = u32_at buf (off + 24 + 12 * j) /\
      Anim.beta r = u32_at buf (off + 24 + 12 * j + 4) /\
      Anim.gamma r = u32_at buf (off + 24 + 12 * j + 8).
Proof.
  intros Hok.
  destruct (parse_reads buf d Hok) as (_ & Hv & HnF & HnB & Hro & Hfs & _).
  split; [exact Hv|]. split; [exact HnF|]. split; [exact HnB|].
  split; [exact Hro|]. split; [exact Hfs|].
  intros i j Hi Hj. rewrite Hfs.
  rewrite nth_error_frames_at by lia.
  eexists. eexists. split; [reflexivity|].
  unfold frame_at, frame_from. cbn [Anim.boneRotations Anim.rootRotation
                                      Anim.rootTranslation].
  unfold rotations_at. rewrite nth_error_map, nth_error_seq.
  destruct (Nat.ltb_spec (Z.to_nat j) (Z.to_nat (Z.max (Anim.nBones d) 1))); [|lia].
  cbn [option_map]. split; [reflexivity|].
  cbv zeta. unfold frameStride, rotation_at, translation_at.
  cbn [Anim.alpha Anim.beta Anim.gamma Anim.x].
  rewrite !Z2Nat.id by lia. cbn [Nat.add]. rewrite !Z2Nat.id by lia.
  repeat split.
Qed.

Lemma parse_reads_layout_witness :
  exists d : Anim.FieldAnimationData,
    Anim.FieldAnimation_constructor Samples.two_frames_no_bones = Ok d /\
    Anim.nFrames d = 2 /\
    Anim.rotationOrder d = (1, 0, 2).
Proof.
  destruct (Anim.FieldAnimation_constructor Samples.two_frames_no_bones)
    as [d|e] eqn:Hok; [|vm_compute in Hok; discriminate].
  exists d. split; [reflexivity|].
  destruct (parse_reads_layout _ d Hok) as (_ & HnF & _ & Hro & _).
  rewrite HnF, Hro. split; reflexivity.
Defined.

(** X2: frame lookup on a parsed animation is bounds-checked against the
    declared frame count: for an index from 0 up to nFrames - 1 it returns
    the frame read at that index's place in the buffer, and for any other
    index, negative ones included, it returns null; the first frame is null
    exactly when no frame is declared. *)
Theorem getFrame_of_parsed (buf : Uint8Array) (d : Anim.FieldAnimationData) :
  Anim.FieldAnimation_constructor buf = Ok d ->
  (forall index : Z,
     FieldAnimation_getFrame d index
     = if (0 <=? index) && (index <? Anim.nFrames d)
       then Some (frame_at buf (Anim.nBones d) index)
       else None) /\
  (FieldAnimation_getFirstFrame d = None <-> Anim.nFrames d <= 0).
Proof.
  intros Hok.
  destruct (parse_reads buf d Hok) as (_ & _ & _ & _ & _ & Hfs & _).
  assert (Hget : forall index : Z,
            FieldAnimation_getFrame d index
            = if (0 <=? index) && (index <? Anim.nFrames d)
              then Some (frame_at buf (Anim.nBones d) index)
              else None).
  { intros index. unfold FieldAnimation_getFrame. rewrite Hfs, length_frames_at.
    destruct (Z.ltb_spec index 0); cbn [orb].
    - destruct (Z.leb_spec 0 index); [lia | reflexivity].
    - destruct (Z.leb_spec 0 index); [|lia]. cbn [andb].
      destruct (Z.leb_spec (Z.of_nat (Z.to_nat (Anim.nFrames d))) index);
        destruct (Z.ltb_spec index (Anim.nFrames d)); try lia; try reflexivity.
      rewrite nth_error_frames_at by lia. rewrite Z2Nat.id by lia. reflexivity. }
  split; [exact Hget|].
  unfold FieldAnimation_getFirstFrame. rewrite Hget. cbn [Z.leb Z.compare andb].
  destruct (Z.ltb_spec 0 (Anim.nFrames d)); split; intros H1; try lia;
    try reflexivity; discriminate.
Qed.

Lemma getFrame_of_parsed_witness :
  exists d : Anim.FieldAnimationData,
    Anim.FieldAnimation_constructor Samples.two_frames_no_bones = Ok d /\
    FieldAnimation_getFrame d 1
    = Some (frame_at Samples.two_frames_no_bones 0 1) /\
    FieldAnimation_getFrame d 2 = None.
Proof.
  destruct (Anim.FieldAnimation_constructor Samples.two_frames_no_bones)
    as [d|e] eqn:Hok; [|vm_compute in Hok; discriminate].
  exists d. split; [reflexivity|].
  rewrite !(proj1 (getFrame_of_parsed _ d Hok)).
  vm_compute in Hok. injection Hok as <-. split; reflexivity.
Defined.

(** X3: the animation parser checks no length itself; on a buffer that ends
    before the last header byte it reads (fewer than 15 bytes), or that
    declares frames and ends before the last of them, a read throws
    [RangeError]: a truncated stream never yields a partial structure. *)
Theorem parse_truncated_throws (buf : Uint8Array) :
  (byteLength buf < 15 \/
   (0 < ToInt32 (u32_at buf 4) /\
    byteLength buf
    < 36 + ToInt32 (u32_at buf 4) * (24 + 12 * Z.max (ToInt32 (u32_at buf 8)) 1))) ->
  Anim.FieldAnimation_constructor buf = Err RangeError.
Proof.
  intros Hshort.
  destruct (Anim.FieldAnimation_constructor buf) as [d|e] eqn:Hrun.
  - exfalso.
    destruct (parse_reads buf d Hrun) as (Hlen & _ & HnF & HnB & _ & _ & Hfit).
    rewrite HnF, HnB in Hfit. unfold frameStride in Hfit.
    destruct Hshort as [|(Hpos & Hlt)]; [lia|]. specialize (Hfit Hpos). lia.
  - f_equal. revert Hrun.
    unfold Anim.FieldAnimation_constructor, Anim.parse, Anim.getInt32.
    destruct (getUint32 (DataView_of buf) 0) eqn:H0; cbn [bindR];
      [|intros [= <-]; exact (getUint32_Err _ _ _ H0)].
    destruct (getUint32 (DataView_of buf) (0 + 4)) eqn:H1; cbn [bindR];
      [|intros [= <-]; exact (getUint32_Err _ _ _ H1)].
    destruct (getUint32 (DataView_of buf) (0 + 4 + 4)) eqn:H2; cbn [bindR];
      [|intros [= <-]; exact (getUint32_Err _ _ _ H2)].
    destruct (getUint8 (DataView_of buf) (0 + 4 + 4 + 4)) eqn:Hr0; cbn [bindR];
      [|intros [= <-]; exact (getUint8_Err _ _ _ Hr0)].
    destruct (getUint8 (DataView_of buf) (0 + 4 + 4 + 4 + 1)) eqn:Hr1; cbn [bindR];
      [|intros [= <-]; exact (getUint8_Err _ _ _ Hr1)].
    destruct (getUint8 (DataView_of buf) (0 + 4 + 4 + 4 + 2)) eqn:Hr2; cbn [bindR];
      [|intros [= <-]; exact (getUint8_Err _ _ _ Hr2)].
    destruct (for_loop _ _ (0 + 4 + 4 + 4 + 4 + 20, [])) as [st|e'] eqn:Hloop;
      cbn [bindR]; [discriminate|].
    intros [= <-]. unfold for_loop in Hloop.
    apply (for_from_Err (fun e => e = RangeError) _ _) in Hloop; [exact Hloop|].
    intros i s e0. apply frame_body_Err.
Qed.

Lemma parse_truncated_throws_witness :
  byteLength (firstn 107 Samples.two_frames_no_bones) = 107 /\
  Anim.FieldAnimation_constructor (firstn 107 Samples.two_frames_no_bones)
  = Err RangeError.
Proof.
  split; [reflexivity|].
  apply parse_truncated_throws. right. vm_compute. split; reflexivity.
Defined.

(** ** The decoded texture *)

(** X4: a texture the constructor returns holds payload sections of
    exactly the declared sizes: width x height x bytesPerPixel pixel bytes; a
    palette if and only if the palette flag is set, of 4 paletteSize bytes;
    a colour-key array only if its flag is set, of numPalettes bytes; and the
    buffer was at least as long as header, palette and pixels together. *)
Theorem decoded_payload_sizes (buf : Uint8Array) (t : Tex.TexData) :
  Tex.TexFile_constructor buf = Ok t ->
  byteLength (Tex.pixels t)
  = Tex.width t * Tex.height t * Tex.bytesPerPixel t /\
  (Tex.paletteFlag t = 0 -> Tex.palette t = None) /\
  (Tex.paletteFlag t <> 0 ->
   exists pal, Tex.palette t = Some pal /\
               byteLength pal = 4 * Tex.paletteSize t) /\
  (Tex.colorKeyArrayFlag t = 0 -> Tex.colorKeyArray t = None) /\
  (forall cka, Tex.colorKeyArray t = Some cka ->
     Tex.colorKeyArrayFlag t <> 0 /\ byteLength cka = Tex.numPalettes t) /\
  Tex._headerSize t
  + (if Tex.paletteFlag t =? 0 then 0 else 4 * Tex.paletteSize t)
  + Tex.width t * Tex.height t * Tex.bytesPerPixel t <= byteLength buf.
Proof.
  intros Hok.
  destruct (constructor_Ok_inv buf t Hok) as (h & Hp & Hv & Hlen & Hdec).
  destruct (decoded_payload buf t Hok) as (Hn & Hbpp & Hpix & Hnp & _).
  destruct (parsed_header_shape buf h Hp) as (Hhs & Hnph & Hps & _).
  destruct Hdec as (Hw & Hh & _ & Hb & Hpf & Hpsz & Hnum & _ & Hckf & _ & _ & Hhsz
                    & Hpal & _ & Hcka).
  assert (Hx : Tex.pixelBytes h = Tex.width t * Tex.height t * Tex.bytesPerPixel t).
  { unfold Tex.pixelBytes. rewrite Hw, Hh, Hb. reflexivity. }
  unfold Tex.requiredLength in *. unfold Tex.paletteBytes in *.
  rewrite Hpf, Hpsz, Hckf, Hnum, Hhsz.
  split; [exact Hpix|]. split; [|split; [|split; [|split]]].
  - intros Hz. rewrite Hpal, Hz. reflexivity.
  - intros Hnz. rewrite Hpal.
    destruct (Z.eqb_spec (Tex.paletteFlag h) 0); [contradiction|].
    eexists. split; [reflexivity|]. rewrite byteLength_slice; lia.
  - intros Hz. rewrite Hcka, Hz. reflexivity.
  - intros cka. rewrite Hcka.
    destruct (Z.eqb_spec (Tex.colorKeyArrayFlag h) 0); cbn [negb andb];
      [discriminate|].
    destruct (Z.leb_spec
                (Tex._headerSize h
                 + (if Tex.paletteFlag h =? 0 then 0 else Tex.paletteSize h * 4)
                 + Tex.pixelBytes h + Tex.numPalettes h) (byteLength buf));
      [|discriminate].
    intros [= <-]. split; [assumption|].
    rewrite byteLength_slice; [lia | | lia].
    destruct (Tex.paletteFlag h =? 0); lia.
  - destruct (Tex.paletteFlag h =? 0); lia.
Qed.

Lemma decoded_payload_sizes_witness :
  exists (t : Tex.TexData) (pal : Uint8Array),
    Tex.TexFile_constructor Samples.two_palettes_2x1 = Ok t /\
    Tex.palette t = Some pal /\ byteLength pal = 16 /\
    byteLength (Tex.pixels t) = 2.
Proof.
  destruct (Tex.TexFile_constructor Samples.two_palettes_2x1) as [t|e] eqn:Hok;
    [|vm_compute in Hok; discriminate].
  destruct (decoded_payload_sizes _ t Hok) as (Hpix & _ & Hpal & _).
  assert (Hflag : Tex.paletteFlag t <> 0)
    by (vm_compute in Hok; injection Hok as <-; vm_compute; discriminate).
  destruct (Hpal Hflag) as (pal & Hsome & Hlen).
  exists t, pal. split; [reflexivity|]. split; [exact Hsome|].
  rewrite Hlen, Hpix.
  vm_compute in Hok. injection Hok as <-. split; reflexivity.
Defined.

Lemma for_loop_first_Err {E S : Type} (body : Z -> S -> result E S)
  (n : Z) (s : S) (e : E) :
  0 < n -> body 0 s = Err e -> for_loop n body s = Err e.
Proof.
  intros Hn Hb. unfold for_loop.
  destruct (Z.to_nat n) as [|k] eqn:Hk; [lia|].
  cbn [for_from]. rewrite Hb. reflexivity.
Qed.

(** X5: for every decoded direct-colour texture with 1 or 3 bytes per
    pixel, which the header validation accepts, pixel expansion throws
    [RangeError] at the first pixel: it asks the pixel's 1- or 3-byte view
    for a 32-bit integer. *)
Theorem getPixels_odd_pixel_size_throws (buf : Uint8Array) (t : Tex.TexData)
  (paletteIndex : Z) :
  Tex.TexFile_constructor buf = Ok t ->
  Tex.paletteFlag t = 0 ->
  Tex.bytesPerPixel t = 1 \/ Tex.bytesPerPixel t = 3 ->
  Tex.getPixels t paletteIndex = Err RangeError.
Proof.
  intros Hok Hflag Hbpp.
  destruct (decoded_payload buf t Hok) as (Hn & _ & Hpix & _).
  unfold Tex.getPixels, Uint8Array_new.
  destruct (Z.ltb_spec (Tex.width t * Tex.height t * 4) 0); [lia|]. cbn [bindR].
  rewrite Hflag. cbn [Z.eqb negb].
  apply for_loop_first_Err; [exact Hn|].
  unfold Tex.direct_body, DataView_new.
  destruct (Z.ltb_spec (0 * Tex.bytesPerPixel t) 0); [lia|].
  destruct (Z.ltb_spec (Tex.bytesPerPixel t) 0); [lia|].
  destruct (Z.ltb_spec (byteLength (Tex.pixels t))
              (0 * Tex.bytesPerPixel t + Tex.bytesPerPixel t)); [nia|].
  cbn [orb bindR].
  destruct Hbpp as [-> | ->]; reflexivity.
Qed.

Lemma getPixels_odd_pixel_size_throws_witness :
  exists t : Tex.TexData,
    Tex.TexFile_constructor Samples.gray_1x1 = Ok t /\
    Tex.paletteFlag t = 0 /\ Tex.bytesPerPixel t = 1 /\
    Tex.getPixels t 0 = Err RangeError.
Proof.
  destruct (Tex.TexFile_constructor Samples.gray_1x1) as [t|e] eqn:Hok;
    [|vm_compute in Hok; discriminate].
  assert (Hflag : Tex.paletteFlag t = 0)
    by (vm_compute in Hok; injection Hok as <-; reflexivity).
  assert (Hbpp : Tex.bytesPerPixel t = 1)
    by (vm_compute in Hok; injection Hok as <-; reflexivity).
  exists t. split; [reflexivity|]. split; [exact Hflag|]. split; [exact Hbpp|].
  exact (getPixels_odd_pixel_size_throws _ t 0 Hok Hflag (or_introl Hbpp)).
Defined.

Lemma get_None_ge (a : Uint8Array) (i : Z) :
  byteLength a <= i -> get a i = None.
Proof.
  unfold get, byteLength. intros Hi.
  destruct (Z.ltb_spec i 0); [reflexivity|].
  apply nth_error_None. lia.
Qed.

(** X6: selecting a sub-palette that starts at or after the end of the
    palette is no error: every pixel of a decoded palette-mode texture then
    expands to four zero bytes. *)
Theorem getPixels_palette_past_end (buf : Uint8Array) (t : Tex.TexData)
  (paletteIndex colors : Z) :
  Tex.TexFile_constructor buf = Ok t ->
  Tex.paletteFlag t <> 0 ->
  Tex.actualColorsPerPalette t = Some colors ->
  Tex.paletteSize t <= paletteIndex * colors ->
  exists out,
    Tex.getPixels t paletteIndex = Ok out /\
    byteLength out = 4 * (Tex.width t * Tex.height t) /\
    forall k, 0 <= k < 4 * (Tex.width t * Tex.height t) -> get out k = Some x00.
Proof.
  intros Hok Hflag Hcolors Hpast.
  destruct (palette_expansion buf t paletteIndex colors Hok Hflag Hcolors)
    as (pal & out & Hpal & Hrun & Hlen & Hquads).
  destruct (decoded_payload_sizes buf t Hok) as (_ & _ & Hsize & _).
  destruct (Hsize Hflag) as (pal' & Hpal' & Hpl).
  rewrite Hpal in Hpal'. injection Hpal' as <-.
  exists out. split; [exact Hrun|]. split; [exact Hlen|].
  intros k Hk.
  assert (Hdiv : k = 4 * (k / 4) + k mod 4) by (apply Z.div_mod; lia).
  pose proof (Z.mod_pos_bound k 4 ltac:(lia)) as Hmod.
  assert (Hi : 0 <= k / 4 < Tex.width t * Tex.height t).
  { split; [apply Z.div_pos; lia | apply Z.div_lt_upper_bound; lia]. }
  destruct (Hquads (k / 4) Hi) as (p & _ & Hq). cbv zeta in Hq.
  pose proof (byte_to_Z_range p) as Hp.
  destruct Hq as (Hr & Hg & Hb & Ha).
  rewrite (get_None_ge pal) in Hr, Hg, Hb, Ha by lia. cbn [Tex.stored] in Hr, Hg, Hb, Ha.
  assert (Hcase : k mod 4 = 0 \/ k mod 4 = 1 \/ k mod 4 = 2 \/ k mod 4 = 3) by lia.
  rewrite Hdiv.
  destruct Hcase as [-> | [-> | [-> | ->]]];
    [rewrite Z.add_0_r; exact Hr | exact Hg | exact Hb | exact Ha].
Qed.

Lemma getPixels_palette_past_end_witness :
  exists t out : _,
    Tex.TexFile_constructor Samples.two_palettes_2x1 = Ok t /\
    Tex.actualColorsPerPalette t = Some 2 /\
    Tex.paletteSize t <= 2 * 2 /\
    Tex.getPixels t 2 = Ok out /\
    get out 5 = Some x00.
Proof.
  destruct (Tex.TexFile_constructor Samples.two_palettes_2x1) as [t|e] eqn:Hok;
    [|vm_compute in Hok; discriminate].
  assert (Hflag : Tex.paletteFlag t <> 0)
    by (vm_compute in Hok; injection Hok as <-; vm_compute; discriminate).
  assert (Hcolors : Tex.actualColorsPerPalette t = Some 2)
    by (vm_compute in Hok; injection Hok as <-; reflexivity).
  assert (Hpast : Tex.paletteSize t <= 2 * 2)
    by (vm_compute in Hok; injection Hok as <-; vm_compute; discriminate).
  destruct (getPixels_palette_past_end _ t 2 2 Hok Hflag Hcolors Hpast)
    as (out & Hrun & Hlen & Hzero).
  exists t, out. split; [reflexivity|]. split; [exact Hcolors|].
  split; [exact Hpast|]. split; [exact Hrun|].
  apply Hzero.
  vm_compute in Hok. injection Hok as <-. vm_compute. split; [discriminate | reflexivity].
Defined.

(** ** The encoder's output *)

(** X7: whenever [writeFile] returns, on any texture structure, its output
    has exactly the length it computed beforehand: 0xEC plus the palette
    size when the palette flag is set, the pixel size and the colour-key size
    when the colour-key flag is set, all taken from the header fields and not
    from the arrays held. *)
Theorem writeFile_output_length (d : Tex.TexData) (out : Uint8Array) :
  Tex.writeFile d = Ok out ->
  byteLength out
  = 0xEC
    + (if Tex.paletteFlag d =? 0 then 0 else Tex.paletteSize d * 4)
    + Tex.width d * Tex.height d * Tex.bytesPerPixel d
    + (if Tex.colorKeyArrayFlag d =? 0 then 0 else Tex.numPalettes d).
Proof.
  intros Hwrite. unfold Tex.writeFile, Uint8Array_new in Hwrite.
  destruct (Z.ltb_spec (Tex.totalSize d) 0) as [|Hnonneg]; cbn [bindR] in Hwrite;
    [discriminate|].
  destruct (Tex.andThen _ _ (zeros (Tex.totalSize d), 0)) as [[o f]|e] eqn:Hrun;
    cbn [bindR] in Hwrite; [|discriminate].
  injection Hwrite as <-. cbn [fst].
  apply andThen_Ok in Hrun. destruct Hrun as ([o1 f1] & Hhead & Hrun).
  destruct (written_header_advances d _ _ _ _ Hhead) as (Hl1 & ->).
  destruct (writePayload_Ok d _ _ _ _ Hrun) as (Hl2 & _).
  rewrite Hl2, Hl1, byteLength_zeros by exact Hnonneg.
  unfold Tex.totalSize.
  destruct (Tex.paletteFlag d =? 0), (Tex.colorKeyArrayFlag d =? 0); reflexivity.
Qed.

Lemma writeFile_output_length_witness :
  exists (t : Tex.TexData) (out : Uint8Array),
    Tex.TexFile_constructor Samples.missing_color_key = Ok t /\
    Tex.writeFile t = Ok out /\
    byteLength out = 0xEC + 0 + 1 + 16.
Proof.
  destruct (Tex.TexFile_constructor Samples.missing_color_key) as [t|e] eqn:Hok;
    [|vm_compute in Hok; discriminate].
  destruct (Tex.writeFile t) as [out|e] eqn:Hwrite.
  - exists t, out. split; [reflexivity|]. split; [exact Hwrite|].
    rewrite (writeFile_output_length t out Hwrite).
    vm_compute in Hok. injection Hok as <-. reflexivity.
  - exfalso. vm_compute in Hok. injection Hok as <-.
    vm_compute in Hwrite. discriminate.
Defined.

(** ** Bytes after the payload *)

Lemma byteLength_app (a b : Uint8Array) :
  byteLength (a ++ b) = byteLength a + byteLength b.
Proof. unfold byteLength. rewrite length_app. lia. Qed.

Lemma u8_at_app (a b : Uint8Array) (i : Z) :
  0 <= i < byteLength a -> u8_at (a ++ b) i = u8_at a i.
Proof.
  unfold u8_at, byteLength. intros Hi. rewrite app_nth1 by lia. reflexivity.
Qed.

Lemma u32_at_app (a b : Uint8Array) (i : Z) :
  0 <= i -> i + 4 <= byteLength a -> u32_at (a ++ b) i = u32_at a i.
Proof.
  intros H0 H1. unfold u32_at. rewrite !u8_at_app by lia. reflexivity.
Qed.

Lemma slice_app (a b : Uint8Array) (s e : Z) :
  0 <= s <= e -> e <= byteLength a -> slice (a ++ b) s e = slice a s e.
Proof.
  unfold slice, byteLength. intros Hs He.
  rewrite skipn_app, firstn_app, length_skipn.
  replace (Z.to_nat s - List.length a)%nat with O by lia. cbn [skipn].
  replace (Z.to_nat (e - s) - (List.length a - Z.to_nat s))%nat with O by lia.
  cbn [firstn]. apply app_nil_r.
Qed.

(** The header parser only looks at the bytes of the header. *)
Lemma parse_header_app (buf extra : Uint8Array) (h : Tex.TexData) :
  Parser.parse Tex.texHeaderParser buf = Some h ->
  Parser.parse Tex.texHeaderParser (buf ++ extra) = Some h.
Proof.
  rewrite !texHeaderParser_layout.
  unfold Tex.header_by_probe, Tex.probe. rewrite byteLength_app.
  pose proof (byteLength_nonneg extra) as Hextra.
  destruct (Z.ltb_spec (byteLength buf) 48) as [|H48]; [discriminate|].
  destruct (Z.ltb_spec (byteLength buf + byteLength extra) 48); [lia|].
  rewrite (u32_at_app buf extra 44) by lia.
  unfold Tex.read_layout, Tex.read_pixelFormat. rewrite byteLength_app.
  destruct (Tex.layout_of (u32_at buf 44)); cbn [Tex.headerSize].
  - destruct (Z.ltb_spec (byteLength buf) (236 - 36)); [discriminate|].
    destruct (Z.ltb_spec (byteLength buf + byteLength extra) (236 - 36)); [lia|].
    intros <-. rewrite !(u32_at_app buf extra) by lia. reflexivity.
  - destruct (Z.ltb_spec (byteLength buf) (232 - 36)); [discriminate|].
    destruct (Z.ltb_spec (byteLength buf + byteLength extra) (232 - 36)); [lia|].
    intros <-. rewrite !(u32_at_app buf extra) by lia. reflexivity.
Qed.

Ltac slices_of_prefix buf extra :=
  repeat match goal with
         | |- context [slice (buf ++ extra) ?s ?e] =>
             rewrite (slice_app buf extra s e) by lia
         end.

(** X8: bytes that follow the payload are ignored: when a buffer decodes
    and its colour-key array, if flagged, was found in it, the same buffer
    with any bytes appended decodes to the same texture. *)
Theorem constructor_ignores_trailing_bytes (buf extra : Uint8Array)
  (t : Tex.TexData) :
  Tex.TexFile_constructor buf = Ok t ->
  Tex.colorKeyArrayFlag t = 0 \/ Tex.colorKeyArray t <> None ->
  Tex.TexFile_constructor (buf ++ extra) = Ok t.
Proof.
  intros Hok Hkey.
  destruct (constructor_Ok_inv buf t Hok) as (h & Hp & Hv & Hlen & Hdec).
  destruct (parsed_header_shape buf h Hp) as (Hhs & Hnp & Hps & _).
  assert (Hx : 0 <= Tex.width h * Tex.height h * Tex.bytesPerPixel h).
  { apply isValidTexData_true in Hv. nia. }
  pose proof (byteLength_nonneg extra) as Hextra.
  destruct Hdec as (_ & _ & _ & _ & _ & _ & _ & _ & Hckf & _ & _ & _ & _ & _ & Hcka).
  rewrite Hckf, Hcka in Hkey. clear Hckf Hcka.
  revert Hok. unfold Tex.TexFile_constructor.
  rewrite (parse_header_app buf extra h Hp), Hp, Hv. cbn [negb].
  rewrite byteLength_app.
  unfold Tex.requiredLength, Tex.paletteBytes, Tex.pixelBytes in Hlen, Hkey.
  destruct (Z.eqb_spec (Tex.paletteFlag h) 0) as [Hflag|Hflag]; cbn [negb bindR].
  - destruct (Z.ltb_spec (byteLength buf)
                (Tex._headerSize h
                 + Tex.width h * Tex.height h * Tex.bytesPerPixel h)); [lia|].
    destruct (Z.ltb_spec (byteLength buf + byteLength extra)
                (Tex._headerSize h
                 + Tex.width h * Tex.height h * Tex.bytesPerPixel h)); [lia|].
    cbn [Tex.colorKeyArrayFlag Tex.with_pixels Tex.with_palette Tex.numPalettes].
    slices_of_prefix buf extra.
    destruct (Z.eqb_spec (Tex.colorKeyArrayFlag h) 0) as [Hck|Hck]; cbn [negb andb] in *;
      [trivial|].
    destruct (Z.leb_spec
                (Tex._headerSize h
                 + Tex.width h * Tex.height h * Tex.bytesPerPixel h
                 + Tex.numPalettes h) (byteLength buf)) as [Hfull|Hmiss].
    + destruct (Z.leb_spec
                  (Tex._headerSize h
                   + Tex.width h * Tex.height h * Tex.bytesPerPixel h
                   + Tex.numPalettes h) (byteLength buf + byteLength extra));
        [|lia].
      slices_of_prefix buf extra. trivial.
    + exfalso. destruct Hkey as [Hkey|Hkey]; [contradiction|].
      destruct (Z.leb_spec
                  (Tex._headerSize h + 0
                   + Tex.width h * Tex.height h * Tex.bytesPerPixel h
                   + Tex.numPalettes h) (byteLength buf)); [lia|].
      apply Hkey. reflexivity.
  - destruct (Z.ltb_spec (byteLength buf)
                (Tex._headerSize h + Tex.paletteSize h * 4)); [lia|].
    destruct (Z.ltb_spec (byteLength buf + byteLength extra)
                (Tex._headerSize h + Tex.paletteSize h * 4)); [lia|].
    cbn [bindR Tex.width Tex.height Tex.bytesPerPixel Tex.with_palette].
    destruct (Z.ltb_spec (byteLength buf)
                (Tex._headerSize h + Tex.paletteSize h * 4
                 + Tex.width h * Tex.height h * Tex.bytesPerPixel h)); [lia|].
    destruct (Z.ltb_spec (byteLength buf + byteLength extra)
                (Tex._headerSize h + Tex.paletteSize h * 4
                 + Tex.width h * Tex.height h * Tex.bytesPerPixel h)); [lia|].
    cbn [Tex.colorKeyArrayFlag Tex.with_pixels Tex.with_palette Tex.numPalettes].
    slices_of_prefix buf extra.
    destruct (Z.eqb_spec (Tex.colorKeyArrayFlag h) 0) as [Hck|Hck]; cbn [negb andb] in *;
      [trivial|].
    destruct (Z.leb_spec
                (Tex._headerSize h + Tex.paletteSize h * 4
                 + Tex.width h * Tex.height h * Tex.bytesPerPixel h
                 + Tex.numPalettes h) (byteLength buf)) as [Hfull|Hmiss].
    + destruct (Z.leb_spec
                  (Tex._headerSize h + Tex.paletteSize h * 4
                   + Tex.width h * Tex.height h * Tex.bytesPerPixel h
                   + Tex.numPalettes h) (byteLength buf + byteLength extra));
        [|lia].
      slices_of_prefix buf extra. trivial.
    + exfalso. destruct Hkey as [Hkey|Hkey]; [contradiction|].
      apply Hkey. reflexivity.
Qed.

Lemma constructor_ignores_trailing_bytes_witness :
  exists t : Tex.TexData,
    Tex.TexFile_constructor Samples.palette_2x1 = Ok t /\
    Tex.colorKeyArrayFlag t = 0 /\
    Tex.TexFile_constructor (Samples.palette_2x1 ++ [xde; xad]) = Ok t.
Proof.
  destruct (Tex.TexFile_constructor Samples.palette_2x1) as [t|e] eqn:Hok;
    [|vm_compute in Hok; discriminate].
  assert (Hck : Tex.colorKeyArrayFlag t = 0)
    by (vm_compute in Hok; injection Hok as <-; reflexivity).
  exists t. split; [reflexivity|]. split; [exact Hck|].
  exact (constructor_ignores_trailing_bytes _ [xde; xad] t Hok (or_introl Hck)).
Defined.

(** ** The descriptor's derived names and lines *)

Section DescriptorNames.
Local Open Scope string_scope.

Lemma append_nil_r (s : string) : s ++ "" = s.
Proof. induction s as [|c s IH]; cbn; [reflexivity | rewrite IH; reflexivity]. Qed.

Lemma append_assoc (a b c : string) : (a ++ b) ++ c = a ++ (b ++ c).
Proof. induction a as [|x a IH]; cbn; [reflexivity | rewrite IH; reflexivity]. Qed.

Lemma length_append (a b : string) :
  String.length (a ++ b) = (String.length a + String.length b)%nat.
Proof. induction a as [|x a IH]; cbn; [reflexivity | rewrite IH; reflexivity]. Qed.

Lemma matches_to_end_length (ext s : string) :
  matches_to_end ext s = true -> String.length s = String.length ext.
Proof.
  revert s. induction ext as [|p ext IH]; intros [|c s]; cbn; try discriminate.
  - reflexivity.
  - intros H. apply andb_true_iff in H. destruct H as (_ & H).
    rewrite (IH s H). reflexivity.
Qed.

(** A string that ends with the extension has its extension replaced. *)
Lemma replace_extension_suffix (ext repl base e : string) :
  matches_to_end ext e = true ->
  replace_extension ext repl (base ++ e) = base ++ repl.
Proof.
  intros He. induction base as [|c base IH].
  - cbn [append]. destruct e; cbn [replace_extension]; rewrite He; reflexivity.
  - cbn [append replace_extension].
    destruct (matches_to_end ext (String c (base ++ e))) eqn:Hm.
    + apply matches_to_end_length in Hm. apply matches_to_end_length in He.
      cbn [String.length] in Hm. rewrite length_append in Hm. lia.
    + rewrite IH. reflexivity.
Qed.

(** A string changed by the replacement ended with the extension. *)
Lemma replace_extension_changed (ext repl s : string) :
  replace_extension ext repl s <> s ->
  exists base e, s = base ++ e /\ matches_to_end ext e = true.
Proof.
  induction s as [|c s IH]; cbn [replace_extension].
  - destruct (matches_to_end ext "") eqn:Hm.
    + intros _. exists "", "". auto.
    + intros H. contradiction.
  - destruct (matches_to_end ext (String c s)) eqn:Hm.
    + intros _. exists "", (String c s). auto.
    + intros H. destruct IH as (base & e & -> & He).
      * intros Heq. apply H. rewrite Heq. reflexivity.
      * exists (String c base), e. auto.
Qed.

Ltac by_cases_on_char c :=
  destruct c as [[] [] [] [] [] [] [] []]; vm_compute;
  (split; [intros H; try discriminate H; auto
          | intros H; repeat (destruct H as [H|H]; try discriminate H);
            try discriminate H; reflexivity]).

Lemma upperAscii_dot (c : ascii) : upperAscii c = "."%char <-> c = "."%char.
Proof. by_cases_on_char c. Qed.

Lemma upperAscii_P (c : ascii) :
  upperAscii c = "P"%char <-> (c = "P"%char \/ c = "p"%char).
Proof. by_cases_on_char c. Qed.

Lemma upperAscii_L (c : ascii) :
  upperAscii c = "L"%char <-> (c = "L"%char \/ c = "l"%char).
Proof. by_cases_on_char c. Qed.

Lemma upperAscii_Y (c : ascii) :
  upperAscii c = "Y"%char <-> (c = "Y"%char \/ c = "y"%char).
Proof. by_cases_on_char c. Qed.

Lemma upperAscii_T (c : ascii) :
  upperAscii c = "T"%char <-> (c = "T"%char \/ c = "t"%char).
Proof. by_cases_on_char c. Qed.

Lemma upperAscii_I (c : ascii) :
  upperAscii c = "I"%char <-> (c = "I"%char \/ c = "i"%char).
Proof. by_cases_on_char c. Qed.

Lemma upperAscii_M (c : ascii) :
  upperAscii c = "M"%char <-> (c = "M"%char \/ c = "m"%char).
Proof. by_cases_on_char c. Qed.

(** The strings the pattern of [getPModelFilename] matches: a dot and
    the letters P, L, Y in either case. *)
Lemma matches_PLY (e : string) :
  matches_to_end ".PLY" e = true <->
  exists p l y,
    e = String "." (String p (String l (String y ""))) /\
    (p = "P"%char \/ p = "p"%char) /\ (l = "L"%char \/ l = "l"%char) /\
    (y = "Y"%char \/ y = "y"%char).
Proof.
  split.
  - destruct e as [|c0 [|c1 [|c2 [|c3 [|c4 e]]]]]; cbn [matches_to_end];
      rewrite ?andb_false_r; try discriminate.
    rewrite andb_true_r, !andb_true_iff, !Ascii.eqb_eq.
    rewrite upperAscii_dot, upperAscii_P, upperAscii_L, upperAscii_Y.
    intros (-> & Hp & Hl & Hy). exists c1, c2, c3. auto.
  - intros (p & l & y & -> & Hp & Hl & Hy). cbn [matches_to_end].
    apply upperAscii_P in Hp. apply upperAscii_L in Hl. apply upperAscii_Y in Hy.
    rewrite Hp, Hl, Hy. reflexivity.
Qed.

Lemma matches_TIM (e : string) :
  matches_to_end ".TIM" e = true <->
  exists t i m,
    e = String "." (String t (String i (String m ""))) /\
    (t = "T"%char \/ t = "t"%char) /\ (i = "I"%char \/ i = "i"%char) /\
    (m = "M"%char \/ m = "m"%char).
Proof.
  split.
  - destruct e as [|c0 [|c1 [|c2 [|c3 [|c4 e]]]]]; cbn [matches_to_end];
      rewrite ?andb_false_r; try discriminate.
    rewrite andb_true_r, !andb_true_iff, !Ascii.eqb_eq.
    rewrite upperAscii_dot, upperAscii_T, upperAscii_I, upperAscii_M.
    intros (-> & Ht & Hi & Hm). exists c1, c2, c3. auto.
  - intros (t & i & m & -> & Ht & Hi & Hm). cbn [matches_to_end].
    apply upperAscii_T in Ht. apply upperAscii_I in Hi. apply upperAscii_M in Hm.
    rewrite Ht, Hi, Hm. reflexivity.
Qed.

Lemma lastChar_append (a b : string) (y : ascii) :
  lastChar b = Some y -> lastChar (a ++ b) = Some y.
Proof.
  intros Hb. induction a as [|c a IH]; [exact Hb|].
  cbn [append lastChar]. destruct (a ++ b) eqn:Hab; [|exact IH].
  destruct a; cbn in Hab; [subst b; discriminate | discriminate].
Qed.

(** A replacement that ends with a character the extension does not end
    with leaves nothing to replace. *)
Lemma replace_extension_idempotent (ext repl s : string) (x : ascii) :
  lastChar repl = Some x ->
  (forall e, matches_to_end ext e = true ->
     exists y, lastChar e = Some y /\ y <> x) ->
  replace_extension ext repl (replace_extension ext repl s)
  = replace_extension ext repl s.
Proof.
  intros Hrepl Hext.
  destruct (string_dec (replace_extension ext repl (replace_extension ext repl s))
              (replace_extension ext repl s)) as [|Hne]; [assumption|].
  exfalso.
  destruct (replace_extension_changed _ _ _ Hne) as (base' & e' & Heq' & He').
  destruct (Hext e' He') as (y & Hy & Hyx).
  destruct (string_dec (replace_extension ext repl s) s) as [Hsame|Hdiff].
  - apply Hne. rewrite Hsame. exact Hsame.
  - destruct (replace_extension_changed _ _ _ Hdiff) as (base & e & -> & He).
    rewrite (replace_extension_suffix ext repl base e He) in Heq'.
    pose proof (lastChar_append base repl x Hrepl) as H1.
    pose proof (lastChar_append base' e' y Hy) as H2.
    rewrite Heq' in H1. congruence.
Qed.

(** X9: the geometry file name of a descriptor is its PLY reference with
    a trailing ".PLY", in any letter case, replaced by ".P": a reference
    that ends so keeps what precedes the extension; any other reference,
    the empty one included, is returned as it is; and the result has no
    ".PLY" left to replace. *)
Theorem getPModelFilename_extension :
  (forall (data : RSD.RSDData) (base : string) (p l y : ascii),
     RSD.plyFile data = base ++ String "." (String p (String l (String y ""))) ->
     (p = "P"%char \/ p = "p"%char) -> (l = "L"%char \/ l = "l"%char) ->
     (y = "Y"%char \/ y = "y"%char) ->
     RSDFile_getPModelFilename data = base ++ ".P") /\
  (forall data : RSD.RSDData,
     (forall base e, RSD.plyFile data = base ++ e ->
        matches_to_end ".PLY" e = false) ->
     RSDFile_getPModelFilename data = RSD.plyFile data) /\
  (forall data : RSD.RSDData,
     replace_extension ".PLY" ".P" (RSDFile_getPModelFilename data)
     = RSDFile_getPModelFilename data).
Proof.
  split; [|split].
  - intros data base p l y Hply Hp Hl Hy. unfold RSDFile_getPModelFilename.
    rewrite Hply.
    destruct (String.eqb_spec (base ++ String "." (String p (String l (String y ""))))
                "") as [Hempty|_].
    + destruct base; discriminate.
    + apply replace_extension_suffix. apply matches_PLY.
      exists p, l, y. auto.
  - intros data Hnone. unfold RSDFile_getPModelFilename.
    destruct (String.eqb_spec (RSD.plyFile data) "") as [Hempty|_];
      [symmetry; exact Hempty|].
    destruct (string_dec (replace_extension ".PLY" ".P" (RSD.plyFile data))
                (RSD.plyFile data)) as [|Hne]; [assumption|].
    destruct (replace_extension_changed _ _ _ Hne) as (base & e & Heq & He).
    rewrite (Hnone base e Heq) in He. discriminate.
  - intros data. unfold RSDFile_getPModelFilename.
    destruct (String.eqb_spec (RSD.plyFile data) "") as [Hempty|_];
      [reflexivity|].
    apply (replace_extension_idempotent ".PLY" ".P" _ "P"%char); [reflexivity|].
    intros e He. apply matches_PLY in He.
    destruct He as (p & l & y & -> & _ & _ & [-> | ->]);
      eexists; (split; [reflexivity | discriminate]).
Qed.

Lemma getPModelFilename_extension_witness :
  RSDFile_getPModelFilename (RSD.parse "PLY=AAAC.ply") = "AAAC.P" /\
  RSDFile_getPModelFilename (RSD.parse "PLY=AAAC.P") = "AAAC.P".
Proof.
  split.
  - exact (proj1 getPModelFilename_extension (RSD.parse "PLY=AAAC.ply") "AAAC"
             "p"%char "l"%char "y"%char eq_refl
             (or_intror eq_refl) (or_intror eq_refl) (or_intror eq_refl)).
  - exact (proj2 (proj2 getPModelFilename_extension) (RSD.parse "PLY=AAAC.ply")).
Defined.

(** X10: the texture file names of a descriptor are its texture
    references, as many and in the same order, each with a trailing ".TIM"
    in any letter case replaced by ".TEX" and otherwise unchanged. *)
Theorem getTextureFilenames_extension (data : RSD.RSDData) :
  List.length (RSDFile_getTextureFilenames data) = List.length (RSD.textures data) /\
  forall (k : nat) (ref : string),
    nth_error (RSD.textures data) k = Some ref ->
    exists name,
      nth_error (RSDFile_getTextureFilenames data) k = Some name /\
      (forall base t i m,
         ref = base ++ String "." (String t (String i (String m ""))) ->
         (t = "T"%char \/ t = "t"%char) -> (i = "I"%char \/ i = "i"%char) ->
         (m = "M"%char \/ m = "m"%char) ->
         name = base ++ ".TEX") /\
      ((forall base e, ref = base ++ e -> matches_to_end ".TIM" e = false) ->
       name = ref).
Proof.
  unfold RSDFile_getTextureFilenames. split; [apply length_map|].
  intros k ref Hk. rewrite nth_error_map, Hk. cbn [option_map].
  eexists. split; [reflexivity|]. split.
  - intros base t i m -> Ht Hi Hm.
    apply replace_extension_suffix. apply matches_TIM. exists t, i, m. auto.
  - intros Hnone.
    destruct (string_dec (replace_extension ".TIM" ".TEX" ref) ref) as [|Hne];
      [assumption|].
    destruct (replace_extension_changed _ _ _ Hne) as (base & e & Heq & He).
    rewrite (Hnone base e Heq) in He. discriminate.
Qed.

Lemma getTextureFilenames_extension_witness :
  exists name,
    nth_error (RSDFile_getTextureFilenames
                 (RSD.parse "TEX[0]=AABB.TIM")) 0 = Some name /\
    name = "AABB.TEX".
Proof.
  destruct (proj2 (getTextureFilenames_extension (RSD.parse "TEX[0]=AABB.TIM"))
              O "AABB.TIM" eq_refl) as (name & Hname & Hext & _).
  exists name. split; [exact Hname|].
  exact (Hext "AABB" "T"%char "I"%char "M"%char eq_refl
           (or_introl eq_refl) (or_introl eq_refl) (or_introl eq_refl)).
Defined.
End DescriptorNames.

Section DescriptorLines.
Local Open Scope string_scope.

Lemma rev_string_rev_string (s a b : string) :
  JsString.rev_string a (JsString.rev_string b s) = JsString.rev_string (s ++ a) b.
Proof.
  revert a b. induction s as [|c s IH]; intros a b; [reflexivity|].
  cbn [JsString.rev_string append]. rewrite IH. reflexivity.
Qed.

Lemma rev_string_involutive (s : string) :
  JsString.rev_string "" (JsString.rev_string "" s) = s.
Proof.
  rewrite rev_string_rev_string. cbn [JsString.rev_string].
  apply append_nil_r.
Qed.

Lemma isLineTerminator_false (c : ascii) :
  JsString.isLineTerminator c = false ->
  (JsString.code c =? 10)%Z = false /\ (JsString.code c =? 13)%Z = false.
Proof.
  unfold JsString.isLineTerminator. cbv zeta. intros H.
  apply Bool.orb_false_iff in H. exact H.
Qed.

Lemma split_from_line (l rest cur : string) (crlf : bool) :
  noLineTerminator l = true ->
  JsString.split_from cur (l ++ lineEnd crlf ++ rest)
  = JsString.rev_string "" (JsString.rev_string cur l)
    :: JsString.split_from "" rest.
Proof.
  revert cur. induction l as [|c l IH]; intros cur Hl.
  - destruct crlf; reflexivity.
  - cbn [noLineTerminator] in Hl. apply Bool.andb_true_iff in Hl.
    destruct Hl as [Hc Hl]. apply Bool.negb_true_iff in Hc.
    destruct (isLineTerminator_false c Hc) as [H10 H13].
    cbn [append JsString.split_from JsString.rev_string].
    rewrite H10, H13. cbn [andb].
    rewrite <- (IH (String c cur) Hl).
    destruct (l ++ lineEnd crlf ++ rest); reflexivity.
Qed.

Lemma split_from_last (l cur : string) :
  noLineTerminator l = true ->
  JsString.split_from cur l
  = [JsString.rev_string "" (JsString.rev_string cur l)].
Proof.
  revert cur. induction l as [|c l IH]; intros cur Hl; [reflexivity|].
  cbn [noLineTerminator] in Hl. apply Bool.andb_true_iff in Hl.
  destruct Hl as [Hc Hl]. apply Bool.negb_true_iff in Hc.
  destruct (isLineTerminator_false c Hc) as [H10 H13].
  cbn [JsString.split_from JsString.rev_string].
  rewrite H10, H13. cbn [andb].
  rewrite <- (IH (String c cur) Hl).
  destruct l; reflexivity.
Qed.

Lemma split_lines_document (ls : list (string * bool)) (last : string) :
  Forall (fun p => noLineTerminator (fst p) = true) ls ->
  noLineTerminator last = true ->
  JsString.split_lines (document ls last) = (map fst ls ++ [last])%list.
Proof.
  intros Hls Hlast. unfold JsString.split_lines.
  induction Hls as [|[l crlf] ls Hl _ IH].
  - cbn [document map app]. rewrite (split_from_last last "" Hlast).
    rewrite rev_string_involutive. reflexivity.
  - cbn [document map app fst]. cbn [fst] in Hl.
    rewrite (split_from_line l (document ls last) "" crlf Hl).
    rewrite rev_string_involutive, IH. reflexivity.
Qed.

Lemma trimEnd_line (l : string) (b : ascii) :
  lastChar l = Some b -> JsString.isWhiteSpace b = false ->
  JsString.trimEnd l = l.
Proof.
  intros Hlast Hb. induction l as [|c l IH]; [reflexivity|].
  cbn [JsString.trimEnd]. destruct l as [|c' l].
  - cbn in Hlast. injection Hlast as ->. cbn [JsString.trimEnd].
    rewrite Hb. reflexivity.
  - rewrite (IH Hlast). reflexivity.
Qed.

Lemma isLine_inv (l : string) :
  isLine l = true ->
  exists a l' b, l = String a l' /\ lastChar l = Some b /\
    JsString.isWhiteSpace a = false /\ JsString.isWhiteSpace b = false /\
    noLineTerminator l = true.
Proof.
  unfold isLine. destruct l as [|a l']; [discriminate|].
  destruct (lastChar (String a l')) as [b|] eqn:Hb; [|discriminate].
  intros H. apply Bool.andb_true_iff in H. destruct H as [H Hnl].
  apply Bool.andb_true_iff in H. destruct H as [Ha Hb'].
  apply Bool.negb_true_iff in Ha, Hb'.
  exists a, l', b. auto.
Qed.

Lemma trim_line (l : string) : isLine l = true -> JsString.trim l = l.
Proof.
  intros H. destruct (isLine_inv l H) as (a & l' & b & -> & Hlast & Ha & Hb & _).
  unfold JsString.trim. cbn [JsString.trimStart]. rewrite Ha.
  exact (trimEnd_line _ b Hlast Hb).
Qed.

Lemma nonEmpty_line (l : string) : isLine l = true -> RSD.nonEmpty l = true.
Proof.
  intros H. destruct (isLine_inv l H) as (a & l' & b & -> & _). reflexivity.
Qed.

Lemma clean_lines (ls : list string) :
  Forall (fun l => isLine l = true) ls ->
  filter RSD.nonEmpty (map JsString.trim ls) = ls.
Proof.
  induction 1 as [|l ls Hl _ IH]; [reflexivity|].
  cbn [map filter]. rewrite (trim_line l Hl), (nonEmpty_line l Hl), IH.
  reflexivity.
Qed.

Lemma isLine_noLineTerminator (l : string) :
  isLine l = true -> noLineTerminator l = true.
Proof.
  intros H. destruct (isLine_inv l H) as (a & l' & b & _ & _ & _ & _ & Hnl).
  exact Hnl.
Qed.

(** X11: a descriptor text whose lines end in LF or in CR LF, in any mix,
    with or without a terminator after the last line, is read line by line:
    the result is the fold of [parse_line] over its lines, trimmed and
    without the blank ones, so it does not depend on which terminator ends
    which line.  When no line starts or ends with white space the lines are
    taken as they are. *)
Theorem parse_line_endings (ls : list (string * bool)) (last : string) :
  Forall (fun p => noLineTerminator (fst p) = true) ls ->
  noLineTerminator last = true ->
  RSD.parse (document ls last)
  = fold_left RSD.parse_line
      (filter RSD.nonEmpty (map JsString.trim (map fst ls ++ [last])%list))
      (RSD.mkRSDData "" "" "" "" 0 []) /\
  (forall flags : list bool,
     List.length flags = List.length ls ->
     RSD.parse (document (combine (map fst ls) flags) last)
     = RSD.parse (document ls last)) /\
  (Forall (fun p => isLine (fst p) = true) ls ->
   last = "" \/ isLine last = true ->
   RSD.parse (document ls last)
   = fold_left RSD.parse_line (lines_of ls last)
       (RSD.mkRSDData "" "" "" "" 0 [])).
Proof.
  intros Hls Hlast.
  assert (Hparse : forall ls', Forall (fun p => noLineTerminator (fst p) = true) ls' ->
            RSD.parse (document ls' last)
            = fold_left RSD.parse_line
                (filter RSD.nonEmpty (map JsString.trim (map fst ls' ++ [last])%list))
                (RSD.mkRSDData "" "" "" "" 0 [])).
  { intros ls' Hls'. unfold RSD.parse. cbv zeta.
    rewrite (split_lines_document ls' last Hls' Hlast). reflexivity. }
  split; [exact (Hparse ls Hls)|]. split.
  - intros flags Hlen.
    assert (Hfst : map fst (combine (map fst ls) flags) = map fst ls).
    { clear Hls Hparse. revert flags Hlen.
      induction ls as [|p ls IH]; intros [|f flags] Hlen; try discriminate;
        [reflexivity|].
      cbn [map combine fst]. rewrite IH by (cbn in Hlen; lia). reflexivity. }
    rewrite (Hparse ls Hls). rewrite Hparse; [rewrite Hfst; reflexivity|].
    apply Forall_forall. intros p Hp.
    assert (Hin : In (fst p) (map fst ls)).
    { rewrite <- Hfst. apply in_map. exact Hp. }
    apply in_map_iff in Hin. destruct Hin as (q & Hq & Hin).
    rewrite <- Hq. exact (proj1 (Forall_forall _ _) Hls q Hin).
  - intros Hlines Hl. rewrite (Hparse ls Hls). f_equal.
    rewrite map_app, filter_app. unfold lines_of. f_equal.
    + apply clean_lines. clear -Hlines.
      induction Hlines; constructor; assumption.
    + destruct Hl as [-> | Hl]; [reflexivity|].
      cbn [map filter]. rewrite (trim_line last Hl), (nonEmpty_line last Hl).
      destruct (String.eqb_spec last "") as [->|_]; [discriminate Hl|reflexivity].
Qed.

Lemma parse_line_endings_witness :
  RSD.parse ("PLY=AAAC.PLY" ++ String "013" (String "010"
              ("  " ++ String "010" " MAT=AAAC.MAT ")))
  = RSD.mkRSDData "" "AAAC.PLY" "AAAC.MAT" "" 0 [].
Proof.
  assert (Hls : Forall (fun p : string * bool => noLineTerminator (fst p) = true)
                  [("PLY=AAAC.PLY", true); ("  ", false)])
    by (repeat constructor).
  exact (proj1 (parse_line_endings _ " MAT=AAAC.MAT " Hls eq_refl)).
Defined.

End DescriptorLines.

Section DescriptorFields.
Local Open Scope string_scope.

Lemma takeWhile_digits (s : string) (c : ascii) (rest : string) :
  JsString.isDigit c = false -> allDigits s = true ->
  RSD.takeWhile JsString.isDigit (s ++ String c rest) = s /\
  RSD.dropWhile JsString.isDigit (s ++ String c rest) = String c rest.
Proof.
  intros Hc. induction s as [|a s IH]; intros Hs.
  - cbn [append RSD.takeWhile RSD.dropWhile]. rewrite Hc. split; reflexivity.
  - cbn [allDigits] in Hs. apply Bool.andb_true_iff in Hs. destruct Hs as [Ha Hs].
    destruct (IH Hs) as [IH1 IH2].
    cbn [append RSD.takeWhile RSD.dropWhile]. rewrite Ha, IH1, IH2.
    split; reflexivity.
Qed.

Lemma takeWhile_all (s : string) :
  noLineTerminator s = true ->
  RSD.takeWhile (fun c => negb (JsString.isLineTerminator c)) s = s.
Proof.
  induction s as [|a s IH]; intros Hs; [reflexivity|].
  cbn [noLineTerminator] in Hs. apply Bool.andb_true_iff in Hs.
  destruct Hs as [Ha Hs]. cbn [RSD.takeWhile]. rewrite Ha, (IH Hs). reflexivity.
Qed.

Lemma match_tex_here_texture_line (index ref : string) :
  isIndex index = true -> isReference ref = true ->
  RSD.match_tex_here (texture_line index ref) = Some ref.
Proof.
  unfold isIndex, isReference. intros Hi Hr.
  apply Bool.andb_true_iff in Hi, Hr.
  destruct Hi as [Hi Hd], Hr as [Hr Hnl].
  apply Bool.negb_true_iff in Hi, Hr.
  destruct index as [|d index]; [discriminate Hi|].
  destruct ref as [|r ref]; [discriminate Hr|].
  unfold RSD.match_tex_here, texture_line.
  change (JsString.startsWith ("TEX[" ++ String d index ++ "]=" ++ String r ref) "TEX[")
    with true.
  change (JsString.substring_from 4 ("TEX[" ++ String d index ++ "]=" ++ String r ref))
    with (String d index ++ String "]" (String "=" (String r ref))).
  destruct (takeWhile_digits (String d index) "]"
              (String "=" (String r ref)) eq_refl Hd) as [Htake Hdrop].
  rewrite Htake, Hdrop.
  change (JsString.startsWith (String "]" (String "=" (String r ref))) "]=") with true.
  change (JsString.substring_from 2 (String "]" (String "=" (String r ref))))
    with (String r ref).
  rewrite (takeWhile_all (String r ref) Hnl). reflexivity.
Qed.

Lemma parse_line_texture_line (data : RSD.RSDData) (index ref : string) :
  isIndex index = true -> isReference ref = true ->
  RSD.parse_line data (texture_line index ref)
  = RSD.mkRSDData (RSD.id data) (RSD.plyFile data) (RSD.matFile data)
      (RSD.grpFile data) (RSD.numTextures data) (RSD.textures data ++ [ref])%list.
Proof.
  intros Hi Hr. pose proof (match_tex_here_texture_line index ref Hi Hr) as Hm.
  destruct index as [|d index]; [discriminate Hi|].
  unfold RSD.parse_line.
  change (JsString.startsWith (texture_line (String d index) ref) "@RSD") with false.
  change (JsString.startsWith (texture_line (String d index) ref) "PLY=") with false.
  change (JsString.startsWith (texture_line (String d index) ref) "MAT=") with false.
  change (JsString.startsWith (texture_line (String d index) ref) "GRP=") with false.
  change (JsString.startsWith (texture_line (String d index) ref) "NTEX=") with false.
  change (JsString.startsWith (texture_line (String d index) ref) "TEX[") with true.
  cbv iota.
  unfold texture_line in *. cbn [append RSD.match_tex]. cbn [append] in Hm.
  rewrite Hm. reflexivity.
Qed.

(** X12: texture lines are taken in the order of the file and the number
    between the brackets is not looked at: after lines [TEX[i]=ref], each
    with a decimal index and a non-empty reference, the texture list is the
    one before followed by the references in line order, duplicates and
    out-of-order indices included, and nothing else has changed.  The
    texture count of the [NTEX=] line is not compared with it. *)
Theorem texture_lines_in_file_order
  (entries : list (string * string)) (data : RSD.RSDData) :
  Forall (fun e => isIndex (fst e) = true /\ isReference (snd e) = true) entries ->
  fold_left RSD.parse_line (map (fun e => texture_line (fst e) (snd e)) entries) data
  = RSD.mkRSDData (RSD.id data) (RSD.plyFile data) (RSD.matFile data)
      (RSD.grpFile data) (RSD.numTextures data)
      (RSD.textures data ++ map snd entries)%list.
Proof.
  intros Hall. revert data.
  induction Hall as [|[index ref] entries [Hi Hr] _ IH]; intros data.
  - cbn [map fold_left]. rewrite app_nil_r. destruct data; reflexivity.
  - cbn [map fold_left fst snd]. cbn [fst snd] in Hi, Hr.
    rewrite (parse_line_texture_line data index ref Hi Hr), IH.
    cbn [RSD.id RSD.plyFile RSD.matFile RSD.grpFile RSD.numTextures RSD.textures].
    rewrite <- app_assoc. reflexivity.
Qed.

Lemma texture_lines_in_file_order_witness :
  fold_left RSD.parse_line ["TEX[7]=B.TIM"; "TEX[0]=A.TIM"; "TEX[7]=B.TIM"]
    (RSD.mkRSDData "" "" "" "" 1 [])
  = RSD.mkRSDData "" "" "" "" 1 ["B.TIM"; "A.TIM"; "B.TIM"].
Proof.
  assert (H : Forall (fun e : string * string =>
                        isIndex (fst e) = true /\ isReference (snd e) = true)
                [("7", "B.TIM"); ("0", "A.TIM"); ("7", "B.TIM")])
    by (repeat constructor).
  exact (texture_lines_in_file_order _ (RSD.mkRSDData "" "" "" "" 1 []) H).
Defined.

Lemma plyFile_other_line (data : RSD.RSDData) (line : string) :
  JsString.startsWith line "PLY=" = false ->
  RSD.plyFile (RSD.parse_line data line) = RSD.plyFile data.
Proof.
  intros H. unfold RSD.parse_line. rewrite H.
  repeat match goal with
         | |- context [if ?b then _ else _] => destruct b
         end; try reflexivity.
  destruct (RSD.match_tex line); reflexivity.
Qed.

Lemma matFile_other_line (data : RSD.RSDData) (line : string) :
  JsString.startsWith line "MAT=" = false ->
  RSD.matFile (RSD.parse_line data line) = RSD.matFile data.
Proof.
  intros H. unfold RSD.parse_line. rewrite H.
  repeat match goal with
         | |- context [if ?b then _ else _] => destruct b
         end; try reflexivity.
  destruct (RSD.match_tex line); reflexivity.
Qed.

Lemma grpFile_other_line (data : RSD.RSDData) (line : string) :
  JsString.startsWith line "GRP=" = false ->
  RSD.grpFile (RSD.parse_line data line) = RSD.grpFile data.
Proof.
  intros H. unfold RSD.parse_line. rewrite H.
  repeat match goal with
         | |- context [if ?b then _ else _] => destruct b
         end; try reflexivity.
  destruct (RSD.match_tex line); reflexivity.
Qed.

Lemma fold_keeps (proj : RSD.RSDData -> string) (key : string)
  (lines : list string) :
  (forall data line, JsString.startsWith line key = false ->
     proj (RSD.parse_line data line) = proj data) ->
  Forall (fun l => JsString.startsWith l key = false) lines ->
  forall data, proj (fold_left RSD.parse_line lines data) = proj data.
Proof.
  intros Hother Hall. induction Hall as [|l lines Hl _ IH]; intros data.
  - reflexivity.
  - cbn [fold_left]. rewrite IH. apply Hother. exact Hl.
Qed.

(** X13: of several [PLY=], [MAT=] or [GRP=] lines the last one is the one
    kept: the lines before it do not matter, and the value is everything
    after the sign, the empty string included. *)
Theorem last_reference_line_wins
  (before after : list string) (value : string) (data : RSD.RSDData) :
  (Forall (fun l => JsString.startsWith l "PLY=" = false) after ->
   RSD.plyFile (fold_left RSD.parse_line (before ++ [("PLY=" ++ value)%string] ++ after)%list data)
   = value) /\
  (Forall (fun l => JsString.startsWith l "MAT=" = false) after ->
   RSD.matFile (fold_left RSD.parse_line (before ++ [("MAT=" ++ value)%string] ++ after)%list data)
   = value) /\
  (Forall (fun l => JsString.startsWith l "GRP=" = false) after ->
   RSD.grpFile (fold_left RSD.parse_line (before ++ [("GRP=" ++ value)%string] ++ after)%list data)
   = value).
Proof.
  assert (Hpre : forall v, String.prefix "" v = true) by (intros []; reflexivity).
  split; [|split]; intros Hafter; rewrite fold_left_app; cbn [fold_left app].
  - rewrite (fold_keeps RSD.plyFile "PLY=" after plyFile_other_line Hafter).
    unfold RSD.parse_line, JsString.startsWith. cbn. rewrite Hpre. reflexivity.
  - rewrite (fold_keeps RSD.matFile "MAT=" after matFile_other_line Hafter).
    unfold RSD.parse_line, JsString.startsWith. cbn. rewrite Hpre. reflexivity.
  - rewrite (fold_keeps RSD.grpFile "GRP=" after grpFile_other_line Hafter).
    unfold RSD.parse_line, JsString.startsWith. cbn. rewrite Hpre. reflexivity.
Qed.

Lemma last_reference_line_wins_witness :
  RSD.plyFile (fold_left RSD.parse_line
                 ["PLY=OLD.PLY"; "PLY=NEW.PLY"; "MAT=NEW.MAT"]
                 (RSD.mkRSDData "" "" "" "" 0 []))
  = "NEW.PLY".
Proof.
  assert (H : Forall (fun l => JsString.startsWith l "PLY=" = false) ["MAT=NEW.MAT"])
    by (repeat constructor).
  exact (proj1 (last_reference_line_wins ["PLY=OLD.PLY"] ["MAT=NEW.MAT"] "NEW.PLY"
                  (RSD.mkRSDData "" "" "" "" 0 [])) H).
Defined.

End DescriptorFields.

Section SkeletonRange.
Local Open Scope string_scope.

Lemma findIndex_from_sound {A : Type} (p : A -> bool) (l : list A) :
  forall i : Z,
    HRC.findIndex_from p l i = -1 /\ (forall x, In x l -> p x = false) \/
    exists (k : nat) (x : A),
      HRC.findIndex_from p l i = i + Z.of_nat k /\
      nth_error l k = Some x /\ p x = true /\
      forall k' y, (k' < k)%nat -> nth_error l k' = Some y -> p y = false.
Proof.
  induction l as [|h l IH]; intros i.
  - left. split; [reflexivity|]. intros x [].
  - cbn [HRC.findIndex_from]. destruct (p h) eqn:Hh.
    + right. exists O, h. split; [lia|]. split; [reflexivity|].
      split; [exact Hh|]. intros k' y Hlt. lia.
    + destruct (IH (i + 1)) as [[Hnone Hall] | (k & x & Hidx & Hk & Hx & Hfirst)].
      * left. split; [exact Hnone|]. intros x [<- | Hin]; [exact Hh | exact (Hall x Hin)].
      * right. exists (S k), x. split; [lia|]. split; [exact Hk|].
        split; [exact Hx|]. intros [|k'] y Hlt Hy.
        -- cbn in Hy. injection Hy as <-. exact Hh.
        -- apply (Hfirst k' y); [lia | exact Hy].
Qed.

(** X14: whatever the skeleton and the index, [getBoneParentIndex] returns
    -1 or the index of a bone of the skeleton, so its result can be used to
    index the bones once -1 is excluded; the bone it names carries the
    parent name of the bone asked for, letter case apart, and that name is
    not "root".  Nothing excludes the bone itself: a bone named as its own
    parent resolves to itself, or to an earlier bone of the same name. *)
Theorem getBoneParentIndex_in_range (data : HRC.HRCData) (boneIndex : Z) :
  (HRC.getBoneParentIndex data boneIndex = -1 \/
   0 <= HRC.getBoneParentIndex data boneIndex
     < Z.of_nat (List.length (HRC.bones data)) /\
   exists bone parent,
     HRC.bone_at (HRC.bones data) boneIndex = Some bone /\
     HRC.bone_at (HRC.bones data) (HRC.getBoneParentIndex data boneIndex)
     = Some parent /\
     JsString.toLowerCase (HRC.name parent)
     = JsString.toLowerCase (HRC.parentName bone) /\
     JsString.toLowerCase (HRC.parentName bone) <> "root") /\
  (forall bone,
     HRC.bone_at (HRC.bones data) boneIndex = Some bone ->
     JsString.toLowerCase (HRC.name bone)
     = JsString.toLowerCase (HRC.parentName bone) ->
     JsString.toLowerCase (HRC.parentName bone) <> "root" ->
     0 <= HRC.getBoneParentIndex data boneIndex <= boneIndex).
Proof.
  unfold HRC.getBoneParentIndex, HRC.findIndex.
  destruct (HRC.bone_at (HRC.bones data) boneIndex) as [bone|] eqn:Hbone.
  2:{ split; [left; reflexivity | intros bone Hb; discriminate Hb]. }
  destruct (String.eqb_spec (JsString.toLowerCase (HRC.parentName bone)) "root")
    as [Hroot|Hroot].
  { split; [left; reflexivity|]. intros b Hb _ Hne.
    injection Hb as <-. contradiction. }
  set (p := fun b : HRC.HRCBone =>
              String.eqb (JsString.toLowerCase (HRC.name b))
                (JsString.toLowerCase (HRC.parentName bone))).
  destruct (findIndex_from_sound p (HRC.bones data) 0)
    as [[Hnone Hall] | (k & x & Hidx & Hk & Hx & Hfirst)].
  - split; [left; exact Hnone|]. intros b Hb Hself _. injection Hb as <-.
    exfalso. unfold HRC.bone_at in Hbone.
    destruct (boneIndex <? 0)%Z; [discriminate|].
    apply nth_error_In in Hbone. specialize (Hall bone Hbone).
    unfold p in Hall. rewrite Hself, String.eqb_refl in Hall. discriminate.
  - rewrite Hidx. cbn [Z.add].
    assert (Hlt : (k < List.length (HRC.bones data))%nat).
    { apply nth_error_Some. rewrite Hk. discriminate. }
    split.
    + right. split; [lia|]. exists bone, x. split; [reflexivity|].
      split.
      * unfold HRC.bone_at. destruct (Z.ltb_spec (Z.of_nat k) 0); [lia|].
        rewrite Nat2Z.id. exact Hk.
      * unfold p in Hx. apply String.eqb_eq in Hx. split; assumption.
    + intros b Hb Hself _. injection Hb as <-.
      unfold HRC.bone_at in Hbone.
      destruct (Z.ltb_spec boneIndex 0) as [|Hnn]; [discriminate|].
      split; [lia|].
      destruct (Z_lt_le_dec boneIndex (Z.of_nat k)) as [Hbefore|]; [|lia].
      exfalso.
      assert (Hp : p bone = false).
      { apply (Hfirst (Z.to_nat boneIndex) bone); [lia | exact Hbone]. }
      unfold p in Hp. rewrite Hself, String.eqb_refl in Hp. discriminate.
Qed.

End SkeletonRange.

Section SkeletonText.
Local Open Scope string_scope.

Variable parseInt10 : string -> float.
Variable parseFloat : string -> float.

Lemma nextLine_lines (lines : list string) :
  fst (nextLine lines)
  = nth 0 (filter RSD.nonEmpty (map JsString.trim lines)) "" /\
  filter RSD.nonEmpty (map JsString.trim (snd (nextLine lines)))
  = tl (filter RSD.nonEmpty (map JsString.trim lines)).
Proof.
  induction lines as [|l lines IH]; [split; reflexivity|].
  cbn [nextLine map filter]. cbv zeta.
  change (0 <? String.length (JsString.trim l))%nat
    with (RSD.nonEmpty (JsString.trim l)).
  destruct (RSD.nonEmpty (JsString.trim l)).
  - split; reflexivity.
  - exact IH.
Qed.

Lemma nth_tl {A : Type} (l : list A) (k : nat) (d : A) :
  nth k (tl l) d = nth (S k) l d.
Proof. destruct l; [destruct k; reflexivity | reflexivity]. Qed.

Lemma nextLine_eq (lines : list string) :
  exists rest,
    nextLine lines
    = (lineAt (filter RSD.nonEmpty (map JsString.trim lines)) 0, rest) /\
    filter RSD.nonEmpty (map JsString.trim rest)
    = tl (filter RSD.nonEmpty (map JsString.trim lines)).
Proof.
  destruct (nextLine_lines lines) as [H1 H2].
  destruct (nextLine lines) as [line rest]. exists rest.
  cbn [fst snd] in H1, H2. unfold lineAt. rewrite H1. split; [reflexivity | exact H2].
Qed.

Lemma lineAt_tl (l : list string) (k : nat) :
  lineAt (tl l) k = lineAt l (S k).
Proof. apply nth_tl. Qed.

Lemma read_bone_lines (lines : list string) :
  exists rest,
    read_bone parseInt10 parseFloat lines
    = (bone_of_lines parseInt10 parseFloat
         (lineAt (filter RSD.nonEmpty (map JsString.trim lines)) 0)
         (lineAt (filter RSD.nonEmpty (map JsString.trim lines)) 1)
         (lineAt (filter RSD.nonEmpty (map JsString.trim lines)) 2)
         (lineAt (filter RSD.nonEmpty (map JsString.trim lines)) 3), rest) /\
    filter RSD.nonEmpty (map JsString.trim rest)
    = tl (tl (tl (tl (filter RSD.nonEmpty (map JsString.trim lines))))).
Proof.
  unfold read_bone.
  destruct (nextLine_eq lines) as (r1 & -> & H1).
  destruct (nextLine_eq r1) as (r2 & -> & H2).
  destruct (nextLine_eq r2) as (r3 & -> & H3).
  destruct (nextLine_eq r3) as (r4 & -> & H4).
  exists r4. rewrite H4, H3, H2, H1. split; [|reflexivity].
  rewrite !lineAt_tl. reflexivity.
Qed.

Lemma read_bones_lines (n : nat) :
  forall (lines : list string) (bones : list HRC.HRCBone),
    (Z.of_nat (List.length bones) <= maxArrayLength)%Z ->
    read_bones parseInt10 parseFloat n lines bones
    = if (Z.of_nat (List.length bones + n) <=? maxArrayLength)%Z
      then
        Ok (bones
            ++ map (fun k =>
                      bone_of_lines parseInt10 parseFloat
                        (lineAt (filter RSD.nonEmpty (map JsString.trim lines))
                           (4 * k))
                        (lineAt (filter RSD.nonEmpty (map JsString.trim lines))
                           (4 * k + 1))
                        (lineAt (filter RSD.nonEmpty (map JsString.trim lines))
                           (4 * k + 2))
                        (lineAt (filter RSD.nonEmpty (map JsString.trim lines))
                           (4 * k + 3)))
                (seq 0 n))%list
      else Err InvalidArrayLength.
Proof.
  induction n as [|n IH]; intros lines bones Hlen.
  - cbn [read_bones seq map]. rewrite app_nil_r, Nat.add_0_r.
    destruct (Z.leb_spec (Z.of_nat (List.length bones)) maxArrayLength);
      [reflexivity | lia].
  - cbn [read_bones]. destruct (read_bone_lines lines) as (rest & -> & Hrest).
    unfold Array_push.
    destruct (Z.ltb_spec (Z.of_nat (List.length bones)) maxArrayLength) as [Hroom|Hfull];
      cbn [bindR].
    + rewrite (IH rest) by (rewrite length_app; cbn [List.length]; lia).
      rewrite length_app. cbn [List.length].
      replace (List.length bones + 1 + n)%nat with (List.length bones + S n)%nat
        by lia.
      destruct (Z.of_nat (List.length bones + S n) <=? maxArrayLength)%Z;
        [|reflexivity].
      f_equal. rewrite <- app_assoc. f_equal. rewrite Hrest.
      change (seq 0 (S n)) with (O :: seq 1 n).
      rewrite <- (seq_shift n 0). cbn [map app]. rewrite map_map.
      f_equal. apply map_ext. intros k.
      rewrite !lineAt_tl. f_equal; f_equal; lia.
    + destruct (Z.leb_spec (Z.of_nat (List.length bones + S n)) maxArrayLength);
        [lia | reflexivity].
Qed.

(** What [parse] does with the first three lines and the bone count. *)
Lemma parse_skeleton_cases (text : string) :
  let L := textLines text in
  (JsString.startsWith (lineAt L 0) ":HEADER_BLOCK" = false /\
   HRCFile_parse parseInt10 parseFloat text = Err MissingHeaderBlock) \/
  (JsString.startsWith (lineAt L 0) ":HEADER_BLOCK" = true /\
   JsString.startsWith (lineAt L 1) ":SKELETON" = false /\
   HRCFile_parse parseInt10 parseFloat text = Err MissingSkeleton) \/
  (JsString.startsWith (lineAt L 0) ":HEADER_BLOCK" = true /\
   JsString.startsWith (lineAt L 1) ":SKELETON" = true /\
   JsString.startsWith (lineAt L 2) ":BONES" = false /\
   HRCFile_parse parseInt10 parseFloat text = Err MissingBones) \/
  (JsString.startsWith (lineAt L 0) ":HEADER_BLOCK" = true /\
   JsString.startsWith (lineAt L 1) ":SKELETON" = true /\
   JsString.startsWith (lineAt L 2) ":BONES" = true /\
   (maxArrayLength
    < Z.of_nat (iterations (argument (nth_error (split_spaces (lineAt L 2)) 1))))%Z /\
   HRCFile_parse parseInt10 parseFloat text = Err InvalidArrayLength) \/
  (JsString.startsWith (lineAt L 0) ":HEADER_BLOCK" = true /\
   JsString.startsWith (lineAt L 1) ":SKELETON" = true /\
   JsString.startsWith (lineAt L 2) ":BONES" = true /\
   (Z.of_nat (iterations (argument (nth_error (split_spaces (lineAt L 2)) 1)))
    <= maxArrayLength)%Z /\
   HRCFile_parse parseInt10 parseFloat text
   = Ok (HRC.mkHRCData
           (parseInt10 (argument (nth_error (split_spaces (lineAt L 0)) 1)))
           (or_empty (nth_error (split_spaces (lineAt L 1)) 1))
           (parseInt10 (argument (nth_error (split_spaces (lineAt L 2)) 1)))
           (map (fun k =>
                   bone_of_lines parseInt10 parseFloat
                     (lineAt L (3 + 4 * k)) (lineAt L (4 + 4 * k))
                     (lineAt L (5 + 4 * k)) (lineAt L (6 + 4 * k)))
              (seq 0 (iterations
                        (argument (nth_error (split_spaces (lineAt L 2)) 1))))))).
Proof.
  cbv zeta. unfold HRCFile_parse, textLines.
  set (lines := JsString.split_lines text).
  destruct (nextLine_eq lines) as (r1 & -> & H1).
  destruct (nextLine_eq r1) as (r2 & E2 & H2).
  destruct (nextLine_eq r2) as (r3 & E3 & H3).
  rewrite H2, H1 in E3. rewrite H1 in E2.
  rewrite lineAt_tl in E2. rewrite 2!lineAt_tl in E3.
  set (L := filter RSD.nonEmpty (map JsString.trim lines)) in *.
  destruct (JsString.startsWith (lineAt L 0) ":HEADER_BLOCK") eqn:S0;
    cbn [negb]; [|left; split; reflexivity].
  right. rewrite E2.
  destruct (JsString.startsWith (lineAt L 1) ":SKELETON") eqn:S1;
    cbn [negb]; [|left; repeat split; reflexivity].
  right. rewrite E3.
  destruct (JsString.startsWith (lineAt L 2) ":BONES") eqn:S2;
    cbn [negb]; [|left; repeat split; reflexivity].
  right. rewrite read_bones_lines by (cbn [List.length]; unfold maxArrayLength; lia).
  cbn [List.length Nat.add app].
  destruct (Z.leb_spec
              (Z.of_nat (iterations (argument (nth_error (split_spaces (lineAt L 2)) 1))))
              maxArrayLength) as [Hfits|Hover]; cbn [bindR].
  - right. repeat split; [exact Hfits|]. f_equal. f_equal.
    rewrite H3, H2, H1. apply map_ext. intros k.
    rewrite !lineAt_tl. f_equal; f_equal; lia.
  - left. repeat split. exact Hover.
Qed.

(** The loop bound, read off the count. *)
Lemma iterations_fit (tok : string) :
  (Z.of_nat (iterations tok) <= maxArrayLength)%Z <->
  (forall n, JsString.parseInt tok = Some n -> (n <= maxArrayLength)%Z).
Proof.
  unfold iterations, maxArrayLength.
  destruct (JsString.parseInt tok) as [n|].
  - split.
    + intros H m [= <-]. lia.
    + intros H. specialize (H n eq_refl). lia.
  - split; [intros _ n Hn; discriminate Hn | intros _; cbn; lia].
Qed.

Lemma iterations_exceed (tok : string) :
  (maxArrayLength < Z.of_nat (iterations tok))%Z <->
  (exists n, JsString.parseInt tok = Some n /\ (maxArrayLength < n)%Z).
Proof.
  unfold iterations, maxArrayLength.
  destruct (JsString.parseInt tok) as [n|].
  - split.
    + intros H. exists n. split; [reflexivity | lia].
    + intros (m & [= <-] & H). lia.
  - split; [cbn; lia | intros (n & Hn & _); discriminate Hn].
Qed.

(** X15: the skeleton parser throws [Error] exactly when one of the first
    three lines that are not blank, in this order, does not start with
    [:HEADER_BLOCK], [:SKELETON] and [:BONES], and the message names the
    first that is missing; blank lines and the white space around a line
    are skipped.  With the three directives in place it throws
    [RangeError] exactly when the bone count read is above 2^32 - 1, the
    most an array holds, and returns otherwise: a directive without a
    value, or a bone count that is negative or no number, is accepted. *)
Theorem parse_skeleton_throws (text : string) :
  (HRCFile_parse parseInt10 parseFloat text = Err MissingHeaderBlock <->
   JsString.startsWith (lineAt (textLines text) 0) ":HEADER_BLOCK" = false) /\
  (HRCFile_parse parseInt10 parseFloat text = Err MissingSkeleton <->
   JsString.startsWith (lineAt (textLines text) 0) ":HEADER_BLOCK" = true /\
   JsString.startsWith (lineAt (textLines text) 1) ":SKELETON" = false) /\
  (HRCFile_parse parseInt10 parseFloat text = Err MissingBones <->
   JsString.startsWith (lineAt (textLines text) 0) ":HEADER_BLOCK" = true /\
   JsString.startsWith (lineAt (textLines text) 1) ":SKELETON" = true /\
   JsString.startsWith (lineAt (textLines text) 2) ":BONES" = false) /\
  (HRCFile_parse parseInt10 parseFloat text = Err InvalidArrayLength <->
   JsString.startsWith (lineAt (textLines text) 0) ":HEADER_BLOCK" = true /\
   JsString.startsWith (lineAt (textLines text) 1) ":SKELETON" = true /\
   JsString.startsWith (lineAt (textLines text) 2) ":BONES" = true /\
   exists n,
     JsString.parseInt
       (argument (nth_error (split_spaces (lineAt (textLines text) 2)) 1))
     = Some n /\ (4294967295 < n)%Z) /\
  ((exists data, HRCFile_parse parseInt10 parseFloat text = Ok data) <->
   JsString.startsWith (lineAt (textLines text) 0) ":HEADER_BLOCK" = true /\
   JsString.startsWith (lineAt (textLines text) 1) ":SKELETON" = true /\
   JsString.startsWith (lineAt (textLines text) 2) ":BONES" = true /\
   forall n,
     JsString.parseInt
       (argument (nth_error (split_spaces (lineAt (textLines text) 2)) 1))
     = Some n -> (n <= 4294967295)%Z).
Proof.
  change 4294967295%Z with maxArrayLength.
  pose proof (iterations_fit
                (argument (nth_error (split_spaces (lineAt (textLines text) 2)) 1)))
    as Hfit.
  pose proof (iterations_exceed
                (argument (nth_error (split_spaces (lineAt (textLines text) 2)) 1)))
    as Hexc.
  rewrite <- Hfit, <- Hexc. clear Hfit Hexc.
  pose proof (parse_skeleton_cases text) as H. cbv zeta in H.
  destruct H as [(S0 & ->) | [(S0 & S1 & ->) | [(S0 & S1 & S2 & ->)
                | [(S0 & S1 & S2 & Hn & ->) | (S0 & S1 & S2 & Hn & ->)]]]];
    rewrite ?S0, ?S1, ?S2;
    repeat split; intros;
    repeat match goal with
           | H : _ /\ _ |- _ => destruct H
           | H : exists _, _ |- _ => destruct H
           end;
    try discriminate; try reflexivity; try assumption; try lia;
    try (eexists; reflexivity).
Qed.

(** X16: a skeleton text that is accepted gives as many bones as the
    [:BONES] line declares, none when the count is negative or no number,
    whatever the text holds after it.  Bone [k] is read from the four
    non-blank lines 3+4k to 6+4k of the text: name, parent name, length, and
    the resource line, whose first word is the resource count and whose
    other words are the resources.  Lines that the text does not have read
    as empty, so a text that ends early still gives the declared number of
    bones, the missing ones with empty names and no resource. *)
Theorem parse_skeleton_bones (text : string) (data : HRC.HRCData) :
  HRCFile_parse parseInt10 parseFloat text = Ok data ->
  HRC.bones data
  = map (fun k =>
           bone_of_lines parseInt10 parseFloat
             (lineAt (textLines text) (3 + 4 * k))
             (lineAt (textLines text) (4 + 4 * k))
             (lineAt (textLines text) (5 + 4 * k))
             (lineAt (textLines text) (6 + 4 * k)))
      (seq 0 (iterations
                (argument (nth_error (split_spaces (lineAt (textLines text) 2)) 1)))) /\
  List.length (HRC.bones data)
  = iterations (argument (nth_error (split_spaces (lineAt (textLines text) 2)) 1)) /\
  HRC.boneCount data
  = parseInt10 (argument (nth_error (split_spaces (lineAt (textLines text) 2)) 1)) /\
  forall k : nat,
    (k < List.length (HRC.bones data))%nat ->
    (List.length (textLines text) <= 3 + 4 * k)%nat ->
    nth_error (HRC.bones data) k
    = Some (HRC.mkHRCBone "" "" (parseFloat "")
              (or_zero_number (parseInt10 "undefined")) []).
Proof.
  intros Hparse.
  pose proof (parse_skeleton_cases text) as H. cbv zeta in H.
  destruct H as [(_ & E) | [(_ & _ & E) | [(_ & _ & _ & E)
                | [(_ & _ & _ & _ & E) | (_ & _ & _ & _ & E)]]]];
    rewrite E in Hparse; try discriminate Hparse.
  injection Hparse as <-. unfold HRC.bones, HRC.boneCount.
  split; [reflexivity|]. split; [rewrite length_map, length_seq; reflexivity|].
  split; [reflexivity|].
  intros k Hk Hshort. rewrite length_map, length_seq in Hk.
  rewrite nth_error_map, nth_error_seq.
  apply Nat.ltb_lt in Hk. rewrite Hk.
  cbn [option_map Nat.add]. unfold lineAt.
  rewrite !nth_overflow by lia. reflexivity.
Qed.

End SkeletonText.

Lemma parse_skeleton_throws_witness :
  HRCFile_parse (fun _ => 2%float) (fun _ => 1.5%float) too_many_bones
  = Err InvalidArrayLength.
Proof.
  apply (proj2 (proj1 (proj2 (proj2 (proj2
           (parse_skeleton_throws (fun _ => 2%float) (fun _ => 1.5%float)
              too_many_bones)))))).
  split; [reflexivity|]. split; [reflexivity|]. split; [reflexivity|].
  exists 4294967296. split; reflexivity.
Defined.

Lemma parse_skeleton_bones_witness :
  exists data,
    HRCFile_parse (fun _ => 2%float) (fun _ => 1.5%float)
      (":HEADER_BLOCK 2" ++ String "010" (":SKELETON aaaa" ++ String "010"
         (":BONES 2" ++ String "010" ("hip" ++ String "010" "root"))))%string
    = Ok data /\
    List.length (HRC.bones data) = 2%nat.
Proof.
  exists (HRC.mkHRCData 2%float "aaaa"%string 2%float
            [HRC.mkHRCBone "hip"%string "root"%string 1.5%float 2%float [];
             HRC.mkHRCBone ""%string ""%string 1.5%float 2%float []]).
  assert (E : HRCFile_parse (fun _ => 2%float) (fun _ => 1.5%float)
                (":HEADER_BLOCK 2" ++ String "010" (":SKELETON aaaa" ++ String "010"
                   (":BONES 2" ++ String "010" ("hip" ++ String "010" "root"))))%string
              = Ok (HRC.mkHRCData 2%float "aaaa"%string 2%float
                      [HRC.mkHRCBone "hip"%string "root"%string 1.5%float 2%float [];
                       HRC.mkHRCBone ""%string ""%string 1.5%float 2%float []]))
    by reflexivity.
  split; [exact E|].
  exact (proj1 (proj2 (parse_skeleton_bones _ _ _ _ E))).
Defined.

Section SkeletonWords.
Local Open Scope string_scope.

Variable parseInt10 : string -> float.
Variable parseFloat : string -> float.

Lemma split_spaces_word (w s cur : string) :
  noWhiteSpace w = true ->
  split_spaces_from false cur (w ++ s)
  = split_spaces_from false (JsString.rev_string cur w) s.
Proof.
  revert cur. induction w as [|c w IH]; intros cur Hw; [reflexivity|].
  cbn [noWhiteSpace] in Hw. apply Bool.andb_true_iff in Hw.
  destruct Hw as [Hc Hw]. apply Bool.negb_true_iff in Hc.
  cbn [append split_spaces_from JsString.rev_string]. rewrite Hc.
  exact (IH (String c cur) Hw).
Qed.

Lemma split_spaces_skip (sep s : string) :
  allWhiteSpace sep = true ->
  split_spaces_from true "" (sep ++ s) = split_spaces_from true "" s.
Proof.
  induction sep as [|c sep IH]; intros Hsep; [reflexivity|].
  cbn [allWhiteSpace] in Hsep. apply Bool.andb_true_iff in Hsep.
  destruct Hsep as [Hc Hsep].
  cbn [append split_spaces_from]. rewrite Hc. exact (IH Hsep).
Qed.

Lemma split_spaces_separator (sep s cur : string) :
  isSeparator sep = true ->
  split_spaces_from false cur (sep ++ s)
  = JsString.rev_string "" cur :: split_spaces_from true "" s.
Proof.
  unfold isSeparator. intros H. apply Bool.andb_true_iff in H.
  destruct H as [Hne Hsep]. destruct sep as [|c sep]; [discriminate Hne|].
  cbn [allWhiteSpace] in Hsep. apply Bool.andb_true_iff in Hsep.
  destruct Hsep as [Hc Hsep].
  cbn [append split_spaces_from]. rewrite Hc.
  rewrite (split_spaces_skip sep s Hsep). reflexivity.
Qed.

Lemma isWord_inv (w : string) :
  isWord w = true ->
  exists c w', w = String c w' /\ JsString.isWhiteSpace c = false /\
               noWhiteSpace w = true.
Proof.
  unfold isWord. intros H. apply Bool.andb_true_iff in H.
  destruct H as [Hne Hw]. destruct w as [|c w']; [discriminate Hne|].
  exists c, w'. split; [reflexivity|]. split; [|exact Hw].
  cbn [noWhiteSpace] in Hw. apply Bool.andb_true_iff in Hw.
  destruct Hw as [Hc _]. apply Bool.negb_true_iff in Hc. exact Hc.
Qed.

Lemma split_spaces_words (rest : list (string * string)) :
  forall (w cur : string),
    noWhiteSpace w = true ->
    forallb (fun p => isSeparator (fst p) && isWord (snd p)) rest = true ->
    split_spaces_from false cur (words_with w rest)
    = JsString.rev_string "" (JsString.rev_string cur w) :: map snd rest.
Proof.
  induction rest as [|[sep w1] rest IH]; intros w cur Hw Hrest.
  - cbn [words_with map]. rewrite <- (append_nil_r w) at 1.
    rewrite (split_spaces_word w "" cur Hw). reflexivity.
  - cbn [forallb fst snd] in Hrest.
    apply Bool.andb_true_iff in Hrest. destruct Hrest as [H1 Hrest].
    apply Bool.andb_true_iff in H1. destruct H1 as [Hsep Hw1].
    cbn [words_with map snd].
    rewrite (split_spaces_word w _ cur Hw).
    rewrite (split_spaces_separator sep _ _ Hsep). f_equal.
    destruct (isWord_inv w1 Hw1) as (c & w1' & -> & Hc & Hnw).
    assert (Hstart : split_spaces_from true "" (words_with (String c w1') rest)
                     = split_spaces_from false "" (words_with (String c w1') rest)).
    { destruct rest as [|[sep' w2] rest]; cbn [words_with append split_spaces_from];
        rewrite Hc; reflexivity. }
    rewrite Hstart, (IH (String c w1') "" Hnw Hrest).
    rewrite rev_string_involutive. reflexivity.
Qed.

(** The words of a line are found again by [split]. *)
Lemma split_spaces_words_with (w : string) (rest : list (string * string)) :
  noWhiteSpace w = true ->
  forallb (fun p => isSeparator (fst p) && isWord (snd p)) rest = true ->
  split_spaces (words_with w rest) = w :: map snd rest.
Proof.
  intros Hw Hrest. unfold split_spaces.
  rewrite (split_spaces_words rest w "" Hw Hrest), rev_string_involutive.
  reflexivity.
Qed.

Lemma startsWith_append (p s : string) : JsString.startsWith (p ++ s) p = true.
Proof.
  unfold JsString.startsWith. induction p as [|c p IH].
  - destruct s; reflexivity.
  - cbn [append String.prefix]. destruct (ascii_dec c c); [exact IH | contradiction].
Qed.

Lemma filter_nonEmpty_words (ws : list string) :
  forallb isWord ws = true -> filter RSD.nonEmpty ws = ws.
Proof.
  induction ws as [|w ws IH]; intros H; [reflexivity|].
  cbn [forallb] in H. apply Bool.andb_true_iff in H. destruct H as [Hw H].
  destruct (isWord_inv w Hw) as (c & w' & -> & _).
  cbn [filter]. change (RSD.nonEmpty (String c w')) with true. cbv iota.
  rewrite (IH H). reflexivity.
Qed.

Lemma bone_of_lines_text (b : BoneText) :
  wellFormedBone b = true ->
  bone_of_lines parseInt10 parseFloat (boneName b) (boneParent b) (boneLength b)
    (words_with (boneResourceCount b) (boneResources b))
  = bone_of_text parseInt10 parseFloat b.
Proof.
  unfold wellFormedBone. intros H. apply Bool.andb_true_iff in H.
  destruct H as [Hcount Hres].
  destruct (isWord_inv _ Hcount) as (c & w' & Hc & _ & Hnw).
  unfold bone_of_lines, bone_of_text. cbv zeta.
  rewrite (split_spaces_words_with _ _ Hnw Hres).
  rewrite filter_nonEmpty_words.
  - reflexivity.
  - cbn [forallb]. rewrite Hcount. cbn [andb].
    clear -Hres. induction (boneResources b) as [|[sep w] l IH]; [reflexivity|].
    cbn [forallb fst snd map] in *.
    apply Bool.andb_true_iff in Hres. destruct Hres as [H1 Hres].
    apply Bool.andb_true_iff in H1. destruct H1 as [_ Hw].
    rewrite Hw, (IH Hres). reflexivity.
Qed.

Lemma bones_of_lines (bones : list BoneText) (tail : list string) :
  forallb wellFormedBone bones = true ->
  map (fun k =>
         bone_of_lines parseInt10 parseFloat
           (lineAt (flat_map bone_lines bones ++ tail) (4 * k))
           (lineAt (flat_map bone_lines bones ++ tail) (4 * k + 1))
           (lineAt (flat_map bone_lines bones ++ tail) (4 * k + 2))
           (lineAt (flat_map bone_lines bones ++ tail) (4 * k + 3)))
    (seq 0 (List.length bones))
  = map (bone_of_text parseInt10 parseFloat) bones.
Proof.
  induction bones as [|b bones IH]; intros Hwf; [reflexivity|].
  cbn [forallb] in Hwf. apply Bool.andb_true_iff in Hwf. destruct Hwf as [Hb Hwf].
  cbn [List.length]. change (seq 0 (S (List.length bones)))
    with (O :: seq 1 (List.length bones)).
  rewrite <- (seq_shift (List.length bones) 0). cbn [map]. rewrite map_map.
  f_equal.
  - change (lineAt (flat_map bone_lines (b :: bones) ++ tail) (4 * 0))
      with (boneName b).
    change (lineAt (flat_map bone_lines (b :: bones) ++ tail) (4 * 0 + 1))
      with (boneParent b).
    change (lineAt (flat_map bone_lines (b :: bones) ++ tail) (4 * 0 + 2))
      with (boneLength b).
    change (lineAt (flat_map bone_lines (b :: bones) ++ tail) (4 * 0 + 3))
      with (words_with (boneResourceCount b) (boneResources b)).
    exact (bone_of_lines_text b Hb).
  - rewrite <- (IH Hwf). apply map_ext. intros k.
    assert (Hshift : forall j,
              lineAt (flat_map bone_lines (b :: bones) ++ tail) (4 * S k + j)
              = lineAt (flat_map bone_lines bones ++ tail) (4 * k + j)).
    { intros j. replace (4 * S k + j)%nat with (S (S (S (S (4 * k + j))))) by lia.
      reflexivity. }
    rewrite <- (Nat.add_0_r (4 * S k)) at 1. rewrite !Hshift.
    rewrite Nat.add_0_r. reflexivity.
Qed.

(** X17: a skeleton text whose non-blank lines are the three directives,
    each followed by white space and its value, and then four lines for each
    declared bone, of which an array can hold 2^32 - 1, is read back as
    written: the skeleton name is the word after [:SKELETON], there are as
    many bones as the text declares and has,
    and each bone has the name and parent name of its first two lines and,
    as resources, the words of its fourth line after the count, whatever
    white space separates them.  The files the skeleton refers to are these
    resources in order, each with [.rsd] appended; the resource count
    written on the line is not used to find them. *)
Theorem parse_skeleton_well_formed
  (text sep0 headerBlock sep1 name sep2 count : string) (bones : list BoneText) :
  textLines text = skeleton_lines sep0 headerBlock sep1 name sep2 count bones ->
  isSeparator sep0 = true -> isWord headerBlock = true ->
  isSeparator sep1 = true -> isWord name = true ->
  isSeparator sep2 = true -> isWord count = true ->
  JsString.parseInt count = Some (Z.of_nat (List.length bones)) ->
  (Z.of_nat (List.length bones) <= 4294967295)%Z ->
  forallb wellFormedBone bones = true ->
  HRCFile_parse parseInt10 parseFloat text
  = Ok (HRC.mkHRCData (parseInt10 headerBlock) name (parseInt10 count)
          (map (bone_of_text parseInt10 parseFloat) bones)) /\
  HRCFile_getRelatedFiles
    (HRC.mkHRCData (parseInt10 headerBlock) name (parseInt10 count)
       (map (bone_of_text parseInt10 parseFloat) bones))
  = map (fun rsd => (rsd ++ ".rsd", "Resource Definition"))
      (flat_map (fun b => map snd (boneResources b)) bones).
Proof.
  intros Hlines Hs0 Hhb Hs1 Hname Hs2 Hcount Hn Hmax Hwf.
  assert (Htwo : forall key sep w,
            noWhiteSpace key = true -> isSeparator sep = true -> isWord w = true ->
            split_spaces (key ++ sep ++ w) = [key; w]).
  { intros key sep w Hkey Hsep Hw.
    apply (split_spaces_words_with key [(sep, w)] Hkey).
    cbn [forallb fst snd]. rewrite Hsep, Hw. reflexivity. }
  split.
  - pose proof (parse_skeleton_cases parseInt10 parseFloat text) as H.
    cbv zeta in H. rewrite Hlines in H. unfold skeleton_lines in H.
    change (lineAt (?a :: _) 0) with a in H.
    change (lineAt (_ :: ?a :: _) 1) with a in H.
    change (lineAt (_ :: _ :: ?a :: _) 2) with a in H.
    rewrite !startsWith_append in H.
    rewrite (Htwo ":HEADER_BLOCK" sep0 headerBlock eq_refl Hs0 Hhb) in H.
    rewrite (Htwo ":SKELETON" sep1 name eq_refl Hs1 Hname) in H.
    rewrite (Htwo ":BONES" sep2 count eq_refl Hs2 Hcount) in H.
    cbn [nth_error argument or_empty] in H. unfold iterations in H.
    rewrite Hn, Nat2Z.id in H.
    destruct H as [(E & _) | [(_ & E & _) | [(_ & _ & E & _)
                  | [(_ & _ & _ & Hover & _) | (_ & _ & _ & _ & E)]]]];
      try discriminate E; [unfold maxArrayLength in Hover; lia|].
    rewrite E.
    f_equal. f_equal.
    rewrite <- (bones_of_lines bones [] Hwf). rewrite app_nil_r.
    apply map_ext. intros k. f_equal; unfold lineAt;
      match goal with
      | |- nth (?n + 4 * k) (_ :: _ :: _ :: ?l) _ = nth ?m ?l _ =>
          replace (n + 4 * k)%nat with (S (S (S m))) by lia; reflexivity
      end.
  - unfold HRCFile_getRelatedFiles. cbn [HRC.bones].
    clear. induction bones as [|b bones IH]; [reflexivity|].
    cbn [map flat_map]. rewrite map_app, IH. reflexivity.
Qed.

End SkeletonWords.

Lemma parse_skeleton_well_formed_witness :
  HRCFile_parse (fun _ => 1%float) (fun _ => 1.5%float)
    one_bone_skeleton
  = Ok (HRC.mkHRCData 1%float "aaaa"%string 1%float
          [HRC.mkHRCBone "hip"%string "root"%string 1.5%float 1%float
             ["AAAB"%string; "AAAC"%string]]) /\
  HRCFile_getRelatedFiles
    (HRC.mkHRCData 1%float "aaaa"%string 1%float
       [HRC.mkHRCBone "hip"%string "root"%string 1.5%float 1%float
          ["AAAB"%string; "AAAC"%string]])
  = [("AAAB.rsd"%string, "Resource Definition"%string);
     ("AAAC.rsd"%string, "Resource Definition"%string)].
Proof.
  assert (Hmax : (Z.of_nat 1 <= 4294967295)%Z) by (vm_compute; discriminate).
  exact (parse_skeleton_well_formed (fun _ => 1%float) (fun _ => 1.5%float)
           one_bone_skeleton
           " "%string "2"%string "  "%string "aaaa"%string " "%string "1"%string
           [mkBoneText "hip"%string "root"%string "1.5"%string "1"%string
              [(" "%string, "AAAB"%string); (String "009" EmptyString, "AAAC"%string)]]
           eq_refl eq_refl eq_refl eq_refl eq_refl eq_refl eq_refl eq_refl Hmax
           eq_refl).
Defined.

(** ** The alternative layout is the standard one without its padding *)

Section Padding.

Variables a c : Uint8Array.
Hypothesis Ha : List.length a = 44%nat.

Lemma byteLength_padded :
  byteLength (a ++ [x00; x00; x00; x00] ++ c) = byteLength (a ++ c) + 4.
Proof.
  unfold byteLength. rewrite !length_app. cbn [List.length]. lia.
Qed.

Lemma u8_at_padded_low (i : Z) :
  0 <= i < 44 ->
  u8_at (a ++ [x00; x00; x00; x00] ++ c) i = u8_at (a ++ c) i.
Proof.
  intros Hi. unfold u8_at. rewrite !app_nth1 by lia. reflexivity.
Qed.

Lemma u8_at_padded_mid (i : Z) :
  44 <= i < 48 -> u8_at (a ++ [x00; x00; x00; x00] ++ c) i = 0.
Proof.
  intros Hi. unfold u8_at. rewrite app_nth2 by lia.
  rewrite app_nth1 by (cbn [List.length]; lia).
  rewrite Ha.
  destruct (Z.to_nat i - 44)%nat as [|[|[|[|k]]]] eqn:Hk; try reflexivity; lia.
Qed.

Lemma u8_at_padded_high (i : Z) :
  44 <= i ->
  u8_at (a ++ [x00; x00; x00; x00] ++ c) (i + 4) = u8_at (a ++ c) i.
Proof.
  intros Hi. unfold u8_at. rewrite !app_nth2 by (cbn [List.length]; lia).
  f_equal. f_equal. cbn [List.length]. lia.
Qed.

Lemma u32_at_padded_low (i : Z) :
  0 <= i -> i + 4 <= 44 ->
  u32_at (a ++ [x00; x00; x00; x00] ++ c) i = u32_at (a ++ c) i.
Proof.
  intros H0 H1. unfold u32_at. rewrite !u8_at_padded_low by lia. reflexivity.
Qed.

Lemma u32_at_padded_mid : u32_at (a ++ [x00; x00; x00; x00] ++ c) 44 = 0.
Proof.
  unfold u32_at. rewrite !u8_at_padded_mid by lia. reflexivity.
Qed.

Lemma u32_at_padded_high (i : Z) :
  44 <= i ->
  u32_at (a ++ [x00; x00; x00; x00] ++ c) (i + 4) = u32_at (a ++ c) i.
Proof.
  intros Hi. unfold u32_at.
  replace (i + 4 + 1) with (i + 1 + 4) by lia.
  replace (i + 4 + 2) with (i + 2 + 4) by lia.
  replace (i + 4 + 3) with (i + 3 + 4) by lia.
  rewrite !u8_at_padded_high by lia. reflexivity.
Qed.

Lemma slice_padded_high (s e : Z) :
  44 <= s ->
  slice (a ++ [x00; x00; x00; x00] ++ c) (s + 4) (e + 4) = slice (a ++ c) s e.
Proof.
  intros Hs. unfold slice.
  replace (e + 4 - (s + 4)) with (e - s) by lia. f_equal.
  rewrite !skipn_app.
  rewrite (skipn_all2 a) by lia. rewrite (skipn_all2 a) by lia.
  rewrite (skipn_all2 [x00; x00; x00; x00]) by (cbn [List.length]; lia).
  cbn [app List.length]. f_equal. lia.
Qed.

End Padding.

Lemma pad_to_standard_split (buf : Uint8Array) :
  44 <= byteLength buf ->
  exists a c, List.length a = 44%nat /\ buf = a ++ c /\
              pad_to_standard buf = a ++ [x00; x00; x00; x00] ++ c.
Proof.
  intros Hlen. exists (firstn 44 buf), (skipn 44 buf).
  split; [|split].
  - rewrite length_firstn. unfold byteLength in Hlen. lia.
  - symmetry. apply firstn_skipn.
  - reflexivity.
Qed.

(** The header of the padded buffer is the header of the buffer, read in
    the standard layout. *)
Lemma parse_header_padded (buf : Uint8Array) (h : Tex.TexData) :
  u32_at buf 44 <> 0 ->
  Parser.parse Tex.texHeaderParser buf = Some h ->
  Parser.parse Tex.texHeaderParser (pad_to_standard buf)
  = Some (with_layout h 0 236) /\
  Tex._headerSize h = 232 /\
  byteLength (pad_to_standard buf) = byteLength buf + 4 /\
  forall s e, 44 <= s ->
    slice (pad_to_standard buf) (s + 4) (e + 4) = slice buf s e.
Proof.
  intros Halt. rewrite !texHeaderParser_layout.
  unfold Tex.header_by_probe, Tex.probe.
  destruct (Z.ltb_spec (byteLength buf) 48) as [|H48]; [discriminate|].
  destruct (pad_to_standard_split buf ltac:(lia)) as (a & c & Ha & -> & ->).
  rewrite (byteLength_padded a c Ha), (u32_at_padded_mid a c Ha).
  destruct (Z.ltb_spec (byteLength (a ++ c) + 4) 48); [lia|].
  unfold Tex.layout_of. destruct (Z.eqb_spec (u32_at (a ++ c) 44) 0) as [|_];
    [contradiction|].
  change (0 =? 0) with true. cbv iota.
  unfold Tex.read_layout, Tex.read_pixelFormat. cbn [Tex.headerSize].
  rewrite (byteLength_padded a c Ha).
  destruct (Z.ltb_spec (byteLength (a ++ c)) (232 - 36)); [discriminate|].
  destruct (Z.ltb_spec (byteLength (a ++ c) + 4) (236 - 36)); [lia|].
  intros Hh. injection Hh as <-. unfold with_layout.
  set (p := a ++ [x00; x00; x00; x00] ++ c).
  cbn -[u32_at Z.add Z.sub]. subst p.
  split; [|split; [|split]].
  4:{ intros s e Hs. exact (slice_padded_high a c Ha s e Hs). }
  3:{ reflexivity. }
  2:{ reflexivity. }
  - repeat match goal with
           | |- context [u32_at (a ++ [x00; x00; x00; x00] ++ c) ?i] =>
               first [ rewrite (u32_at_padded_low a c Ha i) by lia
                     | replace i with ((i - 4) + 4) by lia;
                       rewrite (u32_at_padded_high a c Ha (i - 4)) by lia ]
           end.
    rewrite (u32_at_padded_mid a c Ha).
    repeat match goal with
           | |- context [u32_at (a ++ c) ?i] =>
               progress (let v := eval vm_compute in i in change i with v)
           end.
    reflexivity.
Qed.

Ltac slices_of_padded buf Hslice :=
  repeat match goal with
         | |- context [slice (pad_to_standard buf) ?s ?e] =>
             replace (slice (pad_to_standard buf) s e)
               with (slice buf (s - 4) (e - 4))
               by (rewrite <- (Hslice (s - 4) (e - 4)) by lia; f_equal; lia)
         end.

Lemma Ok_injective {E A : Type} (a b : A) : @Ok E A a = Ok b -> a = b.
Proof. intros H. injection H as ->. reflexivity. Qed.

Ltac same_texture :=
  let Hok := fresh "Hok" in
  intros Hok; apply Ok_injective in Hok; rewrite <- Hok; f_equal;
  unfold with_layout, Tex.with_colorKeyArray, Tex.with_pixels, Tex.with_palette;
  cbn [Tex.version Tex.colorKeyFlag Tex.minBitsPerColor Tex.maxBitsPerColor
       Tex.minAlphaBits Tex.maxAlphaBits Tex.minBitsPerPixel Tex.maxBitsPerPixel
       Tex.numPalettes Tex.colorsPerPalette Tex.bitDepth Tex.width Tex.height
       Tex.bytesPerRow Tex.paletteFlag Tex.bitsPerIndex Tex.indexedTo8bit
       Tex.paletteSize Tex.colorsPerPaletteAgain Tex.bitsPerPixel
       Tex.bytesPerPixel Tex.pixelFormat Tex.colorKeyArrayFlag
       Tex.referenceAlpha Tex.paletteIndex Tex.palette Tex.pixels
       Tex.colorKeyArray Tex._formatIndicator Tex._headerSize];
  repeat match goal with
         | |- context [slice ?b ?s ?e] =>
             progress (ring_simplify s e)
         end;
  reflexivity.

(** X18: the alternative layout is the standard layout without the four
    padding bytes at 0x2C: when a buffer in the alternative layout decodes,
    the same buffer with four zero bytes inserted at 0x2C decodes, in the
    standard layout, to the same texture: every header field, the palette,
    the pixels and the colour-key array are equal; only the recorded
    format indicator (now 0) and header size (now 236) differ. *)
Theorem alternative_layout_pads_to_standard (buf : Uint8Array) (t : Tex.TexData) :
  u32_at buf 44 <> 0 ->
  Tex.TexFile_constructor buf = Ok t ->
  Tex.TexFile_constructor (pad_to_standard buf) = Ok (with_layout t 0 236) /\
  Tex._headerSize t = 232 /\ Tex._formatIndicator t = Tex.numPalettes t.
Proof.
  intros Halt Hok.
  destruct (constructor_Ok_inv buf t Hok) as (h & Hp & Hv & Hlen & Hdec).
  destruct (parse_header_padded buf h Halt Hp) as (Hp' & Hhs & Hlen' & Hslice).
  destruct (parsed_header_shape buf h Hp) as (_ & Hnp & Hps & _).
  assert (Hx : 0 <= Tex.width h * Tex.height h * Tex.bytesPerPixel h).
  { apply isValidTexData_true in Hv. nia. }
  split.
  2:{ destruct Hdec as (_ & _ & _ & _ & _ & _ & Hn & _ & _ & _ & Hfi & Hsz & _).
      rewrite Hsz, Hfi, Hn. split; [exact Hhs|].
      rewrite texHeaderParser_layout in Hp. unfold Tex.header_by_probe in Hp.
      destruct (Tex.probe buf) as [v|]; [|discriminate].
      unfold Tex.read_layout in Hp. destruct (byteLength buf <? _); [discriminate|].
      injection Hp as <-. cbn [Tex._headerSize] in Hhs.
      cbn [Tex._formatIndicator Tex.numPalettes]. rewrite Hhs. reflexivity. }
  clear Hdec. revert Hok. unfold Tex.TexFile_constructor. rewrite Hp', Hp.
  change (Tex.isValidTexData (with_layout h 0 236)) with (Tex.isValidTexData h).
  rewrite Hv. cbn [negb]. rewrite Hlen'.
  cbn [with_layout Tex.paletteFlag Tex._headerSize Tex.paletteSize].
  unfold Tex.requiredLength, Tex.paletteBytes, Tex.pixelBytes in Hlen.
  rewrite Hhs in *.
  destruct (Z.eqb_spec (Tex.paletteFlag h) 0) as [Hflag|Hflag]; cbn [negb bindR].
  - cbn [with_layout Tex.width Tex.height Tex.bytesPerPixel
         Tex.colorKeyArrayFlag Tex.with_pixels Tex.with_palette Tex.numPalettes].
    slices_of_padded buf Hslice.
    destruct (Z.ltb_spec (byteLength buf)
                (232 + Tex.width h * Tex.height h * Tex.bytesPerPixel h)); [lia|].
    destruct (Z.ltb_spec (byteLength buf + 4)
                (236 + Tex.width h * Tex.height h * Tex.bytesPerPixel h)); [lia|].
    destruct (Z.eqb_spec (Tex.colorKeyArrayFlag h) 0) as [Hck|Hck]; cbn [negb];
      [same_texture|].
    destruct (Z.leb_spec
                (232 + Tex.width h * Tex.height h * Tex.bytesPerPixel h
                 + Tex.numPalettes h) (byteLength buf));
      destruct (Z.leb_spec
                  (236 + Tex.width h * Tex.height h * Tex.bytesPerPixel h
                   + Tex.numPalettes h) (byteLength buf + 4));
      try lia; same_texture.
  - cbn [with_layout Tex.width Tex.height Tex.bytesPerPixel
         Tex.colorKeyArrayFlag Tex.with_pixels Tex.with_palette Tex.numPalettes].
    destruct (Z.ltb_spec (byteLength buf) (232 + Tex.paletteSize h * 4)); [lia|].
    destruct (Z.ltb_spec (byteLength buf + 4) (236 + Tex.paletteSize h * 4)); [lia|].
    cbn [bindR with_layout Tex.width Tex.height Tex.bytesPerPixel
         Tex.colorKeyArrayFlag Tex.with_pixels Tex.with_palette Tex.numPalettes].
    slices_of_padded buf Hslice.
    destruct (Z.ltb_spec (byteLength buf)
                (232 + Tex.paletteSize h * 4
                 + Tex.width h * Tex.height h * Tex.bytesPerPixel h)); [lia|].
    destruct (Z.ltb_spec (byteLength buf + 4)
                (236 + Tex.paletteSize h * 4
                 + Tex.width h * Tex.height h * Tex.bytesPerPixel h)); [lia|].
    destruct (Z.eqb_spec (Tex.colorKeyArrayFlag h) 0) as [Hck|Hck]; cbn [negb];
      [same_texture|].
    destruct (Z.leb_spec
                (232 + Tex.paletteSize h * 4
                 + Tex.width h * Tex.height h * Tex.bytesPerPixel h
                 + Tex.numPalettes h) (byteLength buf));
      destruct (Z.leb_spec
                  (236 + Tex.paletteSize h * 4
                   + Tex.width h * Tex.height h * Tex.bytesPerPixel h
                   + Tex.numPalettes h) (byteLength buf + 4));
      try lia; same_texture.
Qed.

Lemma alternative_layout_pads_to_standard_witness :
  exists t : Tex.TexData,
    Tex.TexFile_constructor Samples.alternative_2x1 = Ok t /\
    Tex.TexFile_constructor (pad_to_standard Samples.alternative_2x1)
    = Ok (with_layout t 0 236).
Proof.
  assert (Halt : u32_at Samples.alternative_2x1 44 <> 0)
    by (vm_compute; discriminate).
  destruct (Tex.TexFile_constructor Samples.alternative_2x1) as [t|e] eqn:Hok;
    [|vm_compute in Hok; discriminate].
  exists t. split; [reflexivity|].
  exact (proj1 (alternative_layout_pads_to_standard _ t Halt Hok)).
Defined.

(** ** Re-encoding a decoded texture *)

Lemma Uint8Array_set_returns (target source : Uint8Array) (offset : Z) :
  0 <= offset -> offset + byteLength source <= byteLength target ->
  exists out, Uint8Array_set target source offset = Ok out /\
              byteLength out = byteLength target.
Proof.
  intros H0 Hfit. unfold Uint8Array_set.
  destruct (Z.ltb_spec offset 0); [lia|].
  destruct (Z.ltb_spec (byteLength target) (offset + byteLength source)); [lia|].
  cbn [orb]. eexists. split; [reflexivity|].
  unfold byteLength in *. rewrite !length_app, length_firstn, length_skipn. lia.
Qed.

Lemma byteLength_le32 (v : Z) : byteLength (le32 v) = 4.
Proof. reflexivity. Qed.

Lemma writes_within_view_setUint32 (v : Z) :
  writes_within (Tex.view_setUint32 v) 0 4.
Proof.
  intros out off H0 Hroom. unfold Tex.view_setUint32, setUint32.
  destruct (Z.ltb_spec off 0); [lia|].
  destruct (Z.ltb_spec (byteLength out) (off + 4)); [lia|]. cbn [orb].
  destruct (Uint8Array_set_returns out (le32 v) off H0) as (out' & -> & Hl).
  { rewrite byteLength_le32. lia. }
  cbn [bindR]. exists out'. rewrite Z.add_0_r. split; [reflexivity | exact Hl].
Qed.

Lemma writes_within_offset_add (n : Z) :
  writes_within (Tex.offset_add n) n 0.
Proof.
  intros out off _ _. unfold Tex.offset_add. exists out. split; reflexivity.
Qed.

Lemma writes_within_andThen (w1 w2 : Tex.Writer) (n1 n2 r1 r2 n r : Z) :
  writes_within w1 n1 r1 -> writes_within w2 n2 r2 ->
  0 <= n1 -> n = n1 + n2 -> r = Z.max r1 (n1 + r2) ->
  writes_within (Tex.andThen w1 w2) n r.
Proof.
  intros H1 H2 Hn1 -> -> out off H0 Hroom. unfold Tex.andThen.
  destruct (H1 out off H0 ltac:(lia)) as (o1 & -> & Hl1). cbn [bindR].
  destruct (H2 o1 (off + n1) ltac:(lia) ltac:(lia)) as (o2 & E2 & Hl2).
  exists o2. rewrite E2. split; [f_equal; f_equal; lia | congruence].
Qed.

Lemma writes_within_weaken (w : Tex.Writer) (n r n' r' : Z) :
  writes_within w n r -> n = n' -> r <= r' -> writes_within w n' r'.
Proof.
  intros H <- Hr out off H0 Hroom. apply H; lia.
Qed.

Ltac writes_chain :=
  lazymatch goal with
  | |- writes_within (Tex.andThen _ _) _ _ =>
      eapply writes_within_andThen;
      [writes_chain | writes_chain | vm_compute; discriminate
      | reflexivity | reflexivity]
  | |- writes_within (Tex.view_setUint32 _) _ _ => apply writes_within_view_setUint32
  | |- writes_within (Tex.offset_add _) _ _ => apply writes_within_offset_add
  end.

(** The header fits in the first 232 bytes and leaves the cursor at 252. *)
Lemma written_header_returns (d : Tex.TexData) :
  writes_within
    (Tex.andThen
       (Tex.andThen (Tex.writeHeader d) (Tex.writePixelFormat (Tex.pixelFormat d)))
       (Tex.writeTrailer d))
    252 232.
Proof.
  eapply writes_within_weaken.
  - unfold Tex.writeHeader, Tex.writePixelFormat, Tex.writeTrailer. writes_chain.
  - vm_compute. reflexivity.
  - vm_compute. discriminate.
Qed.

Lemma out_set_cases (a out : Uint8Array) (off : Z) :
  0 <= off ->
  (off + byteLength a <= byteLength out /\
   exists out', Tex.out_set a (out, off) = Ok (out', off) /\
                byteLength out' = byteLength out) \/
  (byteLength out < off + byteLength a /\
   Tex.out_set a (out, off) = Err RangeError).
Proof.
  intros H0. unfold Tex.out_set.
  destruct (Z_le_gt_dec (off + byteLength a) (byteLength out)) as [Hfit|Hover].
  - left. split; [exact Hfit|].
    destruct (Uint8Array_set_returns out a off H0 Hfit) as (out' & -> & Hl).
    exists out'. split; [reflexivity | exact Hl].
  - right. split; [lia|]. unfold Uint8Array_set.
    destruct (Z.ltb_spec off 0); [lia|].
    destruct (Z.ltb_spec (byteLength out) (off + byteLength a)); [|lia].
    reflexivity.
Qed.

(** The bytes [writePayload] puts after the header: the palette and the
    colour-key array count when they are held and flagged. *)
Lemma writePayload_cases (d : Tex.TexData) (out : Uint8Array) (off : Z) :
  0 <= off ->
  let written :=
    match Tex.palette d with
    | Some pal => if negb (Tex.paletteFlag d =? 0) then byteLength pal else 0
    | None => 0
    end in
  let keys :=
    match Tex.colorKeyArray d with
    | Some cka => if negb (Tex.colorKeyArrayFlag d =? 0) then byteLength cka else 0
    | None => 0
    end in
  (off + written + byteLength (Tex.pixels d) + keys <= byteLength out ->
   exists out' off',
     Tex.writePayload d (out, off) = Ok (out', off') /\
     byteLength out' = byteLength out) /\
  (byteLength out < off + written + byteLength (Tex.pixels d) + keys ->
   Tex.writePayload d (out, off) = Err RangeError).
Proof.
  intros H0 written keys.
  pose proof (byteLength_nonneg (Tex.pixels d)) as Hpx.
  assert (Hkeys : 0 <= keys).
  { subst keys. destruct (Tex.colorKeyArray d) as [cka|]; [|lia].
    destruct (negb (Tex.colorKeyArrayFlag d =? 0)); [apply byteLength_nonneg | lia]. }
  assert (Hpal :
            (exists o1,
               (match Tex.palette d with
                | Some pal =>
                    if negb (Tex.paletteFlag d =? 0)
                    then Tex.andThen (Tex.out_set pal) (Tex.offset_add (byteLength pal))
                    else Tex.skip_write
                | None => Tex.skip_write
                end) (out, off) = Ok (o1, off + written) /\
               byteLength o1 = byteLength out) \/
            (byteLength out < off + written /\
             (match Tex.palette d with
              | Some pal =>
                  if negb (Tex.paletteFlag d =? 0)
                  then Tex.andThen (Tex.out_set pal) (Tex.offset_add (byteLength pal))
                  else Tex.skip_write
              | None => Tex.skip_write
              end) (out, off) = Err RangeError)).
  { subst written. destruct (Tex.palette d) as [pal|].
    - destruct (negb (Tex.paletteFlag d =? 0)).
      + unfold Tex.andThen.
        destruct (out_set_cases pal out off H0) as [(Hfit & o1 & -> & Hl) | (Hover & ->)].
        * left. exists o1. split; [reflexivity | exact Hl].
        * right. split; [exact Hover | reflexivity].
      + left. exists out. rewrite Z.add_0_r. split; reflexivity.
    - left. exists out. rewrite Z.add_0_r. split; reflexivity. }
  assert (Hw : 0 <= written).
  { subst written. destruct (Tex.palette d) as [pal|]; [|lia].
    destruct (negb (Tex.paletteFlag d =? 0)); [apply byteLength_nonneg | lia]. }
  unfold Tex.writePayload.
  match goal with
  | |- context [Tex.andThen (Tex.andThen (Tex.andThen ?p _) _) _] =>
      set (P := p) in *
  end.
  unfold Tex.andThen.
  destruct Hpal as [(o1 & -> & Hl1) | (Hover1 & ->)]; cbn [bindR].
  2:{ split; [lia | reflexivity]. }
  destruct (out_set_cases (Tex.pixels d) o1 (off + written) ltac:(lia))
    as [(Hfit2 & o2 & -> & Hl2) | (Hover2 & ->)]; cbn [bindR].
  2:{ split; [lia | reflexivity]. }
  cbv beta iota delta [Tex.offset_add]. cbn [bindR].
  subst keys. destruct (Tex.colorKeyArray d) as [cka|].
  - destruct (negb (Tex.colorKeyArrayFlag d =? 0)).
    + destruct (out_set_cases cka o2 (off + written + byteLength (Tex.pixels d))
                  ltac:(lia)) as [(Hfit3 & o3 & -> & Hl3) | (Hover3 & ->)].
      * split; [|lia]. intros _. exists o3, (off + written + byteLength (Tex.pixels d)).
        split; [reflexivity | congruence].
      * split; [lia | reflexivity].
    + split; [|lia]. intros _. unfold Tex.skip_write.
      exists o2, (off + written + byteLength (Tex.pixels d)).
      split; [reflexivity | congruence].
  - split; [|lia]. intros _. unfold Tex.skip_write.
    exists o2, (off + written + byteLength (Tex.pixels d)).
    split; [reflexivity | congruence].
Qed.

(** When [writeFile] returns, on any texture structure: the computed size
    must hold the 252 bytes the cursor passes over and the arrays held. *)
Lemma writeFile_cases (d : Tex.TexData) :
  232 <= Tex.totalSize d ->
  let need :=
    252
    + match Tex.palette d with
      | Some pal => if negb (Tex.paletteFlag d =? 0) then byteLength pal else 0
      | None => 0
      end
    + byteLength (Tex.pixels d)
    + match Tex.colorKeyArray d with
      | Some cka => if negb (Tex.colorKeyArrayFlag d =? 0) then byteLength cka else 0
      | None => 0
      end in
  (need <= Tex.totalSize d -> exists out, Tex.writeFile d = Ok out) /\
  (Tex.totalSize d < need -> Tex.writeFile d = Err RangeError).
Proof.
  intros Htotal need.
  assert (Hhead : exists o1,
            byteLength o1 = Tex.totalSize d /\
            Tex.writeFile d = (st <~ Tex.writePayload d (o1, 252) ;; Ok (fst st))).
  { unfold Tex.writeFile, Uint8Array_new.
    destruct (Z.ltb_spec (Tex.totalSize d) 0); [lia|]. cbn [bindR].
    unfold Tex.andThen at 1.
    destruct (written_header_returns d (zeros (Tex.totalSize d)) 0 ltac:(lia))
      as (o1 & -> & Hl1).
    { rewrite byteLength_zeros by lia. lia. }
    rewrite byteLength_zeros in Hl1 by lia. cbn [bindR Z.add].
    exists o1. split; [exact Hl1 | reflexivity]. }
  destruct Hhead as (o1 & Hl1 & ->).
  destruct (writePayload_cases d o1 252 ltac:(lia)) as (Hfits & Hover).
  rewrite Hl1 in Hfits, Hover. subst need. split.
  - intros Hneed. destruct (Hfits Hneed) as (out' & off' & E & _).
    exists out'. rewrite E. reflexivity.
  - intros Hneed. rewrite (Hover Hneed). reflexivity.
Qed.

(** X19: [writeFile] throws on almost every texture the constructor
    returns.  Its cursor stands at 252 after the header while the output was
    sized for a 236-byte header, so the arrays only fit when the colour-key
    array that the size accounts for is at least 16 bytes and is not held:
    on a decoded texture [writeFile] throws [RangeError] whenever the
    colour-key flag is 0, fewer than 16 palettes are declared or the
    colour-key array was read, and it returns, with an output longer than
    the decoded buffer, in the one remaining case. *)
Theorem writeFile_of_decoded (buf : Uint8Array) (t : Tex.TexData) :
  Tex.TexFile_constructor buf = Ok t ->
  (Tex.colorKeyArrayFlag t = 0 \/ Tex.numPalettes t < 16 \/
   Tex.colorKeyArray t <> None ->
   Tex.writeFile t = Err RangeError) /\
  (Tex.colorKeyArrayFlag t <> 0 -> 16 <= Tex.numPalettes t ->
   Tex.colorKeyArray t = None ->
   exists out, Tex.writeFile t = Ok out /\ byteLength buf < byteLength out).
Proof.
  intros Hok.
  destruct (constructor_Ok_inv buf t Hok) as (h & Hp & Hv & Hlen & Hdec).
  destruct (decoded_payload buf t Hok) as (Hn & Hbpp & Hpix & Hnp & _).
  destruct (parsed_header_shape buf h Hp) as (Hhs & Hnph & Hps & _).
  destruct Hdec as (Hw & Hh & _ & Hb & Hpf & Hpsz & Hnum & _ & Hckf & _ & _ & Hhsz
                    & Hpal & _ & Hcka).
  assert (Hx : Tex.pixelBytes h = Tex.width t * Tex.height t * Tex.bytesPerPixel t).
  { unfold Tex.pixelBytes. rewrite Hw, Hh, Hb. reflexivity. }
  assert (Hpos : 0 < Tex.width t * Tex.height t * Tex.bytesPerPixel t) by nia.
  assert (Hwritten :
            match Tex.palette t with
            | Some pal => if negb (Tex.paletteFlag t =? 0) then byteLength pal else 0
            | None => 0
            end
            = (if negb (Tex.paletteFlag t =? 0) then Tex.paletteSize t * 4 else 0)).
  { rewrite Hpal, Hpf, Hpsz. unfold Tex.requiredLength, Tex.paletteBytes in *.
    destruct (Tex.paletteFlag h =? 0) eqn:Hflag; cbn [negb]; [reflexivity|].
    rewrite byteLength_slice; lia. }
  assert (Hkeys :
            match Tex.colorKeyArray t with
            | Some cka =>
                if negb (Tex.colorKeyArrayFlag t =? 0) then byteLength cka else 0
            | None => 0
            end
            = match Tex.colorKeyArray t with
              | Some _ => Tex.numPalettes t
              | None => 0
              end /\
            (forall cka, Tex.colorKeyArray t = Some cka -> Tex.colorKeyArrayFlag t <> 0)).
  { rewrite Hcka, Hckf, Hnum. unfold Tex.requiredLength, Tex.paletteBytes in *.
    destruct (Z.eqb_spec (Tex.colorKeyArrayFlag h) 0) as [|Hnz]; cbn [negb andb].
    - split; [reflexivity | discriminate].
    - destruct (Z.leb_spec
                  (Tex._headerSize h
                   + (if Tex.paletteFlag h =? 0 then 0 else Tex.paletteSize h * 4)
                   + Tex.pixelBytes h + Tex.numPalettes h) (byteLength buf)).
      + split; [|intros _ _; exact Hnz].
        rewrite byteLength_slice; [lia | | lia].
        destruct (Tex.paletteFlag h =? 0); lia.
      + split; [reflexivity | discriminate]. }
  destruct Hkeys as (Hkeys & Hflagged).
  assert (Htotal : Tex.totalSize t
                   = 236
                     + (if negb (Tex.paletteFlag t =? 0) then Tex.paletteSize t * 4 else 0)
                     + Tex.width t * Tex.height t * Tex.bytesPerPixel t
                     + (if negb (Tex.colorKeyArrayFlag t =? 0)
                        then Tex.numPalettes t else 0)) by reflexivity.
  assert (Hpb : 0 <= (if negb (Tex.paletteFlag t =? 0) then Tex.paletteSize t * 4 else 0)).
  { rewrite Hpsz. destruct (negb (Tex.paletteFlag t =? 0)); lia. }
  assert (Hkb : 0 <= (if negb (Tex.colorKeyArrayFlag t =? 0)
                      then Tex.numPalettes t else 0)).
  { destruct (negb (Tex.colorKeyArrayFlag t =? 0)); lia. }
  destruct (writeFile_cases t ltac:(lia)) as (Hfits & Hover).
  rewrite Hwritten, Hkeys, Hpix, Htotal in Hfits, Hover.
  split.
  - intros Hcond. apply Hover.
    destruct (Tex.colorKeyArray t) as [cka|] eqn:Ecka.
    + specialize (Hflagged cka eq_refl).
      destruct (Z.eqb_spec (Tex.colorKeyArrayFlag t) 0); [contradiction|].
      cbn [negb]. lia.
    + destruct (Z.eqb_spec (Tex.colorKeyArrayFlag t) 0) as [|Hnz]; cbn [negb]; [lia|].
      destruct Hcond as [Hc | [Hc | Hc]]; [contradiction | lia | contradiction].
  - intros Hnz H16 Hnone. rewrite Hnone in Hfits.
    destruct (Z.eqb_spec (Tex.colorKeyArrayFlag t) 0); [contradiction|].
    cbn [negb] in Hfits. destruct (Hfits ltac:(lia)) as (out & Hout).
    exists out. split; [exact Hout|].
    exact (proj1 (writeFile_Ok_longer buf out t Hok Hout)).
Qed.

Lemma writeFile_of_decoded_witness :
  exists t : Tex.TexData,
    Tex.TexFile_constructor Samples.rgb555_1x1 = Ok t /\
    Tex.colorKeyArrayFlag t = 0 /\
    Tex.writeFile t = Err RangeError.
Proof.
  destruct (Tex.TexFile_constructor Samples.rgb555_1x1) as [t|e] eqn:Hok;
    [|vm_compute in Hok; discriminate].
  assert (Hck : Tex.colorKeyArrayFlag t = 0)
    by (vm_compute in Hok; injection Hok as <-; reflexivity).
  exists t. split; [reflexivity|]. split; [exact Hck|].
  exact (proj1 (writeFile_of_decoded _ t Hok) (or_introl Hck)).
Defined.

Section DescriptorText.
Local Open Scope string_scope.

Lemma fold_texture_lines (entries : list (string * string)) :
  forall data : RSD.RSDData,
    Forall (fun e => isIndex (fst e) = true /\ isReference (snd e) = true) entries ->
    RSD.textures
      (fold_left RSD.parse_line
         (map (fun e => texture_line (fst e) (snd e)) entries) data)
    = (RSD.textures data ++ map snd entries)%list /\
    RSD.id (fold_left RSD.parse_line
              (map (fun e => texture_line (fst e) (snd e)) entries) data)
    = RSD.id data /\
    RSD.plyFile (fold_left RSD.parse_line
                   (map (fun e => texture_line (fst e) (snd e)) entries) data)
    = RSD.plyFile data /\
    RSD.matFile (fold_left RSD.parse_line
                   (map (fun e => texture_line (fst e) (snd e)) entries) data)
    = RSD.matFile data /\
    RSD.grpFile (fold_left RSD.parse_line
                   (map (fun e => texture_line (fst e) (snd e)) entries) data)
    = RSD.grpFile data /\
    RSD.numTextures (fold_left RSD.parse_line
                       (map (fun e => texture_line (fst e) (snd e)) entries) data)
    = RSD.numTextures data.
Proof.
  induction entries as [|[index ref] entries IH]; intros data Hall.
  - cbn [map fold_left]. rewrite app_nil_r. repeat split.
  - inversion Hall as [|e es [Hi Hr] Hrest]; subst. cbn [fst snd] in Hi, Hr.
    cbn [map fold_left fst snd].
    rewrite (parse_line_texture_line data index ref Hi Hr).
    destruct (IH (RSD.mkRSDData (RSD.id data) (RSD.plyFile data) (RSD.matFile data)
                    (RSD.grpFile data) (RSD.numTextures data)
                    (RSD.textures data ++ [ref])%list) Hrest)
      as (H1 & H2 & H3 & H4 & H5 & H6).
    rewrite H1, H2, H3, H4, H5, H6.
    cbn [RSD.id RSD.plyFile RSD.matFile RSD.grpFile RSD.numTextures RSD.textures].
    rewrite <- app_assoc. repeat split.
Qed.

Lemma RSDData_eta (d : RSD.RSDData) :
  d = RSD.mkRSDData (RSD.id d) (RSD.plyFile d) (RSD.matFile d) (RSD.grpFile d)
        (RSD.numTextures d) (RSD.textures d).
Proof. destruct d; reflexivity. Qed.

(** X20: a descriptor text with the usual lines is read back as written.
    When the non-blank lines of a text are an identifier line starting with
    [@RSD], the [PLY=], [MAT=] and [GRP=] lines, an [NTEX=] line with a
    decimal count of magnitude at most 2^53, which a JavaScript number holds
    exactly, and texture lines [TEX[i]=ref], the parser returns the
    identifier line as it is, the three references, the count, and the
    texture references in line order; the model file name and the texture
    file names then follow from these by the change of extension. *)
Theorem parse_descriptor_well_formed
  (text id ply mat grp count : string) (n : Z) (entries : list (string * string)) :
  textLines text = descriptor_lines id ply mat grp count entries ->
  JsString.startsWith id "@RSD" = true ->
  JsString.parseInt count = Some n ->
  (- 2 ^ 53 <= n <= 2 ^ 53)%Z ->
  Forall (fun e => isIndex (fst e) = true /\ isReference (snd e) = true) entries ->
  RSD.parse text = RSD.mkRSDData id ply mat grp n (map snd entries) /\
  RSDFile_getPModelFilename (RSD.parse text)
  = (if String.eqb ply "" then "" else replace_extension ".PLY" ".P" ply) /\
  RSDFile_getTextureFilenames (RSD.parse text)
  = map (fun e => replace_extension ".TIM" ".TEX" (snd e)) entries.
Proof.
  intros Hlines Hid Hcount Hexact Hentries.
  assert (Hparse : RSD.parse text = RSD.mkRSDData id ply mat grp n (map snd entries)).
  { unfold RSD.parse. cbv zeta. fold (textLines text). rewrite Hlines.
    unfold descriptor_lines. cbn [fold_left].
    assert (Hpre : forall v, String.prefix "" v = true) by (intros []; reflexivity).
    assert (E1 : RSD.parse_line (RSD.mkRSDData "" "" "" "" 0 []) id
                 = RSD.mkRSDData id "" "" "" 0 []).
    { unfold RSD.parse_line. rewrite Hid. reflexivity. }
    rewrite E1.
    assert (E2 : RSD.parse_line (RSD.mkRSDData id "" "" "" 0 []) ("PLY=" ++ ply)
                 = RSD.mkRSDData id ply "" "" 0 []).
    { unfold RSD.parse_line, JsString.startsWith. cbn. rewrite Hpre. reflexivity. }
    rewrite E2.
    assert (E3 : RSD.parse_line (RSD.mkRSDData id ply "" "" 0 []) ("MAT=" ++ mat)
                 = RSD.mkRSDData id ply mat "" 0 []).
    { unfold RSD.parse_line, JsString.startsWith. cbn. rewrite Hpre. reflexivity. }
    rewrite E3.
    assert (E4 : RSD.parse_line (RSD.mkRSDData id ply mat "" 0 []) ("GRP=" ++ grp)
                 = RSD.mkRSDData id ply mat grp 0 []).
    { unfold RSD.parse_line, JsString.startsWith. cbn. rewrite Hpre. reflexivity. }
    rewrite E4.
    assert (E5 : RSD.parse_line (RSD.mkRSDData id ply mat grp 0 []) ("NTEX=" ++ count)
                 = RSD.mkRSDData id ply mat grp n []).
    { unfold RSD.parse_line.
      change (JsString.startsWith ("NTEX=" ++ count) "@RSD") with false.
      change (JsString.startsWith ("NTEX=" ++ count) "PLY=") with false.
      change (JsString.startsWith ("NTEX=" ++ count) "MAT=") with false.
      change (JsString.startsWith ("NTEX=" ++ count) "GRP=") with false.
      rewrite (startsWith_append "NTEX=" count).
      change (JsString.substring_from 5 ("NTEX=" ++ count)) with count.
      rewrite Hcount. reflexivity. }
    rewrite E5.
    destruct (fold_texture_lines entries (RSD.mkRSDData id ply mat grp n []) Hentries)
      as (H1 & H2 & H3 & H4 & H5 & H6).
    rewrite (RSDData_eta (fold_left _ _ _)), H1, H2, H3, H4, H5, H6. reflexivity. }
  rewrite Hparse. split; [reflexivity|]. split.
  - reflexivity.
  - unfold RSDFile_getTextureFilenames. cbn [RSD.textures]. apply map_map.
Qed.

Lemma parse_descriptor_well_formed_witness :
  RSD.parse usual_descriptor
  = RSD.mkRSDData "@RSD940102" "AAAC.PLY" "AAAC.MAT" "AAAC.GRP" 2
      ["AABB.TIM"; "AACC.tim"] /\
  RSDFile_getPModelFilename (RSD.parse usual_descriptor) = "AAAC.P" /\
  RSDFile_getTextureFilenames (RSD.parse usual_descriptor)
  = ["AABB.TEX"; "AACC.TEX"].
Proof.
  assert (H : Forall (fun e : string * string =>
                        isIndex (fst e) = true /\ isReference (snd e) = true)
                [("0", "AABB.TIM"); ("1", "AACC.tim")])
    by (repeat constructor).
  assert (Hexact : (- 2 ^ 53 <= 2 <= 2 ^ 53)%Z)
    by (split; vm_compute; discriminate).
  exact (parse_descriptor_well_formed usual_descriptor "@RSD940102" "AAAC.PLY"
           "AAAC.MAT" "AAAC.GRP" "2" 2 [("0", "AABB.TIM"); ("1", "AACC.tim")]
           eq_refl eq_refl eq_refl Hexact H).
Defined.

End DescriptorText.

(** ** The hex viewer *)

Section Viewer.

Import HexViewer.

Lemma skipn_nth {A : Type} (l : list A) (k : nat) (d : A) :
  (k < List.length l)%nat -> skipn k l = nth k l d :: skipn (S k) l.
Proof.
  revert k. induction l as [|x l IH]; intros k Hk; [cbn in Hk; lia|].
  destruct k as [|k]; [reflexivity|].
  cbn [skipn nth]. apply IH. cbn in Hk. lia.
Qed.

Lemma scan_text_forallb (data : Uint8Array) (n : nat) :
  forall i : Z,
    0 <= i -> i + Z.of_nat n <= byteLength data ->
    scan_text data i n
    = forallb (fun b => isTextByte (byte_to_Z b))
        (firstn n (skipn (Z.to_nat i) data)).
Proof.
  unfold byteLength.
  induction n as [|n IH]; intros i H0 Hn; [reflexivity|].
  cbn [scan_text].
  rewrite (skipn_nth data (Z.to_nat i) x00) by lia.
  cbn [firstn forallb]. unfold u8_at.
  destruct (isTextByte (byte_to_Z (nth (Z.to_nat i) data x00))); cbn [negb andb];
    [|reflexivity].
  rewrite (IH (i + 1)) by lia.
  replace (Z.to_nat (i + 1)) with (S (Z.to_nat i)) by lia. reflexivity.
Qed.

Lemma isLikelyText_forallb (data : Uint8Array) :
  isLikelyText data
  = forallb (fun b => isTextByte (byte_to_Z b)) (firstn 100 data)
    && negb (Nat.eqb (List.length data) 0).
Proof.
  unfold isLikelyText. cbv zeta.
  rewrite (scan_text_forallb data _ 0) by (unfold byteLength; lia).
  cbn [Z.to_nat skipn]. unfold byteLength.
  assert (Hfirst : firstn (Z.to_nat (Z.min 100 (Z.of_nat (List.length data)))) data
                   = firstn 100 data).
  { destruct (Z.min_spec 100 (Z.of_nat (List.length data))) as [[Hlt ->] | [Hge ->]].
    - reflexivity.
    - rewrite Nat2Z.id, firstn_all. symmetry. apply firstn_all2. lia. }
  rewrite Hfirst.
  destruct (forallb _ (firstn 100 data)); cbn [andb]; [|reflexivity].
  destruct data as [|b data]; [reflexivity|].
  cbn [List.length Nat.eqb negb]. apply Z.ltb_lt. lia.
Qed.

(** X21: the viewer takes data for text exactly when it is not empty and
    each of its first 100 bytes is printable ASCII, a tab, LF or CR; what
    follows the first 100 bytes is not looked at. *)
Theorem isLikelyText_first_bytes (data : Uint8Array) :
  (isLikelyText data = true <->
   data <> [] /\
   Forall (fun b => isTextByte (byte_to_Z b) = true) (firstn 100 data)) /\
  (forall tail : Uint8Array,
     100 <= byteLength data ->
     isLikelyText (data ++ tail) = isLikelyText data).
Proof.
  split.
  - rewrite isLikelyText_forallb, Bool.andb_true_iff, forallb_forall, Forall_forall.
    rewrite Bool.negb_true_iff, Nat.eqb_neq.
    split; intros [H1 H2]; split; try assumption.
    + intros ->. apply H2. reflexivity.
    + destruct data; [contradiction | discriminate].
  - intros tail Hlen. unfold byteLength in Hlen.
    rewrite !isLikelyText_forallb.
    rewrite firstn_app. replace (100 - List.length data)%nat with O by lia.
    cbn [firstn]. rewrite app_nil_r, length_app.
    destruct data as [|b data]; [cbn in Hlen; lia|]. reflexivity.
Qed.

Lemma code_ascii_of_byte (b : byte) :
  JsString.code (ascii_of_byte b) = byte_to_Z b.
Proof. destruct b; reflexivity. Qed.

Lemma isShown_lineFeed : isShown lineFeed = true.
Proof. reflexivity. Qed.

Lemma isShown_dot : isShown "."%char = true.
Proof. reflexivity. Qed.

(** What the plain text holds, for data of at most [n] bytes. *)
Lemma plaintext_chars_shown (n : nat) :
  forall data : list byte,
    (List.length data <= n)%nat ->
    allChars isShown (plaintext_chars data) = true /\
    (String.length (plaintext_chars data) <= List.length data)%nat.
Proof.
  induction n as [|n IH]; intros data Hn.
  - destruct data; [split; [reflexivity | cbn; lia] | cbn in Hn; lia].
  - destruct data as [|b rest]; [split; [reflexivity | cbn; lia]|].
    cbn [List.length] in Hn.
    destruct (IH rest ltac:(lia)) as (IH1 & IH2).
    cbn [plaintext_chars]. cbv zeta.
    destruct (isPrintable (byte_to_Z b)) eqn:Hp.
    + cbn [allChars String.length List.length]. split; [|lia].
      unfold isShown at 1. rewrite code_ascii_of_byte, Hp. exact IH1.
    + destruct rest as [|b' rest'].
      * destruct ((byte_to_Z b =? 10) || (byte_to_Z b =? 13));
          (split; [reflexivity | cbn; lia]).
      * cbn [List.length] in Hn.
        destruct (IH rest' ltac:(lia)) as (IH1' & IH2').
        destruct ((byte_to_Z b =? 13) && (byte_to_Z b' =? 10)).
        -- cbn [allChars String.length List.length]. rewrite isShown_lineFeed.
           split; [exact IH1' | lia].
        -- destruct ((byte_to_Z b =? 10) || (byte_to_Z b =? 13));
             cbn [allChars String.length]; cbn [List.length] in IH2 |- *;
             rewrite ?isShown_lineFeed, ?isShown_dot;
             (split; [exact IH1 | lia]).
Qed.

Lemma plaintext_chars_clean (data : list byte) :
  Forall (fun b => isPrintable (byte_to_Z b) = true \/ b = x0a) data ->
  plaintext_chars data = string_of_list_byte data.
Proof.
  induction 1 as [|b rest [Hp | ->] _ IH].
  - reflexivity.
  - cbn [plaintext_chars]. cbv zeta. rewrite Hp, IH. reflexivity.
  - cbn [plaintext_chars]. cbv zeta.
    change (isPrintable (byte_to_Z x0a)) with false. cbv iota.
    change (byte_to_Z x0a =? 13) with false.
    change ((byte_to_Z x0a =? 10) || false) with true. cbn [andb].
    rewrite IH. destruct rest; reflexivity.
Qed.

Lemma plaintext_chars_crlf (n : nat) :
  forall before after : list byte,
    (List.length before <= n)%nat ->
    plaintext_chars (before ++ [x0d; x0a] ++ after)
    = (plaintext_chars before ++ String lineFeed (plaintext_chars after))%string.
Proof.
  induction n as [|n IH]; intros before after Hn.
  - destruct before; [reflexivity | cbn in Hn; lia].
  - destruct before as [|b rest]; [reflexivity|].
    cbn [List.length] in Hn.
    pose proof (IH rest after ltac:(lia)) as IHrest.
    cbn [app] in IHrest |- *. cbn [plaintext_chars]. cbv zeta.
    destruct (isPrintable (byte_to_Z b)).
    + cbn [append]. rewrite <- IHrest. reflexivity.
    + destruct rest as [|b' rest'].
      * cbn [app] in IHrest |- *.
        change (byte_to_Z x0d =? 10) with false. rewrite Bool.andb_false_r.
        rewrite IHrest.
        destruct ((byte_to_Z b =? 10) || (byte_to_Z b =? 13)); reflexivity.
      * cbn [app List.length] in Hn, IHrest |- *.
        pose proof (IH rest' after ltac:(lia)) as IHrest'.
        cbn [app] in IHrest'.
        destruct ((byte_to_Z b =? 13) && (byte_to_Z b' =? 10)).
        -- rewrite IHrest'. reflexivity.
        -- rewrite IHrest.
           destruct ((byte_to_Z b =? 10) || (byte_to_Z b =? 13)); reflexivity.
Qed.

(** X22: the plain text view shows nothing in hex mode or for data not
    taken for text; otherwise it holds printable ASCII and line feeds only,
    at most one character per byte; data made of printable ASCII and LF is
    shown as it is; and a CR LF pair anywhere in the data shows as one line
    feed between what precedes and what follows. *)
Theorem plaintextContent_shown (data : Uint8Array) :
  plaintextContent data Hex = EmptyString /\
  (isLikelyText data = false -> plaintextContent data Plaintext = EmptyString) /\
  (forall viewType,
     allChars isShown (plaintextContent data viewType) = true /\
     (String.length (plaintextContent data viewType) <= List.length data)%nat) /\
  (isLikelyText data = true ->
   Forall (fun b => isPrintable (byte_to_Z b) = true \/ b = x0a) data ->
   plaintextContent data Plaintext = JsString.decode data) /\
  (forall before after : list byte,
     plaintext_chars (before ++ [x0d; x0a] ++ after)
     = (plaintext_chars before ++ String lineFeed (plaintext_chars after))%string).
Proof.
  split; [reflexivity|]. split; [|split; [|split]].
  - intros H. unfold plaintextContent. rewrite H. reflexivity.
  - intros [|]; cbn [plaintextContent];
      [split; [reflexivity | cbn; lia]|].
    destruct (isLikelyText data); [|split; [reflexivity | cbn; lia]].
    apply (plaintext_chars_shown (List.length data)). lia.
  - intros Htext Hclean. unfold plaintextContent, JsString.decode. rewrite Htext.
    apply plaintext_chars_clean. exact Hclean.
  - intros before after.
    apply (plaintext_chars_crlf (List.length before)). lia.
Qed.

Lemma plaintextContent_shown_witness :
  plaintextContent [x68; x69; x0a] Plaintext
  = String "h" (String "i" (String lineFeed EmptyString)).
Proof.
  assert (Hclean : Forall (fun b => isPrintable (byte_to_Z b) = true \/ b = x0a)
                     [x68; x69; x0a]).
  { constructor; [left; reflexivity|]. constructor; [left; reflexivity|].
    constructor; [right; reflexivity|]. constructor. }
  exact (proj1 (proj2 (proj2 (proj2 (plaintextContent_shown [x68; x69; x0a]))))
           eq_refl Hclean).
Defined.

Lemma firstn_add_skipn {A : Type} (l : list A) (a b : nat) :
  firstn (a + b) l = firstn a l ++ firstn b (skipn a l).
Proof.
  revert l. induction a as [|a IH]; intros l; [reflexivity|].
  destruct l as [|x l]; [destruct b; reflexivity|].
  cbn [Nat.add firstn skipn app]. rewrite IH. reflexivity.
Qed.

(** A row is the next [columns] bytes, or what is left of the data. *)
Lemma row_bytes (data : Uint8Array) (columns index : Z) :
  0 < columns -> 0 <= index ->
  snd (getRowData data columns index)
  = firstn (Z.to_nat columns) (skipn (Z.to_nat (index * columns)) data).
Proof.
  intros Hc Hi. unfold getRowData, slice. cbv zeta. cbn [snd].
  assert (H0 : 0 <= index * columns) by nia.
  destruct (Z.min_spec (index * columns + columns) (byteLength data))
    as [[Hlt ->] | [Hge ->]].
  - f_equal. lia.
  - unfold byteLength in *.
    rewrite !firstn_all2; [reflexivity | |]; rewrite length_skipn; lia.
Qed.

Lemma rows_prefix (data : Uint8Array) (columns : Z) (m : nat) :
  0 < columns ->
  List.concat (map (fun k => snd (getRowData data columns (Z.of_nat k))) (seq 0 m))
  = firstn (Z.to_nat (Z.of_nat m * columns)) data.
Proof.
  intros Hc. induction m as [|m IH]; [reflexivity|].
  rewrite seq_S, map_app, concat_app, IH. cbn [Nat.add map List.concat].
  rewrite app_nil_r, (row_bytes data columns (Z.of_nat m) Hc) by lia.
  rewrite <- firstn_add_skipn. f_equal. nia.
Qed.

Lemma rowCount_bounds (data : Uint8Array) (columns : Z) :
  0 < columns ->
  byteLength data <= rowCount data columns * columns /\
  (rowCount data columns - 1) * columns < byteLength data \/
  byteLength data = 0 /\ rowCount data columns = 0.
Proof.
  intros Hc. unfold rowCount.
  pose proof (byteLength_nonneg data) as Hlen.
  pose proof (Z.div_mod (byteLength data + columns - 1) columns ltac:(lia)) as Hdiv.
  pose proof (Z.mod_pos_bound (byteLength data + columns - 1) columns Hc) as Hmod.
  destruct (Z.eq_dec (byteLength data) 0) as [Hz|Hnz].
  - right. split; [exact Hz|]. rewrite Hz. apply Z.div_small. lia.
  - left. nia.
Qed.

(** X23: the rows of the hex view show every byte exactly once and in
    order: for a positive number of columns the rows 0 to rowCount - 1,
    one after the other, are the data; row [index] starts at offset
    [index * columns], holds [columns] bytes, or the bytes that are left in
    the last row, and no row is empty; a row past the last is empty. *)
Theorem rows_show_every_byte (data : Uint8Array) (columns : Z) :
  0 < columns ->
  List.concat (map (fun k => snd (getRowData data columns (Z.of_nat k)))
            (seq 0 (Z.to_nat (rowCount data columns))))
  = data /\
  (forall index,
     0 <= index < rowCount data columns ->
     fst (getRowData data columns index) = index * columns /\
     byteLength (snd (getRowData data columns index))
     = Z.min columns (byteLength data - index * columns) /\
     0 < byteLength (snd (getRowData data columns index))) /\
  (forall index,
     rowCount data columns <= index ->
     snd (getRowData data columns index) = []).
Proof.
  intros Hc.
  pose proof (byteLength_nonneg data) as Hlen.
  pose proof (rowCount_bounds data columns Hc) as Hrows.
  assert (Hn : 0 <= rowCount data columns).
  { unfold rowCount. apply Z.div_pos; lia. }
  split; [|split].
  - rewrite rows_prefix by exact Hc. rewrite Z2Nat.id by exact Hn.
    apply firstn_all2. unfold byteLength in *. lia.
  - intros index Hi. split; [reflexivity|].
    rewrite row_bytes by lia. unfold byteLength in *.
    rewrite length_firstn, length_skipn.
    destruct Hrows as [[Hup Hlow] | [_ Hzero]]; [|lia].
    assert (index * columns <= (rowCount data columns - 1) * columns) by nia.
    lia.
  - intros index Hi. rewrite row_bytes by lia.
    rewrite skipn_all2; [destruct (Z.to_nat columns); reflexivity|].
    unfold byteLength in *.
    destruct Hrows as [[Hup Hlow] | [Hzero _]]; [|lia].
    assert (rowCount data columns * columns <= index * columns) by nia.
    lia.
Qed.

Lemma rows_show_every_byte_witness :
  rowCount [x01; x02; x03; x04; x05] 2 = 3 /\
  snd (getRowData [x01; x02; x03; x04; x05] 2 2) = [x05] /\
  List.concat (map (fun k => snd (getRowData [x01; x02; x03; x04; x05] 2 (Z.of_nat k)))
            (seq 0 3))
  = [x01; x02; x03; x04; x05].
Proof.
  split; [reflexivity|]. split; [reflexivity|].
  exact (proj1 (rows_show_every_byte [x01; x02; x03; x04; x05] 2 eq_refl)).
Defined.

End Viewer.
